(** * PeetBet agent SDK: result resolution, outcome derivation, VRF cost

    A shallow embedding of the part of [PeetBetClient] (client.ts) that
    turns on-chain room state into game results:

    - [getCoinFlipGameResult] and [getDiceGameResult]  (outcome derivation),
    - [waitForCoinFlipResult] and [waitForDiceResult]  (polling waiters),
    - [estimateVrfCost] and the join/start writes that await it.

    Conventions of the embedding:

    - a JavaScript [bigint] is a [Z]; [/] on bigints is [Z.quot] and [%] is
      [Z.rem] (both truncate toward zero); a [number] that the code only
      uses as an integer (player counts, basis points, milliseconds) is a
      [Z] as well;
    - an address ([`0x${string}`]) is a [string];
    - [async] methods run in the monad [M]: a state monad over [World]
      (wall clock and the history of external calls) with exceptions;
    - everything outside the client (contracts, RPC node, timers, wallet)
      is a [Chain]: a table saying what each external call answers and
      how long it takes;
    - [while] loops take a fuel argument; running out of fuel is [None]. *)

From Stdlib Require Import ZArith String Ascii List Bool Lia.
From Stdlib Require Import DecimalString.
Import ListNotations.

Local Open Scope string_scope.
Local Open Scope Z_scope.

(* ================================================================= *)
(** ** JavaScript values used by the client *)

Module JS.

(** [String.prototype.toLowerCase], on the ASCII range (addresses are
    "0x" followed by hexadecimal digits). *)
Definition lower_ascii (c : ascii) : ascii :=
  let n := nat_of_ascii c in
  if (Nat.leb 65 n && Nat.leb n 90)%bool then ascii_of_nat (n + 32) else c.

Fixpoint toLowerCase (s : string) : string :=
  match s with
  | EmptyString => EmptyString
  | String c rest => String (lower_ascii c) (toLowerCase rest)
  end.

(** [s.slice(0, n)]. *)
Definition slice0 (n : nat) (s : string) : string := substring 0 n s.

(** Strict equality [===] on strings. *)
Definition strict_eq (a b : string) : bool := String.eqb a b.

(** Truthiness of an optional string: [undefined] and [""] are falsy. *)
Definition truthy (s : option string) : bool :=
  match s with
  | Some s => negb (String.eqb s "")
  | None => false
  end.

(** [a ?? b] *)
Definition nullish {A} (a : option A) (b : option A) : option A :=
  match a with
  | Some _ => a
  | None => b
  end.

(** Template-literal rendering of an integer [number] or [bigint]. *)
Definition show (z : Z) : string := NilZero.string_of_int (Z.to_int z).

(** Digits of [r] (0 <= r < 1000) as a decimal fraction, trailing
    zeros removed: what follows the point when [ms / 1000] is
    rendered. *)
Definition fraction3 (r : Z) : string :=
  let d1 := r / 100 in
  let d2 := (r / 10) mod 10 in
  let d3 := r mod 10 in
  if d3 =? 0 then
    if d2 =? 0 then show d1 else show d1 ++ show d2
  else show d1 ++ show d2 ++ show d3.

(** Template-literal rendering of [ms / 1000] for an integer number of
    milliseconds (exact for the magnitudes a timeout takes, below
    10^15). *)
Definition show_div1000 (ms : Z) : string :=
  let a := Z.abs ms in
  let sign := if ms <? 0 then "-" else "" in
  if a mod 1000 =? 0 then sign ++ show (a / 1000)
  else sign ++ show (a / 1000) ++ "." ++ fraction3 (a mod 1000).

End JS.

Definition address := string.

Definition ZERO_ADDRESS : address :=
  "0x0000000000000000000000000000000000000000".

(** [a.toLowerCase() === b.toLowerCase()] *)
Definition same_address (a b : address) : bool :=
  JS.strict_eq (JS.toLowerCase a) (JS.toLowerCase b).

(** [throw new Error(message)]; a rejected read or write is an exception
    too. *)
Inductive exn : Type :=
| Error (message : string).

Inductive Outcome (A : Type) : Type :=
| Returned (a : A)
| Thrown (e : exn).
Arguments Returned {A} a.
Arguments Thrown {A} e.

(* ================================================================= *)
(** ** Types (types.ts) *)

Module CoinFlipRoom.
Record t : Type := mk {
  id : Z;
  roomNumber : Z;
  createdAt : Z;
  playerA : address;
  playerB : address;
  betAmount : Z;
  isActive : bool;
  winner : address;
  isHouseGame : bool;
  isChallenge : bool;
  completedAt : Z;
  randomWord : Z;
  vrfRequestId : Z;
  houseEdgeBps : Z
}.
End CoinFlipRoom.

Module DiceRoom.
Record t : Type := mk {
  id : Z;
  roomNumber : Z;
  creator : address;
  betAmount : Z;
  maxPlayers : Z;
  currentPlayers : Z;
  isActive : bool;
  hasStarted : bool;
  winningNumber : Z;
  winner : address;
  createdAt : Z;
  completedAt : Z;
  isPrivate : bool
}.
End DiceRoom.

Inductive CoinFace : Type := heads | tails.

Definition CoinFace_text (c : CoinFace) : string :=
  match c with
  | heads => "heads"
  | tails => "tails"
  end.

Module CoinFlipGameResult.
Record t : Type := mk {
  roomId : Z;
  didIWin : bool;
  winner : address;
  loser : address;
  playerA : address;
  playerB : address;
  betAmount : Z;
  payout : Z;
  fee : Z;
  netChange : Z;
  randomWord : Z;
  coinResult : CoinFace;
  summary : string;
  completedAt : Z;
  isHouseGame : bool
}.
End CoinFlipGameResult.

Module DiceGameResult.
Record t : Type := mk {
  roomId : Z;
  didIWin : bool;
  winner : address;
  winningNumber : Z;
  myNumber : Z;
  playerCount : Z;
  players : list address;
  betAmount : Z;
  payout : Z;
  fee : Z;
  netChange : Z;
  randomWord : Z;
  summary : string;
  completedAt : Z
}.
End DiceGameResult.

Module VrfCostEstimate.
Record t : Type := mk {
  cost : Z;
  maxFeePerGas : Z;
  maxPriorityFeePerGas : Z
}.
End VrfCostEstimate.

(** What [estimateFeesPerGas] resolves to: both fields may be absent. *)
Module FeeData.
Record t : Type := mk {
  maxFeePerGas : option Z;
  maxPriorityFeePerGas : option Z
}.
End FeeData.

Definition Hash := string.

Module TransactionReceipt.
Record t : Type := mk {
  transactionHash : Hash;
  blockNumber : Z
}.
End TransactionReceipt.

Module TransactionResult.
Record t : Type := mk {
  hash : Hash;
  receipt : TransactionReceipt.t
}.
End TransactionResult.

Module JoinRoomOptions.
Record t : Type := mk { roomId : Z }.
End JoinRoomOptions.

Module JoinDiceRoomOptions.
Record t : Type := mk {
  roomId : Z;
  currentPlayers : Z;
  maxPlayers : Z
}.
End JoinDiceRoomOptions.

(* ================================================================= *)
(** ** The outside world *)

Inductive Contract : Type :=
| peerBetCore | coinFlipGame | diceGame | vrfWrapper.

(** The argument of [walletClient.writeContract]. *)
Module WriteRequest.
Record t : Type := mk {
  target : Contract;
  functionName : string;
  args : list Z;
  value : option Z;
  maxFeePerGas : option Z;
  maxPriorityFeePerGas : option Z;
  gas : Z
}.
End WriteRequest.

(** Every external call the modelled methods make. *)
Inductive Call : Type :=
| Read_coinFlipGame_getRoom (roomId : Z)
| Read_diceGame_getRoom (roomId : Z)
| Read_diceGame_getRoomPlayers (roomId : Z)
| Read_diceGame_getPlayerNumber (roomId : Z) (player : address)
| Read_peerBetCore_vrfCallbackGasLimit
| EstimateFeesPerGas
| GetGasPrice
| Read_vrfWrapper_estimateRequestPriceNative
    (gasLimit numWords gasPriceWei : Z)
| WriteContract (request : WriteRequest.t)
| WaitForTransactionReceipt (hash : Hash)
| SetTimeout (ms : Z).

(** [clock] is what [Date.now()] reads; [history] lists the external
    calls made so far, most recent first. *)
Record World : Type := mkWorld {
  clock : Z;
  history : list Call
}.

(** What each external call answers in a given world, and how many
    milliseconds it takes. *)
Record Chain : Type := mkChain {
  coinFlipGame_getRoom : Z -> World -> Outcome CoinFlipRoom.t;
  diceGame_getRoom : Z -> World -> Outcome DiceRoom.t;
  diceGame_getRoomPlayers : Z -> World -> Outcome (list address);
  diceGame_getPlayerNumber : Z -> address -> World -> Outcome Z;
  peerBetCore_vrfCallbackGasLimit : World -> Outcome Z;
  estimateFeesPerGas : World -> Outcome FeeData.t;
  getGasPrice : World -> Outcome Z;
  vrfWrapper_estimateRequestPriceNative :
    Z -> Z -> Z -> World -> Outcome Z;
  writeContract : WriteRequest.t -> World -> Outcome Hash;
  waitForTransactionReceipt :
    Hash -> World -> Outcome TransactionReceipt.t;
  duration : Call -> World -> Z
}.

(* ================================================================= *)
(** ** The monad of async methods *)

Definition M (A : Type) : Type := World -> Outcome A * World.

Definition ret {A} (a : A) : M A := fun w => (Returned a, w).

Definition throw {A} (e : exn) : M A := fun w => (Thrown e, w).

Definition bind {A B} (m : M A) (k : A -> M B) : M B :=
  fun w =>
    match m w with
    | (Returned a, w') => k a w'
    | (Thrown e, w') => (Thrown e, w')
    end.

(** [try { m } catch { h }] *)
Definition try_catch {A} (m : M A) (h : M A) : M A :=
  fun w =>
    match m w with
    | (Returned a, w') => (Returned a, w')
    | (Thrown _, w') => h w'
    end.

Notation "'let!' x ':=' m 'in' k" := (bind m (fun x => k))
  (at level 10, x pattern, m at level 200, k at level 200).
Notation "'do!' m 'in' k" := (bind m (fun _ => k))
  (at level 10, m at level 200, k at level 200).

(** Methods that loop: [None] when the fuel does not suffice. *)
Definition L (A : Type) : Type := World -> option (Outcome A * World).

Definition lift {A} (m : M A) : L A := fun w => Some (m w).

Definition out_of_fuel {A} : L A := fun _ => None.

Definition bindL {A B} (m : L A) (k : A -> L B) : L B :=
  fun w =>
    match m w with
    | Some (Returned a, w') => k a w'
    | Some (Thrown e, w') => Some (Thrown e, w')
    | None => None
    end.

Notation "'let?' x ':=' m 'in' k" := (bindL m (fun x => k))
  (at level 10, x pattern, m at level 200, k at level 200).
Notation "'do?' m 'in' k" := (bindL m (fun _ => k))
  (at level 10, m at level 200, k at level 200).

(** [Date.now()] *)
Definition Date_now : M Z := fun w => (Returned (clock w), w).

(** An awaited external call: its answer is the chain's, it is recorded
    in the history and the clock moves by the time it took. *)
Definition after (ch : Chain) (c : Call) (w : World) : World :=
  {| clock := clock w + duration ch c w; history := c :: history w |}.

Definition perform {A} (ch : Chain) (c : Call)
    (answer : World -> Outcome A) : M A :=
  fun w => (answer w, after ch c w).

(** [await new Promise(resolve => setTimeout(resolve, ms))] *)
Definition sleep (ch : Chain) (ms : Z) : M unit :=
  perform ch (SetTimeout ms) (fun _ => Returned tt).

(** Number of room reads (of either game) recorded in a history. *)
Fixpoint polls (h : list Call) : nat :=
  match h with
  | [] => O
  | Read_coinFlipGame_getRoom _ :: rest => S (polls rest)
  | Read_diceGame_getRoom _ :: rest => S (polls rest)
  | _ :: rest => polls rest
  end.

Definition is_write (c : Call) : bool :=
  match c with
  | WriteContract _ => true
  | _ => false
  end.

(** Number of transactions submitted in a history. *)
Definition writes (h : list Call) : nat := length (filter is_write h).

(* ================================================================= *)
(** ** PeetBetClient (client.ts) *)

(** The client's own state: the account derived from the private key.
    The wallet client is created together with it, so one field stands
    for both. *)
Record Client : Type := mkClient {
  account : option address
}.

Module WaitForResultOptions.
Record t : Type := mk {
  timeout : option Z;
  pollInterval : option Z;
  onProgress : option (string -> M unit)
}.
(** [options = {}] *)
Definition empty : t := mk None None None.
End WaitForResultOptions.

Definition msg_wallet_not_configured : string :=
  "Wallet not configured. Provide privateKey in options.".
Definition msg_no_address : string := "No address provided".
Definition msg_coinflip_not_completed : string :=
  "Game is not completed yet. Use waitForCoinFlipResult() to wait for completion.".
Definition msg_coinflip_cancelled : string :=
  "Game was cancelled or not completed.".
Definition msg_coinflip_room_cancelled : string :=
  "Room was cancelled before game started.".
Definition msg_dice_not_completed : string :=
  "Game is not completed yet. Use waitForDiceResult() to wait.".
Definition msg_coinflip_timeout (timeout : Z) : string :=
  "Timeout waiting for game result after " ++ JS.show_div1000 timeout
  ++ " seconds".
Definition msg_dice_timeout (timeout : Z) : string :=
  "Timeout waiting for dice result after " ++ JS.show_div1000 timeout
  ++ " seconds".

Section PeetBetClient.

(** [formatUnits] is viem's; the client only calls it. *)
Variable formatUnits : Z -> Z -> string.
Variable ch : Chain.
Variable this : Client.

Definition formatTokens (amount : Z) : string := formatUnits amount 6.

Definition requireWallet : M unit :=
  match account this with
  | None => throw (Error msg_wallet_not_configured)
  | Some _ => ret tt
  end.

Definition getCoinFlipRoom (roomId : Z) : M CoinFlipRoom.t :=
  perform ch (Read_coinFlipGame_getRoom roomId)
    (coinFlipGame_getRoom ch roomId).

Definition getDiceRoom (roomId : Z) : M DiceRoom.t :=
  perform ch (Read_diceGame_getRoom roomId) (diceGame_getRoom ch roomId).

Definition getDiceRoomPlayers (roomId : Z) : M (list address) :=
  perform ch (Read_diceGame_getRoomPlayers roomId)
    (diceGame_getRoomPlayers ch roomId).

Definition getPlayerDiceNumber (roomId : Z) (player : option address)
  : M Z :=
  let target := JS.nullish player (account this) in
  match target with
  | None => throw (Error msg_no_address)
  | Some target =>
      if JS.truthy (Some target) then
        perform ch (Read_diceGame_getPlayerNumber roomId target)
          (diceGame_getPlayerNumber ch roomId target)
      else throw (Error msg_no_address)
  end.

(* --------------------------------------------------------------- *)
(** *** Outcome derivation *)

(** [player.toLowerCase() === a.toLowerCase()] for a truthy [player]. *)
Definition player_is (player : option address) (a : address) : bool :=
  match player with
  | Some p => same_address p a
  | None => false
  end.

Definition getCoinFlipGameResult (roomId : Z)
    (playerAddress : option address) : M CoinFlipGameResult.t :=
  let! room := getCoinFlipRoom roomId in
  let player := JS.nullish playerAddress (account this) in
  if CoinFlipRoom.isActive room then
    throw (Error msg_coinflip_not_completed)
  else if JS.strict_eq (CoinFlipRoom.winner room) ZERO_ADDRESS then
    throw (Error msg_coinflip_cancelled)
  else
    (* Determine winner and loser *)
    let winner := CoinFlipRoom.winner room in
    let loser :=
      if JS.strict_eq winner (CoinFlipRoom.playerA room)
      then CoinFlipRoom.playerB room
      else CoinFlipRoom.playerA room in
    (* Calculate payout (bet * 2 minus fees) *)
    let totalPot := CoinFlipRoom.betAmount room * 2 in
    let feeBps := CoinFlipRoom.houseEdgeBps room in
    let fee := Z.quot (totalPot * feeBps) 10000 in
    let payout := totalPot - fee in
    (* Determine if calling player won *)
    let didIWin :=
      if JS.truthy player then player_is player winner else false in
    (* Calculate net change for calling player *)
    let isPlayer :=
      (player_is player (CoinFlipRoom.playerA room)
       || player_is player (CoinFlipRoom.playerB room))%bool in
    let netChange :=
      if JS.truthy player then
        if isPlayer then
          if didIWin then payout - CoinFlipRoom.betAmount room
          else - CoinFlipRoom.betAmount room
        else 0
      else 0 in
    (* Determine coin result (player A wins on even, player B on odd) *)
    let coinResult :=
      if Z.rem (CoinFlipRoom.randomWord room) 2 =? 0
      then heads else tails in
    (* Generate human-readable summary *)
    let payoutFormatted := formatTokens payout in
    let netFormatted :=
      formatTokens (if netChange <? 0 then - netChange else netChange) in
    let summary :=
      if negb (JS.truthy player) then
        "Coin landed " ++ CoinFace_text coinResult ++ ". Winner: "
        ++ JS.slice0 10 winner ++ "... won " ++ payoutFormatted ++ " USDC"
      else if didIWin then
        "🎉 You WON! Coin was " ++ CoinFace_text coinResult
        ++ ". You won " ++ payoutFormatted ++ " USDC (profit: +"
        ++ netFormatted ++ " USDC)"
      else
        let wasInGame := isPlayer in
        if wasInGame then
          "❌ You LOST. Coin was " ++ CoinFace_text coinResult
          ++ ". Lost " ++ netFormatted ++ " USDC to "
          ++ JS.slice0 10 winner ++ "..."
        else
          "Coin landed " ++ CoinFace_text coinResult ++ ". Winner: "
          ++ JS.slice0 10 winner ++ "... won " ++ payoutFormatted
          ++ " USDC" in
    ret {| CoinFlipGameResult.roomId := CoinFlipRoom.id room;
           CoinFlipGameResult.didIWin := didIWin;
           CoinFlipGameResult.winner := winner;
           CoinFlipGameResult.loser := loser;
           CoinFlipGameResult.playerA := CoinFlipRoom.playerA room;
           CoinFlipGameResult.playerB := CoinFlipRoom.playerB room;
           CoinFlipGameResult.betAmount := CoinFlipRoom.betAmount room;
           CoinFlipGameResult.payout := payout;
           CoinFlipGameResult.fee := fee;
           CoinFlipGameResult.netChange := netChange;
           CoinFlipGameResult.randomWord := CoinFlipRoom.randomWord room;
           CoinFlipGameResult.coinResult := coinResult;
           CoinFlipGameResult.summary := summary;
           CoinFlipGameResult.completedAt := CoinFlipRoom.completedAt room;
           CoinFlipGameResult.isHouseGame := CoinFlipRoom.isHouseGame room
        |}.

Definition getDiceGameResult (roomId : Z)
    (playerAddress : option address) : M DiceGameResult.t :=
  let! room := getDiceRoom roomId in
  let! players := getDiceRoomPlayers roomId in
  let player := JS.nullish playerAddress (account this) in
  if (DiceRoom.isActive room
      || JS.strict_eq (DiceRoom.winner room) ZERO_ADDRESS)%bool then
    throw (Error msg_dice_not_completed)
  else
    (* players.some(p => p.toLowerCase() === player.toLowerCase()) *)
    let isInGame := existsb (fun p => player_is player p) players in
    (* Get player's chosen number if they're in the game *)
    let! myNumber :=
      if JS.truthy player then
        if isInGame then getPlayerDiceNumber roomId player else ret 0
      else ret 0 in
    (* Calculate payout *)
    let totalPot := DiceRoom.betAmount room * DiceRoom.currentPlayers room in
    (* Assume 5% fee for dice (TODO: get from contract) *)
    let fee := Z.quot (totalPot * 500) 10000 in
    let payout := totalPot - fee in
    (* Determine if calling player won *)
    let didIWin :=
      if JS.truthy player then player_is player (DiceRoom.winner room)
      else false in
    (* Calculate net change *)
    let netChange :=
      if JS.truthy player then
        if isInGame then
          if didIWin then payout - DiceRoom.betAmount room
          else - DiceRoom.betAmount room
        else 0
      else 0 in
    (* Generate summary *)
    let payoutFormatted := formatTokens payout in
    let summary :=
      if negb (JS.truthy player) then
        "Number " ++ JS.show (DiceRoom.winningNumber room)
        ++ " won! Winner: " ++ JS.slice0 10 (DiceRoom.winner room)
        ++ "... won " ++ payoutFormatted ++ " USDC"
      else if didIWin then
        "🎉 Number " ++ JS.show (DiceRoom.winningNumber room)
        ++ " won! You WON " ++ payoutFormatted ++ " USDC!"
      else if isInGame then
        "❌ Number " ++ JS.show (DiceRoom.winningNumber room)
        ++ " won. You LOST (picked " ++ JS.show myNumber ++ ")"
      else
        "Number " ++ JS.show (DiceRoom.winningNumber room)
        ++ " won! Winner: " ++ JS.slice0 10 (DiceRoom.winner room)
        ++ "..." in
    ret {| DiceGameResult.roomId := DiceRoom.id room;
           DiceGameResult.didIWin := didIWin;
           DiceGameResult.winner := DiceRoom.winner room;
           DiceGameResult.winningNumber := DiceRoom.winningNumber room;
           DiceGameResult.myNumber := myNumber;
           DiceGameResult.playerCount := DiceRoom.currentPlayers room;
           DiceGameResult.players := players;
           DiceGameResult.betAmount := DiceRoom.betAmount room;
           DiceGameResult.payout := payout;
           DiceGameResult.fee := fee;
           DiceGameResult.netChange := netChange;
           (* Dice doesn't store random word in room struct *)
           DiceGameResult.randomWord := 0;
           DiceGameResult.summary := summary;
           DiceGameResult.completedAt := DiceRoom.completedAt room |}.

(* --------------------------------------------------------------- *)
(** *** Waiters *)

(** [if (onProgress) onProgress(status)] *)
Definition report (onProgress : option (string -> M unit))
    (status : string) : M unit :=
  match onProgress with
  | Some callback => callback status
  | None => ret tt
  end.

(** The [while (Date.now() - startTime < timeout)] loop of
    [waitForCoinFlipResult], with the [throw] that follows it. *)
Fixpoint waitForCoinFlipResult_loop (fuel : nat) (roomId : Z)
    (timeout pollInterval : Z) (onProgress : option (string -> M unit))
    (startTime : Z) : L CoinFlipGameResult.t :=
  let? now := lift Date_now in
  if now - startTime <? timeout then
    match fuel with
    | O => out_of_fuel
    | S fuel' =>
        let? room := lift (getCoinFlipRoom roomId) in
        (* Check if game completed *)
        if (negb (CoinFlipRoom.isActive room)
            && negb (JS.strict_eq (CoinFlipRoom.winner room) ZERO_ADDRESS))%bool
        then lift (getCoinFlipGameResult roomId None)
        (* Check if room was cancelled *)
        else if (negb (CoinFlipRoom.isActive room)
                 && JS.strict_eq (CoinFlipRoom.winner room) ZERO_ADDRESS
                 && JS.strict_eq (CoinFlipRoom.playerB room) ZERO_ADDRESS)%bool
        then lift (throw (Error msg_coinflip_room_cancelled))
        else
          (* Report progress *)
          do? lift (report onProgress
                      (if JS.strict_eq (CoinFlipRoom.playerB room) ZERO_ADDRESS
                       then "Waiting for opponent to join..."
                       else "Opponent joined! Waiting for VRF result...")) in
          (* Wait before next poll *)
          do? lift (sleep ch pollInterval) in
          waitForCoinFlipResult_loop fuel' roomId timeout pollInterval
            onProgress startTime
    end
  else lift (throw (Error (msg_coinflip_timeout timeout))).

Definition waitForCoinFlipResult (fuel : nat) (roomId : Z)
    (options : WaitForResultOptions.t) : L CoinFlipGameResult.t :=
  let timeout :=
    match WaitForResultOptions.timeout options with
    | Some t => t | None => 120000 end in (* 2 minutes default *)
  let pollInterval :=
    match WaitForResultOptions.pollInterval options with
    | Some p => p | None => 2000 end in (* 2 seconds default *)
  let onProgress := WaitForResultOptions.onProgress options in
  let? startTime := lift Date_now in
  waitForCoinFlipResult_loop fuel roomId timeout pollInterval onProgress
    startTime.

Fixpoint waitForDiceResult_loop (fuel : nat) (roomId : Z)
    (timeout pollInterval : Z) (onProgress : option (string -> M unit))
    (startTime : Z) : L DiceGameResult.t :=
  let? now := lift Date_now in
  if now - startTime <? timeout then
    match fuel with
    | O => out_of_fuel
    | S fuel' =>
        let? room := lift (getDiceRoom roomId) in
        (* Check if game completed *)
        if (negb (DiceRoom.isActive room)
            && negb (JS.strict_eq (DiceRoom.winner room) ZERO_ADDRESS))%bool
        then lift (getDiceGameResult roomId None)
        else
          (* Report progress *)
          do? lift (report onProgress
                      (if negb (DiceRoom.hasStarted room)
                       then "Waiting for players ("
                            ++ JS.show (DiceRoom.currentPlayers room) ++ "/"
                            ++ JS.show (DiceRoom.maxPlayers room) ++ ")..."
                       else "Game started! Waiting for VRF result...")) in
          do? lift (sleep ch pollInterval) in
          waitForDiceResult_loop fuel' roomId timeout pollInterval
            onProgress startTime
    end
  else lift (throw (Error (msg_dice_timeout timeout))).

Definition waitForDiceResult (fuel : nat) (roomId : Z)
    (options : WaitForResultOptions.t) : L DiceGameResult.t :=
  let timeout :=
    match WaitForResultOptions.timeout options with
    | Some t => t | None => 120000 end in (* 2 minutes default *)
  let pollInterval :=
    match WaitForResultOptions.pollInterval options with
    | Some p => p | None => 2000 end in (* 2 seconds default *)
  let onProgress := WaitForResultOptions.onProgress options in
  let? startTime := lift Date_now in
  waitForDiceResult_loop fuel roomId timeout pollInterval onProgress
    startTime.

(* --------------------------------------------------------------- *)
(** *** VRF helpers *)

Definition estimateVrfCost : M VrfCostEstimate.t :=
  (* Get callback gas limit from contract *)
  let! callbackGasLimit :=
    perform ch Read_peerBetCore_vrfCallbackGasLimit
      (peerBetCore_vrfCallbackGasLimit ch) in
  (* Get current gas prices *)
  let! fees :=
    try_catch
      (let! feeData := perform ch EstimateFeesPerGas (estimateFeesPerGas ch) in
       ret (match FeeData.maxFeePerGas feeData with
            | Some f => f | None => 0 end,
            match FeeData.maxPriorityFeePerGas feeData with
            | Some p => p | None => 1500000000 end)) (* 1.5 gwei default *)
      (* Fallback if estimateFeesPerGas fails *)
      (let! gasPrice := perform ch GetGasPrice (getGasPrice ch) in
       let maxPriorityFeePerGas := 1500000000 in (* 1.5 gwei *)
       ret (if gasPrice >? maxPriorityFeePerGas
            then gasPrice else maxPriorityFeePerGas,
            maxPriorityFeePerGas)) in
  let maxFeePerGas := fst fees in
  let maxPriorityFeePerGas := snd fees in
  (* Ensure maxFeePerGas >= maxPriorityFeePerGas (EIP-1559 requirement) *)
  let safeMaxFeePerGas :=
    if maxFeePerGas >? maxPriorityFeePerGas
    then maxFeePerGas else maxPriorityFeePerGas in
  (* Apply 40% buffer to account for gas price volatility *)
  let safeMaxFeePerGas :=
    Z.quot (safeMaxFeePerGas * 140) 100 in
  (* Call VRF wrapper with all 3 required arguments *)
  let! baseCost :=
    perform ch
      (Read_vrfWrapper_estimateRequestPriceNative
         callbackGasLimit 1 safeMaxFeePerGas)
      (vrfWrapper_estimateRequestPriceNative ch
         callbackGasLimit 1 safeMaxFeePerGas) in
  ret {| VrfCostEstimate.cost := baseCost;
         VrfCostEstimate.maxFeePerGas := safeMaxFeePerGas;
         VrfCostEstimate.maxPriorityFeePerGas := maxPriorityFeePerGas |}.

Definition joinCoinFlipRoom (options : JoinRoomOptions.t)
  : M TransactionResult.t :=
  do! requireWallet in
  (* Get VRF cost estimate *)
  let! vrfCost := estimateVrfCost in
  let request :=
    {| WriteRequest.target := coinFlipGame;
       WriteRequest.functionName := "joinRoom";
       WriteRequest.args := [JoinRoomOptions.roomId options];
       WriteRequest.value := Some (VrfCostEstimate.cost vrfCost);
       WriteRequest.maxFeePerGas :=
         Some (VrfCostEstimate.maxFeePerGas vrfCost);
       WriteRequest.maxPriorityFeePerGas :=
         Some (VrfCostEstimate.maxPriorityFeePerGas vrfCost);
       WriteRequest.gas := 1200000 |} in
  let! hash := perform ch (WriteContract request) (writeContract ch request) in
  let! receipt :=
    perform ch (WaitForTransactionReceipt hash)
      (waitForTransactionReceipt ch hash) in
  ret {| TransactionResult.hash := hash;
         TransactionResult.receipt := receipt |}.

Definition joinDiceRoom (options : JoinDiceRoomOptions.t)
  : M TransactionResult.t :=
  do! requireWallet in
  let isLastPlayer :=
    JoinDiceRoomOptions.currentPlayers options + 1
    =? JoinDiceRoomOptions.maxPlayers options in
  let! hash :=
    if isLastPlayer then
      let! vrfCost := estimateVrfCost in
      let request :=
        {| WriteRequest.target := diceGame;
           WriteRequest.functionName := "joinRoom";
           WriteRequest.args := [JoinDiceRoomOptions.roomId options];
           WriteRequest.value := Some (VrfCostEstimate.cost vrfCost);
           WriteRequest.maxFeePerGas :=
             Some (VrfCostEstimate.maxFeePerGas vrfCost);
           WriteRequest.maxPriorityFeePerGas :=
             Some (VrfCostEstimate.maxPriorityFeePerGas vrfCost);
           WriteRequest.gas := 1200000 |} in
      perform ch (WriteContract request) (writeContract ch request)
    else
      let request :=
        {| WriteRequest.target := diceGame;
           WriteRequest.functionName := "joinRoom";
           WriteRequest.args := [JoinDiceRoomOptions.roomId options];
           WriteRequest.value := None;
           WriteRequest.maxFeePerGas := None;
           WriteRequest.maxPriorityFeePerGas := None;
           WriteRequest.gas := 300000 |} in
      perform ch (WriteContract request) (writeContract ch request) in
  let! receipt :=
    perform ch (WaitForTransactionReceipt hash)
      (waitForTransactionReceipt ch hash) in
  ret {| TransactionResult.hash := hash;
         TransactionResult.receipt := receipt |}.

Definition startDiceGame (roomId : Z) : M TransactionResult.t :=
  do! requireWallet in
  let! vrfCost := estimateVrfCost in
  let request :=
    {| WriteRequest.target := diceGame;
       WriteRequest.functionName := "startGame";
       WriteRequest.args := [roomId];
       WriteRequest.value := Some (VrfCostEstimate.cost vrfCost);
       WriteRequest.maxFeePerGas :=
         Some (VrfCostEstimate.maxFeePerGas vrfCost);
       WriteRequest.maxPriorityFeePerGas :=
         Some (VrfCostEstimate.maxPriorityFeePerGas vrfCost);
       WriteRequest.gas := 1200000 |} in
  let! hash := perform ch (WriteContract request) (writeContract ch request) in
  let! receipt :=
    perform ch (WaitForTransactionReceipt hash)
      (waitForTransactionReceipt ch hash) in
  ret {| TransactionResult.hash := hash;
         TransactionResult.receipt := receipt |}.

End PeetBetClient.

(** Options with an explicit budget and a progress callback. *)
Definition budget (timeout pollInterval : Z)
    (onProgress : option (string -> M unit)) : WaitForResultOptions.t :=
  {| WaitForResultOptions.timeout := Some timeout;
     WaitForResultOptions.pollInterval := Some pollInterval;
     WaitForResultOptions.onProgress := onProgress |}.

(* ================================================================= *)
(** ** Concrete rooms and chains *)

Module Fixture.

(** viem's [formatUnits], for concrete runs: sign, integer part and
    the fraction without its trailing zeros. *)
Fixpoint fraction (decimals : nat) (r : Z) : string :=
  match decimals with
  | O => ""
  | S d =>
      if r =? 0 then ""
      else JS.show (r / 10 ^ Z.of_nat d) ++ fraction d (r mod 10 ^ Z.of_nat d)
  end.

Definition formatUnits (value decimals : Z) : string :=
  let a := Z.abs value in
  let unit := 10 ^ decimals in
  let frac := fraction (Z.to_nat decimals) (a mod unit) in
  (if value <? 0 then "-" else "") ++ JS.show (a / unit)
  ++ (if String.eqb frac "" then "" else "." ++ frac).

Definition alice : address := "0xAAaaAAaaAAaaAAaaAAaaAAaaAAaaAAaaAAaaAAaa".
Definition alice_lower : address :=
  "0xaaaaaaaaaaaaaaaaaaaaaaaaaaaaaaaaaaaaaaaa".
Definition bob : address := "0xbBbBbBbBbBbBbBbBbBbBbBbBbBbBbBbBbBbBbBbB".
Definition carol : address := "0xCcCcCcCcCcCcCcCcCcCcCcCcCcCcCcCcCcCcCcCc".

(** A CoinFlip room between alice and bob, 1 USDC each. *)
Definition coinFlipRoom (active : bool) (winner : address)
    (houseEdgeBps randomWord : Z) : CoinFlipRoom.t :=
  {| CoinFlipRoom.id := 7;
     CoinFlipRoom.roomNumber := 7;
     CoinFlipRoom.createdAt := 1700000000;
     CoinFlipRoom.playerA := alice;
     CoinFlipRoom.playerB := bob;
     CoinFlipRoom.betAmount := 1000000;
     CoinFlipRoom.isActive := active;
     CoinFlipRoom.winner := winner;
     CoinFlipRoom.isHouseGame := false;
     CoinFlipRoom.isChallenge := false;
     CoinFlipRoom.completedAt := 1700000060;
     CoinFlipRoom.randomWord := randomWord;
     CoinFlipRoom.vrfRequestId := 42;
     CoinFlipRoom.houseEdgeBps := houseEdgeBps |}.

(** A CoinFlip room nobody has joined. *)
Definition openCoinFlipRoom (active : bool) : CoinFlipRoom.t :=
  {| CoinFlipRoom.id := 7;
     CoinFlipRoom.roomNumber := 7;
     CoinFlipRoom.createdAt := 1700000000;
     CoinFlipRoom.playerA := alice;
     CoinFlipRoom.playerB := ZERO_ADDRESS;
     CoinFlipRoom.betAmount := 1000000;
     CoinFlipRoom.isActive := active;
     CoinFlipRoom.winner := ZERO_ADDRESS;
     CoinFlipRoom.isHouseGame := false;
     CoinFlipRoom.isChallenge := false;
     CoinFlipRoom.completedAt := 0;
     CoinFlipRoom.randomWord := 0;
     CoinFlipRoom.vrfRequestId := 0;
     CoinFlipRoom.houseEdgeBps := 500 |}.

(** A Dice room for four created by alice, 1 USDC each. *)
Definition diceRoom (active started : bool) (currentPlayers winningNumber : Z)
    (winner : address) : DiceRoom.t :=
  {| DiceRoom.id := 9;
     DiceRoom.roomNumber := 9;
     DiceRoom.creator := alice;
     DiceRoom.betAmount := 1000000;
     DiceRoom.maxPlayers := 4;
     DiceRoom.currentPlayers := currentPlayers;
     DiceRoom.isActive := active;
     DiceRoom.hasStarted := started;
     DiceRoom.winningNumber := winningNumber;
     DiceRoom.winner := winner;
     DiceRoom.createdAt := 1700000000;
     DiceRoom.completedAt := 1700000090;
     DiceRoom.isPrivate := false |}.

(** Timers are exact (a negative delay fires at once); every other
    call takes [latency] ms. *)
Definition timing (latency : Z) (c : Call) (w : World) : Z :=
  match c with
  | SetTimeout ms => Z.max 0 ms
  | _ => latency
  end.

(** A chain whose rooms do not change while it is observed. *)
Definition chain (cf : CoinFlipRoom.t) (dice : DiceRoom.t)
    (players : list address) (fees : Outcome FeeData.t)
    (gasPrice : Outcome Z) (latency : Z) : Chain :=
  {| coinFlipGame_getRoom := fun _ _ => Returned cf;
     diceGame_getRoom := fun _ _ => Returned dice;
     diceGame_getRoomPlayers := fun _ _ => Returned players;
     diceGame_getPlayerNumber := fun _ _ _ => Returned 3;
     peerBetCore_vrfCallbackGasLimit := fun _ => Returned 200000;
     estimateFeesPerGas := fun _ => fees;
     getGasPrice := fun _ => gasPrice;
     vrfWrapper_estimateRequestPriceNative :=
       fun gasLimit numWords gasPriceWei _ =>
         Returned (gasLimit * numWords * gasPriceWei);
     writeContract := fun _ _ => Returned "0xfeed";
     waitForTransactionReceipt :=
       fun hash _ =>
         Returned {| TransactionReceipt.transactionHash := hash;
                     TransactionReceipt.blockNumber := 1 |};
     duration := timing latency |}.

Definition fees (maxFee priority : Z) : Outcome FeeData.t :=
  Returned {| FeeData.maxFeePerGas := Some maxFee;
              FeeData.maxPriorityFeePerGas := Some priority |}.

Definition rpc_down : exn := Error "HTTP request failed.".

Definition reader : Client := {| account := None |}.
Definition alice_client : Client := {| account := Some alice |}.

Definition genesis : World := {| clock := 1700000100000; history := [] |}.

(** Settled games: alice beat bob at CoinFlip on the random word 7 with
    a 5% house edge; bob won a Dice game of three on number 4. *)
Definition settledCoinFlip : CoinFlipRoom.t := coinFlipRoom false alice 500 7.
Definition settledDice : DiceRoom.t := diceRoom false true 3 4 bob.
Definition settled : Chain :=
  chain settledCoinFlip settledDice [alice; bob; carol] (fees 10 20)
    (Returned 5) 0.


(** A CoinFlip room whose house edge is 50%: the payout is the bet. *)
Definition evenSplitCoinFlip : CoinFlipRoom.t :=
  coinFlipRoom false alice 5000 7.
Definition evenSplit : Chain :=
  chain evenSplitCoinFlip settledDice [alice; bob; carol] (fees 10 20)
    (Returned 5) 0.

(** Rooms that wait for players for ever; reads take [latency] ms. *)
Definition waitingDice : DiceRoom.t := diceRoom true false 1 0 ZERO_ADDRESS.
Definition waiting (latency : Z) : Chain :=
  chain (openCoinFlipRoom true) waitingDice [alice] (fees 10 20)
    (Returned 5) latency.

(** Rooms their creator cancelled before anybody joined. *)
Definition cancelledDice : DiceRoom.t := diceRoom false false 1 0 ZERO_ADDRESS.
Definition cancelled : Chain :=
  chain (openCoinFlipRoom false) cancelledDice [alice] (fees 10 20)
    (Returned 5) 0.

(** A node without [estimateFeesPerGas], with or without [getGasPrice]. *)
Definition legacy (gasPrice : Outcome Z) : Chain :=
  chain settledCoinFlip settledDice [alice; bob; carol] (Thrown rpc_down)
    gasPrice 0.



Definition ten_seconds : WaitForResultOptions.t := budget 10000 2000 None.

End Fixture.

(* ================================================================= *)
(** ** Vocabulary of the statements *)

(** A progress callback that only observes: it returns and leaves the
    world as it found it. *)
Definition benign (onProgress : option (string -> M unit)) : Prop :=
  forall status w, report onProgress status w = (Returned tt, w).

(** The observer is one of the two players of a CoinFlip room. *)
Definition participant (room : CoinFlipRoom.t) (observer : address) : bool :=
  (same_address observer (CoinFlipRoom.playerA room)
   || same_address observer (CoinFlipRoom.playerB room))%bool.

(** The three equivalences between net change and the observer's role. *)
Definition net_change_tells_role (room : CoinFlipRoom.t)
    (observer : address) (r : CoinFlipGameResult.t) : Prop :=
  (CoinFlipGameResult.netChange r
     = CoinFlipGameResult.payout r - CoinFlipGameResult.betAmount r
   <-> same_address observer (CoinFlipRoom.winner room) = true)
  /\ (CoinFlipGameResult.netChange r = - CoinFlipGameResult.betAmount r
      <-> participant room observer = true
          /\ same_address observer (CoinFlipRoom.winner room) = false)
  /\ (CoinFlipGameResult.netChange r = 0
      <-> participant room observer = false).

(** Every read of a room takes at least [ms] milliseconds. *)
Definition reads_take_at_least (ch : Chain) (ms : Z) : Prop :=
  (forall roomId w, ms <= duration ch (Read_coinFlipGame_getRoom roomId) w)
  /\ (forall roomId w, ms <= duration ch (Read_diceGame_getRoom roomId) w).

(** Every read of a room takes less than [ms] milliseconds and timers
    are exact. *)
Definition prompt_clock (ch : Chain) (ms : Z) : Prop :=
  (forall roomId w,
     0 <= duration ch (Read_coinFlipGame_getRoom roomId) w < ms)
  /\ (forall roomId w,
        0 <= duration ch (Read_diceGame_getRoom roomId) w < ms)
  /\ (forall delay w, 0 <= delay -> duration ch (SetTimeout delay) w = delay).



(** Number of flat gas-price queries recorded in a history. *)
Fixpoint gas_price_queries (h : list Call) : nat :=
  match h with
  | [] => O
  | GetGasPrice :: rest => S (gas_price_queries rest)
  | _ :: rest => gas_price_queries rest
  end.

(** A CoinFlip room that is Waiting whenever it is read. *)
Definition coinflip_stays_waiting (ch : Chain) (roomId : Z) : Prop :=
  forall w, exists room,
    coinFlipGame_getRoom ch roomId w = Returned room
    /\ CoinFlipRoom.isActive room = true.

(** A Dice room that is Waiting whenever it is read. *)
Definition dice_stays_waiting (ch : Chain) (roomId : Z) : Prop :=
  forall w, exists room,
    diceGame_getRoom ch roomId w = Returned room
    /\ DiceRoom.isActive room = true.

(** A Dice room that shows no winner whenever it is read: still active,
    or closed with the zero address as winner. *)
Definition dice_stays_without_winner (ch : Chain) (roomId : Z) : Prop :=
  forall w, exists room,
    diceGame_getRoom ch roomId w = Returned room
    /\ (DiceRoom.isActive room
        || JS.strict_eq (DiceRoom.winner room) ZERO_ADDRESS)%bool = true.

(** A Dice room that is cancelled whenever it is read. *)
Definition dice_stays_cancelled (ch : Chain) (roomId : Z) : Prop :=
  forall w, exists room,
    diceGame_getRoom ch roomId w = Returned room
    /\ DiceRoom.isActive room = false
    /\ JS.strict_eq (DiceRoom.winner room) ZERO_ADDRESS = true.

(** Time does not run backwards and a timer never fires early. *)
Definition forward_clock (ch : Chain) : Prop :=
  (forall c w, 0 <= duration ch c w)
  /\ (forall ms w, ms <= duration ch (SetTimeout ms) w).

(** A fake clock: reads are instantaneous and timers exact. *)
Definition fake_clock (ch : Chain) : Prop :=
  (forall roomId w, duration ch (Read_coinFlipGame_getRoom roomId) w = 0)
  /\ (forall roomId w, duration ch (Read_diceGame_getRoom roomId) w = 0)
  /\ (forall ms w, 0 <= ms -> duration ch (SetTimeout ms) w = ms).

(** The observer is in the player list of a Dice room. *)
Definition in_game (players : list address) (observer : address) : bool :=
  existsb (fun p => same_address observer p) players.

(** The write a call that pays for randomness submits, given the
    estimate it awaited. *)
Definition paid_request (target : Contract) (functionName : string)
    (roomId : Z) (estimate : VrfCostEstimate.t) : WriteRequest.t :=
  {| WriteRequest.target := target;
     WriteRequest.functionName := functionName;
     WriteRequest.args := [roomId];
     WriteRequest.value := Some (VrfCostEstimate.cost estimate);
     WriteRequest.maxFeePerGas :=
       Some (VrfCostEstimate.maxFeePerGas estimate);
     WriteRequest.maxPriorityFeePerGas :=
       Some (VrfCostEstimate.maxPriorityFeePerGas estimate);
     WriteRequest.gas := 1200000 |}.

(** The write of a Dice join that does not fill the room. *)
Definition plain_join_request (roomId : Z) : WriteRequest.t :=
  {| WriteRequest.target := diceGame;
     WriteRequest.functionName := "joinRoom";
     WriteRequest.args := [roomId];
     WriteRequest.value := None;
     WriteRequest.maxFeePerGas := None;
     WriteRequest.maxPriorityFeePerGas := None;
     WriteRequest.gas := 300000 |}.

(** The timeout and the poll interval a waiter works with. *)
Definition effective_timeout (options : WaitForResultOptions.t) : Z :=
  match WaitForResultOptions.timeout options with
  | Some t => t
  | None => 120000
  end.

Definition effective_pollInterval (options : WaitForResultOptions.t) : Z :=
  match WaitForResultOptions.pollInterval options with
  | Some p => p
  | None => 2000
  end.

(** A CoinFlip room that, whenever it is read, is either still active
    or closed with no winner although an opponent had joined. *)
Definition coinflip_stays_unresolved (ch : Chain) (roomId : Z) : Prop :=
  forall w, exists room,
    coinFlipGame_getRoom ch roomId w = Returned room
    /\ (CoinFlipRoom.isActive room = true
        \/ (JS.strict_eq (CoinFlipRoom.winner room) ZERO_ADDRESS = true
            /\ JS.strict_eq (CoinFlipRoom.playerB room) ZERO_ADDRESS
               = false)).

(** Chains on which one call fails. *)
Module Outage.

Definition coinflip_room (e : exn) (ch : Chain) : Chain :=
  {| coinFlipGame_getRoom := fun _ _ => Thrown e;
     diceGame_getRoom := diceGame_getRoom ch;
     diceGame_getRoomPlayers := diceGame_getRoomPlayers ch;
     diceGame_getPlayerNumber := diceGame_getPlayerNumber ch;
     peerBetCore_vrfCallbackGasLimit := peerBetCore_vrfCallbackGasLimit ch;
     estimateFeesPerGas := estimateFeesPerGas ch;
     getGasPrice := getGasPrice ch;
     vrfWrapper_estimateRequestPriceNative :=
       vrfWrapper_estimateRequestPriceNative ch;
     writeContract := writeContract ch;
     waitForTransactionReceipt := waitForTransactionReceipt ch;
     duration := duration ch |}.

Definition dice_room (e : exn) (ch : Chain) : Chain :=
  {| coinFlipGame_getRoom := coinFlipGame_getRoom ch;
     diceGame_getRoom := fun _ _ => Thrown e;
     diceGame_getRoomPlayers := diceGame_getRoomPlayers ch;
     diceGame_getPlayerNumber := diceGame_getPlayerNumber ch;
     peerBetCore_vrfCallbackGasLimit := peerBetCore_vrfCallbackGasLimit ch;
     estimateFeesPerGas := estimateFeesPerGas ch;
     getGasPrice := getGasPrice ch;
     vrfWrapper_estimateRequestPriceNative :=
       vrfWrapper_estimateRequestPriceNative ch;
     writeContract := writeContract ch;
     waitForTransactionReceipt := waitForTransactionReceipt ch;
     duration := duration ch |}.

Definition dice_players (e : exn) (ch : Chain) : Chain :=
  {| coinFlipGame_getRoom := coinFlipGame_getRoom ch;
     diceGame_getRoom := diceGame_getRoom ch;
     diceGame_getRoomPlayers := fun _ _ => Thrown e;
     diceGame_getPlayerNumber := diceGame_getPlayerNumber ch;
     peerBetCore_vrfCallbackGasLimit := peerBetCore_vrfCallbackGasLimit ch;
     estimateFeesPerGas := estimateFeesPerGas ch;
     getGasPrice := getGasPrice ch;
     vrfWrapper_estimateRequestPriceNative :=
       vrfWrapper_estimateRequestPriceNative ch;
     writeContract := writeContract ch;
     waitForTransactionReceipt := waitForTransactionReceipt ch;
     duration := duration ch |}.

Definition dice_player_number (e : exn) (ch : Chain) : Chain :=
  {| coinFlipGame_getRoom := coinFlipGame_getRoom ch;
     diceGame_getRoom := diceGame_getRoom ch;
     diceGame_getRoomPlayers := diceGame_getRoomPlayers ch;
     diceGame_getPlayerNumber := fun _ _ _ => Thrown e;
     peerBetCore_vrfCallbackGasLimit := peerBetCore_vrfCallbackGasLimit ch;
     estimateFeesPerGas := estimateFeesPerGas ch;
     getGasPrice := getGasPrice ch;
     vrfWrapper_estimateRequestPriceNative :=
       vrfWrapper_estimateRequestPriceNative ch;
     writeContract := writeContract ch;
     waitForTransactionReceipt := waitForTransactionReceipt ch;
     duration := duration ch |}.

Definition wallet_write (e : exn) (ch : Chain) : Chain :=
  {| coinFlipGame_getRoom := coinFlipGame_getRoom ch;
     diceGame_getRoom := diceGame_getRoom ch;
     diceGame_getRoomPlayers := diceGame_getRoomPlayers ch;
     diceGame_getPlayerNumber := diceGame_getPlayerNumber ch;
     peerBetCore_vrfCallbackGasLimit := peerBetCore_vrfCallbackGasLimit ch;
     estimateFeesPerGas := estimateFeesPerGas ch;
     getGasPrice := getGasPrice ch;
     vrfWrapper_estimateRequestPriceNative :=
       vrfWrapper_estimateRequestPriceNative ch;
     writeContract := fun _ _ => Thrown e;
     waitForTransactionReceipt := waitForTransactionReceipt ch;
     duration := duration ch |}.

(** A CoinFlip room that closed without a winner after bob joined. *)
Definition closedWithOpponent : Chain :=
  Fixture.chain (Fixture.coinFlipRoom false ZERO_ADDRESS 500 0)
    Fixture.cancelledDice [Fixture.alice] (Fixture.fees 10 20) (Returned 5) 0.

(** Rooms that are waiting until the clock reads [moment] and settled from
    then on. *)
Definition settling (moment : Z) : Chain :=
  {| coinFlipGame_getRoom :=
       fun _ w =>
         if clock w <? moment then Returned (Fixture.openCoinFlipRoom true)
         else Returned Fixture.settledCoinFlip;
     diceGame_getRoom :=
       fun _ w =>
         if clock w <? moment then Returned Fixture.waitingDice
         else Returned Fixture.settledDice;
     diceGame_getRoomPlayers := diceGame_getRoomPlayers Fixture.settled;
     diceGame_getPlayerNumber := diceGame_getPlayerNumber Fixture.settled;
     peerBetCore_vrfCallbackGasLimit :=
       peerBetCore_vrfCallbackGasLimit Fixture.settled;
     estimateFeesPerGas := estimateFeesPerGas Fixture.settled;
     getGasPrice := getGasPrice Fixture.settled;
     vrfWrapper_estimateRequestPriceNative :=
       vrfWrapper_estimateRequestPriceNative Fixture.settled;
     writeContract := writeContract Fixture.settled;
     waitForTransactionReceipt := waitForTransactionReceipt Fixture.settled;
     duration := duration Fixture.settled |}.

(** The rooms settle one second after the session starts. *)
Definition settlingSoon : Chain := settling (clock Fixture.genesis + 1000).

(** A progress callback that throws. *)
Definition failing_callback (e : exn) : option (string -> M unit) :=
  Some (fun _ => throw e).

Definition callback_failed : exn := Error "progress handler failed".

End Outage.

(* ================================================================= *)
(** ** Sanity checks of the embedding *)

Example formatTokens_whole :
  formatTokens Fixture.formatUnits 1000000 = "1".
Proof. reflexivity. Qed.

Example formatTokens_decimal :
  formatTokens Fixture.formatUnits 1500000 = "1.5".
Proof. reflexivity. Qed.

Example formatTokens_small :
  formatTokens Fixture.formatUnits 100 = "0.0001".
Proof. reflexivity. Qed.

Example show_div1000_default : JS.show_div1000 120000 = "120".
Proof. reflexivity. Qed.

Example show_div1000_fraction : JS.show_div1000 1500 = "1.5".
Proof. reflexivity. Qed.

(* ================================================================= *)
(** ** Outcome derivation *)

Lemma strict_eq_false_iff (a b : string) :
  JS.strict_eq a b = false <-> a <> b.
Proof. unfold JS.strict_eq. apply String.eqb_neq. Qed.

(** On non-negative operands bigint division is the floor. *)
Lemma bigint_div_floor (a b : Z) :
  0 <= a -> 0 < b -> Z.quot a b = a / b.
Proof. intros Ha Hb. apply Z.quot_div_nonneg; lia. Qed.

(** Unfolds a derivation up to the settled branch. *)
Ltac derive_coinflip Hread Hactive Hwinner :=
  unfold getCoinFlipGameResult, getCoinFlipRoom, bind, perform, ret;
  rewrite Hread; cbv beta iota; rewrite Hactive, Hwinner;
  cbv beta iota zeta.

Section CoinFlipDerivation.

Variable formatUnits : Z -> Z -> string.
Variable ch : Chain.
Variable this : Client.
Variables (roomId : Z) (playerAddress : option address) (w : World).
Variable room : CoinFlipRoom.t.

Hypothesis Hread : coinFlipGame_getRoom ch roomId w = Returned room.
Hypothesis Hinactive : CoinFlipRoom.isActive room = false.
Hypothesis Hwinner :
  JS.strict_eq (CoinFlipRoom.winner room) ZERO_ADDRESS = false.

#[local] Abbreviation run :=
  (getCoinFlipGameResult formatUnits ch this roomId playerAddress w).

Lemma coinflip_settled_returns :
  exists r, run = (Returned r, after ch (Read_coinFlipGame_getRoom roomId) w).
Proof.
  derive_coinflip Hread Hinactive Hwinner.
  eexists. reflexivity.
Qed.

Lemma coinflip_fee_payout :
  0 <= CoinFlipRoom.betAmount room ->
  0 <= CoinFlipRoom.houseEdgeBps room ->
  exists r w',
    run = (Returned r, w')
    /\ CoinFlipGameResult.fee r
       = (CoinFlipRoom.betAmount room * 2 * CoinFlipRoom.houseEdgeBps room)
         / 10000
    /\ CoinFlipGameResult.payout r
       = CoinFlipRoom.betAmount room * 2 - CoinFlipGameResult.fee r
    /\ CoinFlipGameResult.payout r + CoinFlipGameResult.fee r
       = CoinFlipRoom.betAmount room * 2.
Proof.
  intros Hbet Hbps.
  derive_coinflip Hread Hinactive Hwinner.
  eexists. eexists. split; [reflexivity|].
  cbn [CoinFlipGameResult.fee CoinFlipGameResult.payout].
  rewrite bigint_div_floor by nia.
  repeat split; lia.
Qed.

Lemma coinflip_face_by_parity :
  exists r w',
    run = (Returned r, w')
    /\ (CoinFlipGameResult.coinResult r = heads
        <-> Z.even (CoinFlipRoom.randomWord room) = true)
    /\ (CoinFlipGameResult.coinResult r = tails
        <-> Z.odd (CoinFlipRoom.randomWord room) = true).
Proof.
  derive_coinflip Hread Hinactive Hwinner.
  eexists. eexists. split; [reflexivity|].
  cbn [CoinFlipGameResult.coinResult].
  rewrite <- Z.negb_even.
  destruct (Z.rem (CoinFlipRoom.randomWord room) 2 =? 0) eqn:Hrem.
  - apply Z.eqb_eq in Hrem.
    assert (Heven : Z.even (CoinFlipRoom.randomWord room) = true).
    { apply Z.even_spec. apply Z.rem_divide in Hrem; [|lia].
      destruct Hrem as [k Hk]. exists k. lia. }
    rewrite Heven. repeat split; intros; try reflexivity; discriminate.
  - apply Z.eqb_neq in Hrem.
    assert (Heven : Z.even (CoinFlipRoom.randomWord room) = false).
    { destruct (Z.even (CoinFlipRoom.randomWord room)) eqn:E; [|reflexivity].
      exfalso. apply Hrem. apply Z.even_spec in E. destruct E as [k Hk].
      rewrite Hk. rewrite Z.mul_comm. apply Z.rem_mul. lia. }
    rewrite Heven. repeat split; intros; try reflexivity; discriminate.
Qed.

End CoinFlipDerivation.

Section DiceDerivation.

Variable formatUnits : Z -> Z -> string.
Variable ch : Chain.
Variable this : Client.
Variables (roomId : Z) (playerAddress : option address) (w : World).
Variable room : DiceRoom.t.
Variable players : list address.

#[local] Abbreviation w1 := (after ch (Read_diceGame_getRoom roomId) w).
#[local] Abbreviation w2 := (after ch (Read_diceGame_getRoomPlayers roomId) w1).
#[local] Abbreviation run :=
  (getDiceGameResult formatUnits ch this roomId playerAddress w).

Hypothesis Hroom : diceGame_getRoom ch roomId w = Returned room.
Hypothesis Hplayers : diceGame_getRoomPlayers ch roomId w1 = Returned players.

(** Both guards of the Dice derivation throw the same error. *)
Lemma dice_not_completed :
  (DiceRoom.isActive room
   || JS.strict_eq (DiceRoom.winner room) ZERO_ADDRESS)%bool = true ->
  run = (Thrown (Error msg_dice_not_completed), w2).
Proof.
  intros Hguard.
  unfold getDiceGameResult, getDiceRoom, getDiceRoomPlayers, bind, perform.
  rewrite Hroom. cbv beta iota. rewrite Hplayers. cbv beta iota.
  rewrite Hguard. reflexivity.
Qed.

Hypothesis Hinactive : DiceRoom.isActive room = false.
Hypothesis Hwinner :
  JS.strict_eq (DiceRoom.winner room) ZERO_ADDRESS = false.
Hypothesis Hnumber :
  forall p, exists n, diceGame_getPlayerNumber ch roomId p w2 = Returned n.

(** The lookup of the observer's own number returns. *)
Lemma dice_myNumber_returns (player : option address) (inGame : bool) :
  exists n w3,
    (if JS.truthy player
     then if inGame then getPlayerDiceNumber ch this roomId player else ret 0
     else ret 0) w2 = (Returned n, w3).
Proof.
  destruct (JS.truthy player) eqn:Htruthy; [destruct inGame|];
    try (exists 0, w2; reflexivity).
  destruct player as [p|]; [|discriminate].
  destruct (Hnumber p) as [n Hn].
  exists n, (after ch (Read_diceGame_getPlayerNumber roomId p) w2).
  unfold getPlayerDiceNumber, JS.nullish. rewrite Htruthy.
  unfold perform. rewrite Hn. reflexivity.
Qed.

(** Unfolds a Dice derivation up to its [return]. *)
Ltac derive_dice :=
  unfold getDiceGameResult, getDiceRoom, getDiceRoomPlayers, bind, perform;
  rewrite Hroom; cbv beta iota; rewrite Hplayers; cbv beta iota;
  rewrite Hinactive, Hwinner; cbv beta iota zeta delta [orb];
  match goal with
  | |- context [ (if JS.truthy ?p then if ?g then _ else _ else _) w2 ] =>
      let n := fresh "n" in
      let w3 := fresh "w3" in
      let Hn := fresh "Hn" in
      destruct (dice_myNumber_returns p g) as (n & w3 & Hn);
      rewrite Hn; cbv beta iota; unfold ret
  end.

Lemma dice_settled_returns : exists r w', run = (Returned r, w').
Proof. derive_dice. eexists. eexists. reflexivity. Qed.

Lemma dice_fee_payout :
  0 <= DiceRoom.betAmount room ->
  0 <= DiceRoom.currentPlayers room ->
  exists r w',
    run = (Returned r, w')
    /\ DiceGameResult.fee r
       = (DiceRoom.betAmount room * DiceRoom.currentPlayers room * 500)
         / 10000
    /\ DiceGameResult.payout r
       = DiceRoom.betAmount room * DiceRoom.currentPlayers room
         - DiceGameResult.fee r
    /\ DiceGameResult.payout r + DiceGameResult.fee r
       = DiceRoom.betAmount room * DiceRoom.currentPlayers room.
Proof.
  intros Hbet Hcount. derive_dice.
  eexists. eexists. split; [reflexivity|].
  cbn [DiceGameResult.fee DiceGameResult.payout].
  rewrite bigint_div_floor by nia.
  repeat split; lia.
Qed.

Lemma dice_randomWord_zero :
  exists r w', run = (Returned r, w') /\ DiceGameResult.randomWord r = 0.
Proof.
  derive_dice. eexists. eexists. split; reflexivity.
Qed.

End DiceDerivation.

(** Whatever the chain answers, a Dice result that is returned carries
    the random word 0. *)
Lemma dice_result_randomWord formatUnits ch this roomId playerAddress w r w' :
  getDiceGameResult formatUnits ch this roomId playerAddress w
  = (Returned r, w') ->
  DiceGameResult.randomWord r = 0.
Proof.
  unfold getDiceGameResult, bind, ret, throw.
  destruct (getDiceRoom ch roomId w) as [[room|e] wa]; [|discriminate].
  destruct (getDiceRoomPlayers ch roomId wa) as [[players|e] wb];
    [|discriminate].
  destruct (DiceRoom.isActive room
            || JS.strict_eq (DiceRoom.winner room) ZERO_ADDRESS)%bool;
    [discriminate|].
  match goal with
  | |- context [ match ?m wb with _ => _ end ] =>
      destruct (m wb) as [[n|e] wc]; [|discriminate]
  end.
  intros H. injection H as Hr _. subst r. reflexivity.
Qed.

(* ================================================================= *)
(** ** The observer's view of a CoinFlip result *)

Lemma same_address_eq (a b : address) :
  same_address a b = true <-> JS.toLowerCase a = JS.toLowerCase b.
Proof. unfold same_address, JS.strict_eq. apply String.eqb_eq. Qed.

Lemma same_address_congr (a b c : address) :
  same_address a b = true -> same_address a c = same_address b c.
Proof.
  intros H. apply same_address_eq in H. unfold same_address. now rewrite H.
Qed.

Lemma toLowerCase_empty (s : string) :
  JS.toLowerCase s = "" <-> s = "".
Proof. destruct s; cbn; split; intros H; try reflexivity; discriminate. Qed.

Section CoinFlipObserver.

Variable formatUnits : Z -> Z -> string.
Variable ch : Chain.
Variables (roomId : Z) (w : World).
Variable room : CoinFlipRoom.t.

Hypothesis Hread : coinFlipGame_getRoom ch roomId w = Returned room.
Hypothesis Hinactive : CoinFlipRoom.isActive room = false.
Hypothesis Hwinner :
  JS.strict_eq (CoinFlipRoom.winner room) ZERO_ADDRESS = false.
(** The ledger's invariant: the winner is one of the two players. *)
Hypothesis Hwinner_plays : participant room (CoinFlipRoom.winner room) = true.

Lemma winner_is_participant (observer : address) :
  same_address observer (CoinFlipRoom.winner room) = true ->
  participant room observer = true.
Proof.
  intros H. unfold participant in *.
  now rewrite !(same_address_congr _ _ _ H).
Qed.

(** Net change of an observer who is named. *)
Lemma coinflip_role_gives_net_change (this : Client) (observer : address) :
  JS.truthy (Some observer) = true ->
  exists r w',
    getCoinFlipGameResult formatUnits ch this roomId (Some observer) w
    = (Returned r, w')
    /\ CoinFlipGameResult.betAmount r = CoinFlipRoom.betAmount room
    /\ CoinFlipGameResult.didIWin r
       = same_address observer (CoinFlipRoom.winner room)
    /\ (same_address observer (CoinFlipRoom.winner room) = true ->
        CoinFlipGameResult.netChange r
        = CoinFlipGameResult.payout r - CoinFlipGameResult.betAmount r)
    /\ (participant room observer = true ->
        same_address observer (CoinFlipRoom.winner room) = false ->
        CoinFlipGameResult.netChange r = - CoinFlipGameResult.betAmount r)
    /\ (participant room observer = false ->
        CoinFlipGameResult.netChange r = 0).
Proof.
  intros Htruthy.
  pose proof (winner_is_participant observer) as Hwp.
  derive_coinflip Hread Hinactive Hwinner.
  eexists. eexists. split; [reflexivity|].
  cbn [CoinFlipGameResult.betAmount CoinFlipGameResult.didIWin
       CoinFlipGameResult.netChange CoinFlipGameResult.payout].
  cbn [JS.nullish player_is]. rewrite Htruthy.
  fold (participant room observer).
  destruct (same_address observer (CoinFlipRoom.winner room)) eqn:Hw.
  - rewrite (Hwp eq_refl). repeat split; intros; try reflexivity; discriminate.
  - destruct (participant room observer);
      repeat split; intros; try reflexivity; discriminate.
Qed.

(** When the three amounts differ, the net change tells the role. *)
Lemma coinflip_amounts_tell_role (this : Client) (observer : address) :
  JS.truthy (Some observer) = true ->
  exists r w',
    getCoinFlipGameResult formatUnits ch this roomId (Some observer) w
    = (Returned r, w')
    /\ (0 < CoinFlipGameResult.betAmount r ->
        CoinFlipGameResult.payout r <> 0 ->
        CoinFlipGameResult.payout r <> CoinFlipGameResult.betAmount r ->
        net_change_tells_role room observer r).
Proof.
  intros Htruthy.
  destruct (coinflip_role_gives_net_change this observer Htruthy)
    as (r & w' & Hrun & Hbet & _ & Hwin & Hlose & Hout).
  exists r, w'. split; [exact Hrun|].
  intros Hpos Hp0 Hpb.
  pose proof (winner_is_participant observer) as Hwp.
  unfold net_change_tells_role.
  destruct (same_address observer (CoinFlipRoom.winner room)) eqn:Hw.
  - specialize (Hwin eq_refl). rewrite (Hwp eq_refl).
    repeat split; intros; try assumption; try reflexivity;
      try discriminate; try lia.
  - destruct (participant room observer) eqn:Hp.
    + specialize (Hlose eq_refl eq_refl).
      repeat split; intros; try assumption; try reflexivity;
        try discriminate; try lia.
    + specialize (Hout eq_refl).
      repeat split; intros; try assumption; try reflexivity;
        try discriminate; try lia.
Qed.

(** Without any observer (no address passed, no wallet) the derivation
    returns, and what it returns is what a named non-participant gets. *)
Lemma coinflip_unknown_observer (this : Client) :
  account this = None ->
  exists r w',
    getCoinFlipGameResult formatUnits ch this roomId None w = (Returned r, w')
    /\ CoinFlipGameResult.didIWin r = false
    /\ CoinFlipGameResult.netChange r = 0
    /\ forall observer,
         JS.truthy (Some observer) = true ->
         participant room observer = false ->
         getCoinFlipGameResult formatUnits ch this roomId (Some observer) w
         = (Returned r, w').
Proof.
  intros Hnone.
  derive_coinflip Hread Hinactive Hwinner.
  eexists. eexists. split; [reflexivity|].
  rewrite Hnone. cbn [JS.nullish JS.truthy player_is negb orb].
  split; [reflexivity|]. split; [reflexivity|].
  intros observer Htruthy Hout.
  assert (Hw : same_address observer (CoinFlipRoom.winner room) = false).
  { destruct (same_address observer (CoinFlipRoom.winner room)) eqn:E;
      [|reflexivity].
    rewrite (winner_is_participant observer E) in Hout. discriminate. }
  rewrite Htruthy. fold (participant room observer).
  rewrite Hout, Hw. reflexivity.
Qed.

End CoinFlipObserver.

(* ================================================================= *)
(** ** Derivation errors *)

Lemma coinflip_active_is_unsettled formatUnits ch this roomId playerAddress
    w room :
  coinFlipGame_getRoom ch roomId w = Returned room ->
  CoinFlipRoom.isActive room = true ->
  getCoinFlipGameResult formatUnits ch this roomId playerAddress w
  = (Thrown (Error msg_coinflip_not_completed),
     after ch (Read_coinFlipGame_getRoom roomId) w).
Proof.
  intros Hread Hactive.
  unfold getCoinFlipGameResult, getCoinFlipRoom, bind, perform.
  rewrite Hread. cbv beta iota. rewrite Hactive. reflexivity.
Qed.

Lemma coinflip_no_winner_is_cancelled formatUnits ch this roomId
    playerAddress w room :
  coinFlipGame_getRoom ch roomId w = Returned room ->
  CoinFlipRoom.isActive room = false ->
  JS.strict_eq (CoinFlipRoom.winner room) ZERO_ADDRESS = true ->
  getCoinFlipGameResult formatUnits ch this roomId playerAddress w
  = (Thrown (Error msg_coinflip_cancelled),
     after ch (Read_coinFlipGame_getRoom roomId) w).
Proof.
  intros Hread Hinactive Hzero.
  unfold getCoinFlipGameResult, getCoinFlipRoom, bind, perform.
  rewrite Hread. cbv beta iota. rewrite Hinactive, Hzero. reflexivity.
Qed.

Lemma coinflip_errors_differ :
  Error msg_coinflip_cancelled <> Error msg_coinflip_not_completed.
Proof. discriminate. Qed.

(* ================================================================= *)
(** ** Waiters *)

Section CoinFlipWaiter.

Variable formatUnits : Z -> Z -> string.
Variable ch : Chain.
Variable this : Client.
Variable roomId : Z.
Variables timeout pollInterval : Z.
Variable onProgress : option (string -> M unit).
Variable startTime : Z.

#[local] Abbreviation loop fuel :=
  (waitForCoinFlipResult_loop formatUnits ch this fuel roomId timeout
     pollInterval onProgress startTime).
#[local] Abbreviation read := (Read_coinFlipGame_getRoom roomId).

Lemma coinflip_loop_expired fuel w :
  timeout <= clock w - startTime ->
  loop fuel w = Some (Thrown (Error (msg_coinflip_timeout timeout)), w).
Proof.
  intros Hexp.
  destruct fuel; cbn [waitForCoinFlipResult_loop];
    unfold bindL, lift, Date_now, throw;
    (replace (clock w - startTime <? timeout) with false
       by (symmetry; apply Z.ltb_ge; lia));
    reflexivity.
Qed.

(** A tick that observes a cancelled room ends the session at once. *)
Lemma coinflip_loop_cancelled fuel w room :
  clock w - startTime < timeout ->
  coinFlipGame_getRoom ch roomId w = Returned room ->
  CoinFlipRoom.isActive room = false ->
  JS.strict_eq (CoinFlipRoom.winner room) ZERO_ADDRESS = true ->
  JS.strict_eq (CoinFlipRoom.playerB room) ZERO_ADDRESS = true ->
  loop (S fuel) w
  = Some (Thrown (Error msg_coinflip_room_cancelled), after ch read w).
Proof.
  intros Hlive Hread Hinactive Hwinner Hjoiner.
  cbn [waitForCoinFlipResult_loop].
  unfold bindL, lift, Date_now, getCoinFlipRoom, perform, throw.
  apply Z.ltb_lt in Hlive. rewrite Hlive, Hread.
  cbv beta iota. rewrite Hinactive, Hwinner, Hjoiner. reflexivity.
Qed.

(** A tick that observes an active room sleeps and polls again. *)
Lemma coinflip_loop_waiting fuel w room :
  benign onProgress ->
  clock w - startTime < timeout ->
  coinFlipGame_getRoom ch roomId w = Returned room ->
  CoinFlipRoom.isActive room = true ->
  loop (S fuel) w
  = loop fuel (after ch (SetTimeout pollInterval) (after ch read w)).
Proof.
  intros Hbenign Hlive Hread Hactive.
  cbn [waitForCoinFlipResult_loop].
  unfold bindL at 1. unfold lift at 1. unfold Date_now at 1.
  apply Z.ltb_lt in Hlive. rewrite Hlive.
  unfold bindL at 1. unfold lift at 1. unfold getCoinFlipRoom, perform at 1.
  rewrite Hread. cbv beta iota. rewrite Hactive. cbn [negb andb].
  unfold bindL at 1. unfold lift at 1. rewrite Hbenign.
  unfold bindL at 1. unfold lift at 1. unfold sleep, perform.
  reflexivity.
Qed.

Hypothesis Hbenign : benign onProgress.
Hypothesis Hwaiting : coinflip_stays_waiting ch roomId.

(** With a forward clock the session times out within [n] ticks when
    what is left of the budget fits in [n] poll intervals. *)
Lemma coinflip_loop_times_out (n : nat) :
  forward_clock ch ->
  forall fuel w,
    (n <= fuel)%nat ->
    timeout - (clock w - startTime) <= pollInterval * Z.of_nat n ->
    exists w',
      loop fuel w = Some (Thrown (Error (msg_coinflip_timeout timeout)), w')
      /\ (polls (history w) <= polls (history w')
          <= polls (history w) + n)%nat
      /\ clock w <= clock w'
      /\ timeout <= clock w' - startTime.
Proof.
  intros [Hdur Htimer].
  induction n as [|n IH]; intros fuel w Hfuel Hleft.
  - exists w. rewrite coinflip_loop_expired by lia.
    repeat split; lia.
  - destruct (Z_lt_le_dec (clock w - startTime) timeout) as [Hlive|Hexp].
    + destruct fuel as [|fuel]; [lia|].
      destruct (Hwaiting w) as (room & Hread & Hactive).
      rewrite (coinflip_loop_waiting fuel w room Hbenign Hlive Hread Hactive).
      pose proof (Hdur read w) as Hd.
      pose proof (Htimer pollInterval (after ch read w)) as Ht.
      destruct (IH fuel (after ch (SetTimeout pollInterval) (after ch read w)))
        as (w' & Hrun & Hpolls & Hclock & Hdone).
      * lia.
      * cbn [after clock]. lia.
      * exists w'. split; [exact Hrun|].
        cbn [after clock history polls] in Hpolls, Hclock.
        repeat split; lia.
    + exists w. rewrite coinflip_loop_expired by lia.
      repeat split; lia.
Qed.

(** With a fake clock a budget of exactly [n] poll intervals is spent in
    exactly [n] ticks. *)
Lemma coinflip_loop_exact_ticks (n : nat) :
  fake_clock ch ->
  0 < pollInterval ->
  forall fuel w,
    (n <= fuel)%nat ->
    timeout - (clock w - startTime) = pollInterval * Z.of_nat n ->
    exists w',
      loop fuel w = Some (Thrown (Error (msg_coinflip_timeout timeout)), w')
      /\ polls (history w') = (polls (history w) + n)%nat
      /\ clock w' = clock w + pollInterval * Z.of_nat n.
Proof.
  intros (Hread0 & _ & Htimer) Hpos.
  induction n as [|n IH]; intros fuel w Hfuel Hleft.
  - exists w. rewrite coinflip_loop_expired by lia.
    repeat split; lia.
  - destruct fuel as [|fuel]; [lia|].
    destruct (Hwaiting w) as (room & Hread & Hactive).
    rewrite (coinflip_loop_waiting fuel w room Hbenign) by (trivial; nia).
    pose proof (Hread0 roomId w) as Hd.
    pose proof (Htimer pollInterval (after ch read w) ltac:(lia)) as Ht.
    destruct (IH fuel (after ch (SetTimeout pollInterval) (after ch read w)))
      as (w' & Hrun & Hpolls & Hclock).
    + lia.
    + cbn [after clock]. lia.
    + exists w'. split; [exact Hrun|].
      cbn [after clock history polls] in Hpolls, Hclock.
      split; lia.
Qed.

(** When every tick, a read and the sleep after it, takes at least
    [tick] ms, the session times out within [n] ticks once what is
    left of the budget fits in [n] of them. *)
Lemma coinflip_loop_long_ticks (n : nat) (tick : Z) :
  (forall w,
     tick <= duration ch read w
             + duration ch (SetTimeout pollInterval) (after ch read w)) ->
  forall fuel w,
    (n <= fuel)%nat ->
    timeout - (clock w - startTime) <= tick * Z.of_nat n ->
    exists w',
      loop fuel w = Some (Thrown (Error (msg_coinflip_timeout timeout)), w')
      /\ (polls (history w) <= polls (history w')
          <= polls (history w) + n)%nat
      /\ timeout <= clock w' - startTime.
Proof.
  intros Htick.
  induction n as [|n IH]; intros fuel w Hfuel Hleft.
  - exists w. rewrite coinflip_loop_expired by lia.
    repeat split; lia.
  - destruct (Z_lt_le_dec (clock w - startTime) timeout) as [Hlive|Hexp].
    + destruct fuel as [|fuel]; [lia|].
      destruct (Hwaiting w) as (room & Hread & Hactive).
      rewrite (coinflip_loop_waiting fuel w room Hbenign Hlive Hread Hactive).
      pose proof (Htick w) as Hd.
      destruct (IH fuel (after ch (SetTimeout pollInterval) (after ch read w)))
        as (w' & Hrun & Hpolls & Hdone).
      * lia.
      * cbn [after clock]. lia.
      * exists w'. split; [exact Hrun|].
        cbn [after clock history polls] in Hpolls.
        repeat split; lia.
    + exists w. rewrite coinflip_loop_expired by lia.
      repeat split; lia.
Qed.

(** With exact timers and reads shorter than [slack] ms, a session
    that is [late] ms behind a budget of [n] poll intervals still
    takes exactly [n] ticks, as long as the reads to come cannot add
    up to a poll interval. *)
Lemma coinflip_loop_prompt_ticks (n : nat) (slack : Z) :
  prompt_clock ch slack ->
  0 <= pollInterval ->
  forall fuel w late,
    (n <= fuel)%nat ->
    timeout - (clock w - startTime) = pollInterval * Z.of_nat n - late ->
    0 <= late ->
    late + (slack - 1) * (Z.of_nat n - 1) < pollInterval ->
    exists w',
      loop fuel w = Some (Thrown (Error (msg_coinflip_timeout timeout)), w')
      /\ polls (history w') = (polls (history w) + n)%nat
      /\ pollInterval * Z.of_nat n <= clock w' - clock w
         <= (pollInterval + slack - 1) * Z.of_nat n.
Proof.
  intros (Hprompt & _ & Htimer) Hpos.
  induction n as [|n IH]; intros fuel w late Hfuel Hleft Hlate Hroom.
  - exists w. rewrite coinflip_loop_expired by lia.
    repeat split; lia.
  - destruct fuel as [|fuel]; [lia|].
    destruct (Hwaiting w) as (room & Hread & Hactive).
    pose proof (Hprompt roomId w) as Hd.
    pose proof (Htimer pollInterval (after ch read w) Hpos) as Ht.
    rewrite (coinflip_loop_waiting fuel w room Hbenign) by (trivial; nia).
    destruct (IH fuel (after ch (SetTimeout pollInterval) (after ch read w))
                (late + duration ch read w))
      as (w' & Hrun & Hpolls & Hclock).
    + lia.
    + cbn [after clock]. lia.
    + lia.
    + nia.
    + exists w'. split; [exact Hrun|].
      cbn [after clock history polls] in Hpolls, Hclock.
      split; [lia|nia].
Qed.

End CoinFlipWaiter.

Section DiceWaiter.

Variable formatUnits : Z -> Z -> string.
Variable ch : Chain.
Variable this : Client.
Variable roomId : Z.
Variables timeout pollInterval : Z.
Variable onProgress : option (string -> M unit).
Variable startTime : Z.

#[local] Abbreviation loop fuel :=
  (waitForDiceResult_loop formatUnits ch this fuel roomId timeout
     pollInterval onProgress startTime).
#[local] Abbreviation read := (Read_diceGame_getRoom roomId).

Lemma dice_loop_expired fuel w :
  timeout <= clock w - startTime ->
  loop fuel w = Some (Thrown (Error (msg_dice_timeout timeout)), w).
Proof.
  intros Hexp.
  destruct fuel; cbn [waitForDiceResult_loop];
    unfold bindL, lift, Date_now, throw;
    (replace (clock w - startTime <? timeout) with false
       by (symmetry; apply Z.ltb_ge; lia));
    reflexivity.
Qed.

(** A tick that sees no winner sleeps and polls again, whether the room
    is active or closed. *)
Lemma dice_loop_no_winner fuel w room :
  benign onProgress ->
  clock w - startTime < timeout ->
  diceGame_getRoom ch roomId w = Returned room ->
  (DiceRoom.isActive room
   || JS.strict_eq (DiceRoom.winner room) ZERO_ADDRESS)%bool = true ->
  loop (S fuel) w
  = loop fuel (after ch (SetTimeout pollInterval) (after ch read w)).
Proof.
  intros Hbenign Hlive Hread Hguard.
  assert (Hdone : (negb (DiceRoom.isActive room)
                   && negb (JS.strict_eq (DiceRoom.winner room) ZERO_ADDRESS))%bool
                  = false).
  { destruct (DiceRoom.isActive room); [reflexivity|].
    cbn [orb] in Hguard. rewrite Hguard. reflexivity. }
  cbn [waitForDiceResult_loop].
  unfold bindL at 1. unfold lift at 1. unfold Date_now at 1.
  apply Z.ltb_lt in Hlive. rewrite Hlive.
  unfold bindL at 1. unfold lift at 1. unfold getDiceRoom, perform at 1.
  rewrite Hread. cbv beta iota. rewrite Hdone.
  unfold bindL at 1. unfold lift at 1. rewrite Hbenign.
  unfold bindL at 1. unfold lift at 1. unfold sleep, perform.
  reflexivity.
Qed.

Hypothesis Hbenign : benign onProgress.
Hypothesis Hno_winner : dice_stays_without_winner ch roomId.

Lemma dice_loop_times_out (n : nat) :
  forward_clock ch ->
  forall fuel w,
    (n <= fuel)%nat ->
    timeout - (clock w - startTime) <= pollInterval * Z.of_nat n ->
    exists w',
      loop fuel w = Some (Thrown (Error (msg_dice_timeout timeout)), w')
      /\ (polls (history w) <= polls (history w')
          <= polls (history w) + n)%nat
      /\ clock w <= clock w'
      /\ timeout <= clock w' - startTime.
Proof.
  intros [Hdur Htimer].
  induction n as [|n IH]; intros fuel w Hfuel Hleft.
  - exists w. rewrite dice_loop_expired by lia.
    repeat split; lia.
  - destruct (Z_lt_le_dec (clock w - startTime) timeout) as [Hlive|Hexp].
    + destruct fuel as [|fuel]; [lia|].
      destruct (Hno_winner w) as (room & Hread & Hguard).
      rewrite (dice_loop_no_winner fuel w room Hbenign Hlive Hread Hguard).
      pose proof (Hdur read w) as Hd.
      pose proof (Htimer pollInterval (after ch read w)) as Ht.
      destruct (IH fuel (after ch (SetTimeout pollInterval) (after ch read w)))
        as (w' & Hrun & Hpolls & Hclock & Hdone).
      * lia.
      * cbn [after clock]. lia.
      * exists w'. split; [exact Hrun|].
        cbn [after clock history polls] in Hpolls, Hclock.
        repeat split; lia.
    + exists w. rewrite dice_loop_expired by lia.
      repeat split; lia.
Qed.

Lemma dice_loop_exact_ticks (n : nat) :
  fake_clock ch ->
  0 < pollInterval ->
  forall fuel w,
    (n <= fuel)%nat ->
    timeout - (clock w - startTime) = pollInterval * Z.of_nat n ->
    exists w',
      loop fuel w = Some (Thrown (Error (msg_dice_timeout timeout)), w')
      /\ polls (history w') = (polls (history w) + n)%nat
      /\ clock w' = clock w + pollInterval * Z.of_nat n.
Proof.
  intros (_ & Hread0 & Htimer) Hpos.
  induction n as [|n IH]; intros fuel w Hfuel Hleft.
  - exists w. rewrite dice_loop_expired by lia.
    repeat split; lia.
  - destruct fuel as [|fuel]; [lia|].
    destruct (Hno_winner w) as (room & Hread & Hguard).
    rewrite (dice_loop_no_winner fuel w room Hbenign) by (trivial; nia).
    pose proof (Hread0 roomId w) as Hd.
    pose proof (Htimer pollInterval (after ch read w) ltac:(lia)) as Ht.
    destruct (IH fuel (after ch (SetTimeout pollInterval) (after ch read w)))
      as (w' & Hrun & Hpolls & Hclock).
    + lia.
    + cbn [after clock]. lia.
    + exists w'. split; [exact Hrun|].
      cbn [after clock history polls] in Hpolls, Hclock.
      split; lia.
Qed.

(** When every tick, a read and the sleep after it, takes at least
    [tick] ms, the session times out within [n] ticks once what is
    left of the budget fits in [n] of them. *)
Lemma dice_loop_long_ticks (n : nat) (tick : Z) :
  (forall w,
     tick <= duration ch read w
             + duration ch (SetTimeout pollInterval) (after ch read w)) ->
  forall fuel w,
    (n <= fuel)%nat ->
    timeout - (clock w - startTime) <= tick * Z.of_nat n ->
    exists w',
      loop fuel w = Some (Thrown (Error (msg_dice_timeout timeout)), w')
      /\ (polls (history w) <= polls (history w')
          <= polls (history w) + n)%nat
      /\ timeout <= clock w' - startTime.
Proof.
  intros Htick.
  induction n as [|n IH]; intros fuel w Hfuel Hleft.
  - exists w. rewrite dice_loop_expired by lia.
    repeat split; lia.
  - destruct (Z_lt_le_dec (clock w - startTime) timeout) as [Hlive|Hexp].
    + destruct fuel as [|fuel]; [lia|].
      destruct (Hno_winner w) as (room & Hread & Hguard).
      rewrite (dice_loop_no_winner fuel w room Hbenign Hlive Hread Hguard).
      pose proof (Htick w) as Hd.
      destruct (IH fuel (after ch (SetTimeout pollInterval) (after ch read w)))
        as (w' & Hrun & Hpolls & Hdone).
      * lia.
      * cbn [after clock]. lia.
      * exists w'. split; [exact Hrun|].
        cbn [after clock history polls] in Hpolls.
        repeat split; lia.
    + exists w. rewrite dice_loop_expired by lia.
      repeat split; lia.
Qed.

(** With exact timers and reads shorter than [slack] ms, a session
    that is [late] ms behind a budget of [n] poll intervals still
    takes exactly [n] ticks, as long as the reads to come cannot add
    up to a poll interval. *)
Lemma dice_loop_prompt_ticks (n : nat) (slack : Z) :
  prompt_clock ch slack ->
  0 <= pollInterval ->
  forall fuel w late,
    (n <= fuel)%nat ->
    timeout - (clock w - startTime) = pollInterval * Z.of_nat n - late ->
    0 <= late ->
    late + (slack - 1) * (Z.of_nat n - 1) < pollInterval ->
    exists w',
      loop fuel w = Some (Thrown (Error (msg_dice_timeout timeout)), w')
      /\ polls (history w') = (polls (history w) + n)%nat
      /\ pollInterval * Z.of_nat n <= clock w' - clock w
         <= (pollInterval + slack - 1) * Z.of_nat n.
Proof.
  intros (_ & Hprompt & Htimer) Hpos.
  induction n as [|n IH]; intros fuel w late Hfuel Hleft Hlate Hroom.
  - exists w. rewrite dice_loop_expired by lia.
    repeat split; lia.
  - destruct fuel as [|fuel]; [lia|].
    destruct (Hno_winner w) as (room & Hread & Hguard).
    pose proof (Hprompt roomId w) as Hd.
    pose proof (Htimer pollInterval (after ch read w) Hpos) as Ht.
    rewrite (dice_loop_no_winner fuel w room Hbenign) by (trivial; nia).
    destruct (IH fuel (after ch (SetTimeout pollInterval) (after ch read w))
                (late + duration ch read w))
      as (w' & Hrun & Hpolls & Hclock).
    + lia.
    + cbn [after clock]. lia.
    + lia.
    + nia.
    + exists w'. split; [exact Hrun|].
      cbn [after clock history polls] in Hpolls, Hclock.
      split; [lia|nia].
Qed.

End DiceWaiter.

Lemma waiting_dice_has_no_winner ch roomId :
  dice_stays_waiting ch roomId -> dice_stays_without_winner ch roomId.
Proof.
  intros H w. destruct (H w) as (room & Hread & Hactive).
  exists room. split; [exact Hread|]. rewrite Hactive. reflexivity.
Qed.

Lemma cancelled_dice_has_no_winner ch roomId :
  dice_stays_cancelled ch roomId -> dice_stays_without_winner ch roomId.
Proof.
  intros H w. destruct (H w) as (room & Hread & Hinactive & Hzero).
  exists room. split; [exact Hread|]. rewrite Hinactive, Hzero. reflexivity.
Qed.

Lemma benign_none : benign None.
Proof. intros status w. reflexivity. Qed.

(** The options default to 120000 ms and 2000 ms. *)
Lemma waitForCoinFlipResult_defaults formatUnits ch this fuel roomId w :
  waitForCoinFlipResult formatUnits ch this fuel roomId
    WaitForResultOptions.empty w
  = waitForCoinFlipResult_loop formatUnits ch this fuel roomId 120000 2000
      None (clock w) w.
Proof. reflexivity. Qed.

Lemma waitForDiceResult_defaults formatUnits ch this fuel roomId w :
  waitForDiceResult formatUnits ch this fuel roomId
    WaitForResultOptions.empty w
  = waitForDiceResult_loop formatUnits ch this fuel roomId 120000 2000
      None (clock w) w.
Proof. reflexivity. Qed.

Lemma waitForCoinFlipResult_budget formatUnits ch this fuel roomId
    timeout pollInterval onProgress w :
  waitForCoinFlipResult formatUnits ch this fuel roomId
    (budget timeout pollInterval onProgress) w
  = waitForCoinFlipResult_loop formatUnits ch this fuel roomId timeout
      pollInterval onProgress (clock w) w.
Proof. reflexivity. Qed.

Lemma waitForDiceResult_budget formatUnits ch this fuel roomId
    timeout pollInterval onProgress w :
  waitForDiceResult formatUnits ch this fuel roomId
    (budget timeout pollInterval onProgress) w
  = waitForDiceResult_loop formatUnits ch this fuel roomId timeout
      pollInterval onProgress (clock w) w.
Proof. reflexivity. Qed.

(* ================================================================= *)
(** ** VRF cost estimation *)

Section Estimator.

Variable ch : Chain.
Variable w : World.

#[local] Abbreviation w1 := (after ch Read_peerBetCore_vrfCallbackGasLimit w).
#[local] Abbreviation price gasLimit gasPrice :=
  (Read_vrfWrapper_estimateRequestPriceNative gasLimit 1 gasPrice).

(** The buffered max fee computed from the two fee readings. *)
#[local] Abbreviation buffered maxFee priority :=
  (Z.quot ((if maxFee >? priority then maxFee else priority) * 140) 100).

Lemma estimate_without_gas_limit e :
  peerBetCore_vrfCallbackGasLimit ch w = Thrown e ->
  estimateVrfCost ch w = (Thrown e, w1).
Proof.
  intros Hlimit. unfold estimateVrfCost, bind, perform at 1.
  rewrite Hlimit. reflexivity.
Qed.

Variable callbackGasLimit : Z.
Hypothesis Hlimit :
  peerBetCore_vrfCallbackGasLimit ch w = Returned callbackGasLimit.

(** The primary path: [estimateFeesPerGas] answered. *)
Lemma estimate_primary feeData :
  estimateFeesPerGas ch w1 = Returned feeData ->
  let w2 := after ch EstimateFeesPerGas w1 in
  let maxFee :=
    match FeeData.maxFeePerGas feeData with Some f => f | None => 0 end in
  let priority :=
    match FeeData.maxPriorityFeePerGas feeData with
    | Some p => p | None => 1500000000 end in
  let safe := buffered maxFee priority in
  estimateVrfCost ch w
  = (match vrfWrapper_estimateRequestPriceNative ch callbackGasLimit 1 safe w2
     with
     | Returned cost =>
         Returned {| VrfCostEstimate.cost := cost;
                     VrfCostEstimate.maxFeePerGas := safe;
                     VrfCostEstimate.maxPriorityFeePerGas := priority |}
     | Thrown e => Thrown e
     end,
     after ch (price callbackGasLimit safe) w2).
Proof.
  intros Hfees w2 maxFee priority safe.
  unfold estimateVrfCost, bind, try_catch, perform, ret.
  rewrite Hlimit. cbv beta iota. rewrite Hfees. cbv beta iota zeta.
  cbn [fst snd]. fold w2. fold maxFee. fold priority. fold safe.
  destruct (vrfWrapper_estimateRequestPriceNative ch callbackGasLimit 1 safe w2);
    reflexivity.
Qed.

(** The fallback path: [estimateFeesPerGas] threw. *)
Lemma estimate_fallback e0 :
  estimateFeesPerGas ch w1 = Thrown e0 ->
  let w2 := after ch EstimateFeesPerGas w1 in
  let w3 := after ch GetGasPrice w2 in
  estimateVrfCost ch w
  = match getGasPrice ch w2 with
    | Thrown e => (Thrown e, w3)
    | Returned gasPrice =>
        let maxFee :=
          if gasPrice >? 1500000000 then gasPrice else 1500000000 in
        let safe := buffered maxFee 1500000000 in
        (match vrfWrapper_estimateRequestPriceNative ch callbackGasLimit 1
                 safe w3 with
         | Returned cost =>
             Returned {| VrfCostEstimate.cost := cost;
                         VrfCostEstimate.maxFeePerGas := safe;
                         VrfCostEstimate.maxPriorityFeePerGas := 1500000000 |}
         | Thrown e => Thrown e
         end,
         after ch (price callbackGasLimit safe) w3)
    end.
Proof.
  intros Hfees w2 w3.
  unfold estimateVrfCost, bind, try_catch, perform, ret.
  rewrite Hlimit. cbv beta iota. rewrite Hfees. cbv beta iota zeta.
  fold w2. fold w3.
  destruct (getGasPrice ch w2) as [gasPrice|e]; [|reflexivity].
  cbn [fst snd].
  destruct (vrfWrapper_estimateRequestPriceNative ch callbackGasLimit 1 _ w3);
    reflexivity.
Qed.

End Estimator.


(** Estimating submits nothing. *)
Lemma estimate_submits_nothing ch w r w' :
  estimateVrfCost ch w = (r, w') ->
  writes (history w') = writes (history w).
Proof.
  intros Hrun.
  destruct (peerBetCore_vrfCallbackGasLimit ch w) as [limit|e] eqn:Hlimit.
  - destruct (estimateFeesPerGas ch
                (after ch Read_peerBetCore_vrfCallbackGasLimit w))
      as [feeData|e] eqn:Hfees.
    + rewrite (estimate_primary ch w limit Hlimit feeData Hfees) in Hrun.
      injection Hrun as _ Hw'. subst w'. reflexivity.
    + rewrite (estimate_fallback ch w limit Hlimit e Hfees) in Hrun.
      destruct (getGasPrice ch _) as [gasPrice|e'];
        injection Hrun as _ Hw'; subst w'; reflexivity.
  - rewrite (estimate_without_gas_limit ch w e Hlimit) in Hrun.
    injection Hrun as _ Hw'. subst w'. reflexivity.
Qed.

(** A write that awaits the estimate fails with the estimate's error
    and submits nothing. *)
Section FailedEstimate.

Variable ch : Chain.
Variable this : Client.
Variables (w w' : World) (e : exn) (signer : address).

Hypothesis Hwallet : account this = Some signer.
Hypothesis Hestimate : estimateVrfCost ch w = (Thrown e, w').




End FailedEstimate.

(* ================================================================= *)
(** ** Spelling of addresses *)

Lemma truthy_ignores_case (o o' : address) :
  JS.toLowerCase o = JS.toLowerCase o' ->
  JS.truthy (Some o) = JS.truthy (Some o').
Proof.
  destruct o, o'; cbn; intros H; try reflexivity; discriminate.
Qed.

(** The fields computed through [toLowerCase] do not depend on how the
    addresses are spelled. *)
Lemma observer_fields_ignore_case formatUnits ch ch' this this' roomId roomId'
    w w' room room' (observer observer' : address) :
  coinFlipGame_getRoom ch roomId w = Returned room ->
  coinFlipGame_getRoom ch' roomId' w' = Returned room' ->
  CoinFlipRoom.isActive room = false ->
  CoinFlipRoom.isActive room' = false ->
  JS.strict_eq (CoinFlipRoom.winner room) ZERO_ADDRESS = false ->
  JS.strict_eq (CoinFlipRoom.winner room') ZERO_ADDRESS = false ->
  JS.toLowerCase (CoinFlipRoom.winner room)
  = JS.toLowerCase (CoinFlipRoom.winner room') ->
  JS.toLowerCase (CoinFlipRoom.playerA room)
  = JS.toLowerCase (CoinFlipRoom.playerA room') ->
  JS.toLowerCase (CoinFlipRoom.playerB room)
  = JS.toLowerCase (CoinFlipRoom.playerB room') ->
  JS.toLowerCase observer = JS.toLowerCase observer' ->
  CoinFlipRoom.betAmount room = CoinFlipRoom.betAmount room' ->
  CoinFlipRoom.houseEdgeBps room = CoinFlipRoom.houseEdgeBps room' ->
  exists r r' v v',
    getCoinFlipGameResult formatUnits ch this roomId (Some observer) w
    = (Returned r, v)
    /\ getCoinFlipGameResult formatUnits ch' this' roomId' (Some observer') w'
       = (Returned r', v')
    /\ CoinFlipGameResult.didIWin r = CoinFlipGameResult.didIWin r'
    /\ CoinFlipGameResult.netChange r = CoinFlipGameResult.netChange r'
    /\ CoinFlipGameResult.payout r = CoinFlipGameResult.payout r'
    /\ CoinFlipGameResult.fee r = CoinFlipGameResult.fee r'.
Proof.
  intros Hread Hread' Hin Hin' Hw Hw' Ewinner EA EB Eobs Ebet Ebps.
  unfold getCoinFlipGameResult, getCoinFlipRoom, bind, perform, ret.
  rewrite Hread, Hread'. cbv beta iota. rewrite Hin, Hin', Hw, Hw'.
  cbv beta iota zeta.
  do 4 eexists. split; [reflexivity|]. split; [reflexivity|].
  cbn [CoinFlipGameResult.didIWin CoinFlipGameResult.netChange
       CoinFlipGameResult.payout CoinFlipGameResult.fee
       JS.nullish player_is].
  unfold same_address.
  rewrite (truthy_ignores_case observer observer' Eobs).
  rewrite Ewinner, EA, EB, Eobs, Ebet, Ebps.
  repeat split; reflexivity.
Qed.




(* ================================================================= *)
(** ** Properties of the specification *)

(** C1. For a settled CoinFlip room [getCoinFlipGameResult] returns
    fee = floor(betAmount * 2 * houseEdgeBps / 10000) and
    payout = betAmount * 2 - fee, so payout + fee is the pot; for a
    settled Dice room [getDiceGameResult] returns
    fee = floor(betAmount * currentPlayers * 500 / 10000) and
    payout = betAmount * currentPlayers - fee, so payout + fee is the pot.
    Amounts read from the ledger are unsigned. *)
Theorem payout_and_fee_make_the_pot formatUnits ch this :
  (forall roomId playerAddress w room,
     coinFlipGame_getRoom ch roomId w = Returned room ->
     CoinFlipRoom.isActive room = false ->
     JS.strict_eq (CoinFlipRoom.winner room) ZERO_ADDRESS = false ->
     0 <= CoinFlipRoom.betAmount room ->
     0 <= CoinFlipRoom.houseEdgeBps room ->
     exists r w',
       getCoinFlipGameResult formatUnits ch this roomId playerAddress w
       = (Returned r, w')
       /\ CoinFlipGameResult.fee r
          = (CoinFlipRoom.betAmount room * 2 * CoinFlipRoom.houseEdgeBps room)
            / 10000
       /\ CoinFlipGameResult.payout r
          = CoinFlipRoom.betAmount room * 2 - CoinFlipGameResult.fee r
       /\ CoinFlipGameResult.payout r + CoinFlipGameResult.fee r
          = CoinFlipRoom.betAmount room * 2)
  /\ (forall roomId playerAddress w room players,
        let w1 := after ch (Read_diceGame_getRoom roomId) w in
        let w2 := after ch (Read_diceGame_getRoomPlayers roomId) w1 in
        diceGame_getRoom ch roomId w = Returned room ->
        diceGame_getRoomPlayers ch roomId w1 = Returned players ->
        (forall p, exists n,
            diceGame_getPlayerNumber ch roomId p w2 = Returned n) ->
        DiceRoom.isActive room = false ->
        JS.strict_eq (DiceRoom.winner room) ZERO_ADDRESS = false ->
        0 <= DiceRoom.betAmount room ->
        0 <= DiceRoom.currentPlayers room ->
        exists r w',
          getDiceGameResult formatUnits ch this roomId playerAddress w
          = (Returned r, w')
          /\ DiceGameResult.fee r
             = (DiceRoom.betAmount room * DiceRoom.currentPlayers room * 500)
               / 10000
          /\ DiceGameResult.payout r
             = DiceRoom.betAmount room * DiceRoom.currentPlayers room
               - DiceGameResult.fee r
          /\ DiceGameResult.payout r + DiceGameResult.fee r
             = DiceRoom.betAmount room * DiceRoom.currentPlayers room).
Proof.
  split.
  - intros roomId playerAddress w room Hread Hin Hw Hbet Hbps.
    exact (coinflip_fee_payout formatUnits ch this roomId playerAddress w
             room Hread Hin Hw Hbet Hbps).
  - intros roomId playerAddress w room players w1 w2 Hroom Hplayers Hnumber
      Hin Hw Hbet Hcount.
    exact (dice_fee_payout formatUnits ch this roomId playerAddress w room
             players Hroom Hplayers Hin Hw Hnumber Hbet Hcount).
Qed.

Lemma payout_and_fee_make_the_pot_witness :
  (exists r w',
     getCoinFlipGameResult Fixture.formatUnits Fixture.settled Fixture.reader
       7 (Some Fixture.bob) Fixture.genesis = (Returned r, w')
     /\ CoinFlipGameResult.fee r = (1000000 * 2 * 500) / 10000
     /\ CoinFlipGameResult.payout r = 1000000 * 2 - CoinFlipGameResult.fee r
     /\ CoinFlipGameResult.payout r + CoinFlipGameResult.fee r = 1000000 * 2)
  /\ (exists r w',
        getDiceGameResult Fixture.formatUnits Fixture.settled Fixture.reader
          9 (Some Fixture.bob) Fixture.genesis = (Returned r, w')
        /\ DiceGameResult.fee r = (1000000 * 3 * 500) / 10000
        /\ DiceGameResult.payout r = 1000000 * 3 - DiceGameResult.fee r
        /\ DiceGameResult.payout r + DiceGameResult.fee r = 1000000 * 3).
Proof.
  split.
  - apply (proj1 (payout_and_fee_make_the_pot Fixture.formatUnits
                    Fixture.settled Fixture.reader)
             7 (Some Fixture.bob) Fixture.genesis Fixture.settledCoinFlip);
      [reflexivity | reflexivity | reflexivity | simpl; lia | simpl; lia].
  - apply (proj2 (payout_and_fee_make_the_pot Fixture.formatUnits
                    Fixture.settled Fixture.reader)
             9 (Some Fixture.bob) Fixture.genesis Fixture.settledDice
             [Fixture.alice; Fixture.bob; Fixture.carol]);
      [reflexivity | reflexivity | intros p; exists 3; reflexivity
      | reflexivity | reflexivity | simpl; lia | simpl; lia].
Defined.

(** C2. For a settled CoinFlip room the [coinResult] of
    [getCoinFlipGameResult] is "heads" exactly when the room's random
    word is even and "tails" exactly when it is odd, whoever observes
    and whatever the other fields hold. *)
Theorem coin_face_follows_parity formatUnits ch this roomId playerAddress
    w room :
  coinFlipGame_getRoom ch roomId w = Returned room ->
  CoinFlipRoom.isActive room = false ->
  JS.strict_eq (CoinFlipRoom.winner room) ZERO_ADDRESS = false ->
  exists r w',
    getCoinFlipGameResult formatUnits ch this roomId playerAddress w
    = (Returned r, w')
    /\ (CoinFlipGameResult.coinResult r = heads
        <-> Z.even (CoinFlipRoom.randomWord room) = true)
    /\ (CoinFlipGameResult.coinResult r = tails
        <-> Z.odd (CoinFlipRoom.randomWord room) = true).
Proof.
  intros Hread Hin Hw.
  exact (coinflip_face_by_parity formatUnits ch this roomId playerAddress w
           room Hread Hin Hw).
Qed.

Lemma coin_face_follows_parity_witness :
  exists r w',
    getCoinFlipGameResult Fixture.formatUnits Fixture.settled Fixture.reader
      7 None Fixture.genesis = (Returned r, w')
    /\ (CoinFlipGameResult.coinResult r = heads <-> Z.even 7 = true)
    /\ (CoinFlipGameResult.coinResult r = tails <-> Z.odd 7 = true).
Proof.
  apply (coin_face_follows_parity Fixture.formatUnits Fixture.settled
           Fixture.reader 7 None Fixture.genesis Fixture.settledCoinFlip);
    reflexivity.
Defined.

(** C10. The [randomWord] of every Dice result is 0: whenever
    [getDiceGameResult] returns, and it does return for every settled
    room whose reads succeed, the field holds 0 whatever the room and
    the observer are. *)
Theorem dice_result_random_word_is_zero formatUnits ch this roomId
    playerAddress w :
  (forall r w',
     getDiceGameResult formatUnits ch this roomId playerAddress w
     = (Returned r, w') ->
     DiceGameResult.randomWord r = 0)
  /\ (forall room players,
        let w1 := after ch (Read_diceGame_getRoom roomId) w in
        let w2 := after ch (Read_diceGame_getRoomPlayers roomId) w1 in
        diceGame_getRoom ch roomId w = Returned room ->
        diceGame_getRoomPlayers ch roomId w1 = Returned players ->
        (forall p, exists n,
            diceGame_getPlayerNumber ch roomId p w2 = Returned n) ->
        DiceRoom.isActive room = false ->
        JS.strict_eq (DiceRoom.winner room) ZERO_ADDRESS = false ->
        exists r w',
          getDiceGameResult formatUnits ch this roomId playerAddress w
          = (Returned r, w')
          /\ DiceGameResult.randomWord r = 0).
Proof.
  split.
  - intros r w' Hrun.
    exact (dice_result_randomWord formatUnits ch this roomId playerAddress
             w r w' Hrun).
  - intros room players w1 w2 Hroom Hplayers Hnumber Hin Hw.
    exact (dice_randomWord_zero formatUnits ch this roomId playerAddress w
             room players Hroom Hplayers Hin Hw Hnumber).
Qed.

Lemma dice_result_random_word_is_zero_witness :
  exists r w',
    getDiceGameResult Fixture.formatUnits Fixture.settled Fixture.alice_client
      9 None Fixture.genesis = (Returned r, w')
    /\ DiceGameResult.randomWord r = 0.
Proof.
  apply (proj2 (dice_result_random_word_is_zero Fixture.formatUnits
                  Fixture.settled Fixture.alice_client 9 None Fixture.genesis)
           Fixture.settledDice [Fixture.alice; Fixture.bob; Fixture.carol]);
    [reflexivity | reflexivity | intros p; exists 3; reflexivity
    | reflexivity | reflexivity].
Defined.

(** C3, as stated, fails: in a room whose house edge is 50% the payout
    equals the bet, so an outsider's net change 0 equals
    payout - betAmount although the outsider is not the winner. *)
Lemma net_change_role_counterexample :
  exists r w',
    getCoinFlipGameResult Fixture.formatUnits Fixture.evenSplit Fixture.reader
      7 (Some Fixture.carol) Fixture.genesis = (Returned r, w')
    /\ ~ net_change_tells_role Fixture.evenSplitCoinFlip Fixture.carol r.
Proof.
  eexists. eexists. split; [vm_compute; reflexivity|].
  intros [[Hrole _] _].
  vm_compute in Hrole. specialize (Hrole eq_refl). discriminate.
Qed.

(** C3, amended. For a settled CoinFlip room whose winner is one of its
    two players and for every observer address: the winner's net change
    is payout - betAmount, a non-winning participant's is -betAmount and
    a non-participant's is 0; the three converses hold as well when
    betAmount > 0 and the payout is neither 0 nor betAmount. When no
    observer is known at all (no address passed, no wallet) the
    derivation returns with didIWin = false and netChange = 0, and the
    whole result is the one a non-participant observer gets. *)
Theorem net_change_by_role formatUnits ch roomId w room :
  coinFlipGame_getRoom ch roomId w = Returned room ->
  CoinFlipRoom.isActive room = false ->
  JS.strict_eq (CoinFlipRoom.winner room) ZERO_ADDRESS = false ->
  participant room (CoinFlipRoom.winner room) = true ->
  (forall this observer,
     JS.truthy (Some observer) = true ->
     exists r w',
       getCoinFlipGameResult formatUnits ch this roomId (Some observer) w
       = (Returned r, w')
       /\ CoinFlipGameResult.didIWin r
          = same_address observer (CoinFlipRoom.winner room)
       /\ (same_address observer (CoinFlipRoom.winner room) = true ->
           CoinFlipGameResult.netChange r
           = CoinFlipGameResult.payout r - CoinFlipGameResult.betAmount r)
       /\ (participant room observer = true ->
           same_address observer (CoinFlipRoom.winner room) = false ->
           CoinFlipGameResult.netChange r = - CoinFlipGameResult.betAmount r)
       /\ (participant room observer = false ->
           CoinFlipGameResult.netChange r = 0)
       /\ (0 < CoinFlipGameResult.betAmount r ->
           CoinFlipGameResult.payout r <> 0 ->
           CoinFlipGameResult.payout r <> CoinFlipGameResult.betAmount r ->
           net_change_tells_role room observer r))
  /\ (forall this,
        account this = None ->
        exists r w',
          getCoinFlipGameResult formatUnits ch this roomId None w
          = (Returned r, w')
          /\ CoinFlipGameResult.didIWin r = false
          /\ CoinFlipGameResult.netChange r = 0
          /\ forall observer,
               JS.truthy (Some observer) = true ->
               participant room observer = false ->
               getCoinFlipGameResult formatUnits ch this roomId
                 (Some observer) w
               = (Returned r, w')).
Proof.
  intros Hread Hin Hw Hplays. split.
  - intros this observer Htruthy.
    destruct (coinflip_role_gives_net_change formatUnits ch roomId w room
                Hread Hin Hw Hplays this observer Htruthy)
      as (r & w' & Hrun & _ & Hdid & Hwin & Hlose & Hout).
    destruct (coinflip_amounts_tell_role formatUnits ch roomId w room
                Hread Hin Hw Hplays this observer Htruthy)
      as (r2 & w2 & Hrun2 & Hiff).
    rewrite Hrun in Hrun2. injection Hrun2 as Hr _. subst r2.
    exists r, w'. split; [exact Hrun|]. split; [exact Hdid|].
    split; [exact Hwin|]. split; [exact Hlose|]. split; [exact Hout|].
    exact Hiff.
  - intros this Hnone.
    exact (coinflip_unknown_observer formatUnits ch roomId w room
             Hread Hin Hw Hplays this Hnone).
Qed.

Lemma net_change_by_role_witness :
  (exists r w',
     getCoinFlipGameResult Fixture.formatUnits Fixture.settled Fixture.reader
       7 (Some Fixture.alice_lower) Fixture.genesis = (Returned r, w')
     /\ CoinFlipGameResult.didIWin r = true
     /\ CoinFlipGameResult.netChange r = 900000
     /\ net_change_tells_role Fixture.settledCoinFlip Fixture.alice_lower r)
  /\ (exists r w',
        getCoinFlipGameResult Fixture.formatUnits Fixture.settled
          Fixture.reader 7 None Fixture.genesis = (Returned r, w')
        /\ CoinFlipGameResult.didIWin r = false
        /\ CoinFlipGameResult.netChange r = 0
        /\ getCoinFlipGameResult Fixture.formatUnits Fixture.settled
             Fixture.reader 7 (Some Fixture.carol) Fixture.genesis
           = (Returned r, w')).
Proof.
  pose proof (net_change_by_role Fixture.formatUnits Fixture.settled 7
                Fixture.genesis Fixture.settledCoinFlip
                eq_refl eq_refl eq_refl eq_refl) as [Hnamed Hunknown].
  split.
  - destruct (Hnamed Fixture.reader Fixture.alice_lower eq_refl)
      as (r & w' & Hrun & Hdid & Hwin & _ & _ & Hiff).
    exists r, w'. split; [exact Hrun|].
    split; [exact Hdid|].
    injection Hrun as Hr _. subst r.
    split; [reflexivity|].
    apply Hiff; vm_compute; [reflexivity | discriminate | discriminate].
  - destruct (Hunknown Fixture.reader eq_refl)
      as (r & w' & Hrun & Hdid & Hnet & Hsame).
    exists r, w'. split; [exact Hrun|]. split; [exact Hdid|].
    split; [exact Hnet|].
    apply Hsame; reflexivity.
Defined.

(** What the derivations throw when no result exists yet. An active
    room gets the "not completed yet" error of its game. A closed room
    with the zero address as winner gets a distinct error from
    [getCoinFlipGameResult] and, from [getDiceGameResult], the error of
    an active room once more. *)
Lemma derivation_errors formatUnits ch this roomId playerAddress w :
  (forall room,
     coinFlipGame_getRoom ch roomId w = Returned room ->
     CoinFlipRoom.isActive room = true ->
     fst (getCoinFlipGameResult formatUnits ch this roomId playerAddress w)
     = Thrown (Error msg_coinflip_not_completed))
  /\ (forall room,
        coinFlipGame_getRoom ch roomId w = Returned room ->
        CoinFlipRoom.isActive room = false ->
        CoinFlipRoom.winner room = ZERO_ADDRESS ->
        fst (getCoinFlipGameResult formatUnits ch this roomId playerAddress w)
        = Thrown (Error msg_coinflip_cancelled)
        /\ Error msg_coinflip_cancelled <> Error msg_coinflip_not_completed)
  /\ (forall room players,
        diceGame_getRoom ch roomId w = Returned room ->
        diceGame_getRoomPlayers ch roomId
          (after ch (Read_diceGame_getRoom roomId) w) = Returned players ->
        DiceRoom.isActive room = true ->
        fst (getDiceGameResult formatUnits ch this roomId playerAddress w)
        = Thrown (Error msg_dice_not_completed))
  /\ (forall room players,
        diceGame_getRoom ch roomId w = Returned room ->
        diceGame_getRoomPlayers ch roomId
          (after ch (Read_diceGame_getRoom roomId) w) = Returned players ->
        DiceRoom.isActive room = false ->
        DiceRoom.winner room = ZERO_ADDRESS ->
        fst (getDiceGameResult formatUnits ch this roomId playerAddress w)
        = Thrown (Error msg_dice_not_completed)).
Proof.
  split; [|split; [|split]].
  - intros room Hread Hactive.
    now rewrite (coinflip_active_is_unsettled formatUnits ch this roomId
                   playerAddress w room Hread Hactive).
  - intros room Hread Hin Hzero.
    split; [|exact coinflip_errors_differ].
    rewrite (coinflip_no_winner_is_cancelled formatUnits ch this roomId
               playerAddress w room Hread Hin); [reflexivity|].
    rewrite Hzero. reflexivity.
  - intros room players Hroom Hplayers Hactive.
    rewrite (dice_not_completed formatUnits ch this roomId playerAddress w
               room players Hroom Hplayers); [reflexivity|].
    rewrite Hactive. reflexivity.
  - intros room players Hroom Hplayers Hin Hzero.
    rewrite (dice_not_completed formatUnits ch this roomId playerAddress w
               room players Hroom Hplayers); [reflexivity|].
    rewrite Hin, Hzero. reflexivity.
Qed.

(** C4 on the code: asked for the result of a Dice room that was
    cancelled before anybody joined (closed, the zero address as
    winner), [getDiceGameResult] throws "Game is not completed yet. Use
    waitForDiceResult() to wait.", the very error it throws for an
    active room, where [getCoinFlipGameResult] throws the distinct
    "Game was cancelled or not completed." for such a room. *)
Theorem dice_cancelled_room_gets_unsettled_error :
  fst (getDiceGameResult Fixture.formatUnits Fixture.cancelled Fixture.reader
         9 None Fixture.genesis)
  = Thrown (Error "Game is not completed yet. Use waitForDiceResult() to wait.")
  /\ fst (getDiceGameResult Fixture.formatUnits (Fixture.waiting 0)
            Fixture.reader 9 None Fixture.genesis)
     = fst (getDiceGameResult Fixture.formatUnits Fixture.cancelled
              Fixture.reader 9 None Fixture.genesis)
  /\ fst (getCoinFlipGameResult Fixture.formatUnits Fixture.cancelled
            Fixture.reader 7 None Fixture.genesis)
     = Thrown (Error "Game was cancelled or not completed.")
  /\ fst (getCoinFlipGameResult Fixture.formatUnits (Fixture.waiting 0)
            Fixture.reader 7 None Fixture.genesis)
     <> fst (getCoinFlipGameResult Fixture.formatUnits Fixture.cancelled
               Fixture.reader 7 None Fixture.genesis).
Proof.
  split; [vm_compute; reflexivity|].
  split; [vm_compute; reflexivity|].
  split; [vm_compute; reflexivity|].
  vm_compute. discriminate.
Qed.

(** C5, CoinFlip half. On the tick that observes a cancelled CoinFlip
    room the session ends with the "cancelled" error. *)
Lemma coinflip_waiter_stops_on_cancelled formatUnits ch this fuel roomId
    timeout pollInterval onProgress w room :
  0 < timeout ->
  coinFlipGame_getRoom ch roomId w = Returned room ->
  CoinFlipRoom.isActive room = false ->
  CoinFlipRoom.winner room = ZERO_ADDRESS ->
  CoinFlipRoom.playerB room = ZERO_ADDRESS ->
  waitForCoinFlipResult formatUnits ch this (S fuel) roomId
    (budget timeout pollInterval onProgress) w
  = Some (Thrown (Error msg_coinflip_room_cancelled),
          after ch (Read_coinFlipGame_getRoom roomId) w).
Proof.
  intros Hpos Hread Hin Hzero Hjoiner.
  rewrite waitForCoinFlipResult_budget.
  apply (coinflip_loop_cancelled formatUnits ch this roomId timeout
           pollInterval onProgress (clock w) fuel w room);
    try assumption; try lia.
  - rewrite Hzero. reflexivity.
  - rewrite Hjoiner. reflexivity.
Qed.

(** C5, Dice half. A Dice room that stays cancelled is polled until the
    budget is spent: on a fake clock, a budget of [n] poll intervals
    ends in the timeout error after [n] reads. *)
Lemma dice_waiter_ignores_cancellation formatUnits ch this roomId
    pollInterval onProgress (n : nat) w :
  benign onProgress ->
  dice_stays_cancelled ch roomId ->
  fake_clock ch ->
  0 < pollInterval ->
  exists w',
    waitForDiceResult formatUnits ch this n roomId
      (budget (pollInterval * Z.of_nat n) pollInterval onProgress) w
    = Some (Thrown (Error (msg_dice_timeout (pollInterval * Z.of_nat n))), w')
    /\ polls (history w') = (polls (history w) + n)%nat.
Proof.
  intros Hbenign Hcancelled Hclock Hpos.
  rewrite waitForDiceResult_budget.
  destruct (dice_loop_exact_ticks formatUnits ch this roomId
              (pollInterval * Z.of_nat n) pollInterval onProgress (clock w)
              Hbenign (cancelled_dice_has_no_winner ch roomId Hcancelled)
              n Hclock Hpos n w (le_n n))
    as (w' & Hrun & Hpolls & _); [lia|].
  exists w'. split; assumption.
Qed.

(** C5 on the code: the Dice waiter, asked to wait 10000 ms for a room
    that was cancelled before anybody joined, reads the room five times
    and then fails with the timeout error. *)
Theorem dice_waiter_polls_cancelled_room_until_timeout :
  exists w',
    waitForDiceResult Fixture.formatUnits Fixture.cancelled Fixture.reader
      5 9 Fixture.ten_seconds Fixture.genesis
    = Some (Thrown (Error "Timeout waiting for dice result after 10 seconds"),
            w')
    /\ polls (history w') = 5%nat
    /\ clock w' = clock Fixture.genesis + 10000.
Proof.
  eexists. split; [vm_compute; reflexivity|].
  split; reflexivity.
Qed.

(** C6, as stated, fails: when every read of a room that stays Waiting
    takes one second, the 10000 ms budget is spent after four polls. *)
Lemma slow_reads_counterexample :
  coinflip_stays_waiting (Fixture.waiting 1000) 7
  /\ exists w',
       waitForCoinFlipResult Fixture.formatUnits (Fixture.waiting 1000)
         Fixture.reader 5 7 Fixture.ten_seconds Fixture.genesis
       = Some (Thrown
                 (Error "Timeout waiting for game result after 10 seconds"),
               w')
       /\ polls (history w') = 4%nat
       /\ ~ (5 <= polls (history w'))%nat.
Proof.
  split.
  - intros w. exists (Fixture.openCoinFlipRoom true). split; reflexivity.
  - eexists. split; [vm_compute; reflexivity|].
    split; [reflexivity|]. cbn. lia.
Qed.

(** C6, amended. The waiters default to a timeout of 120000 ms and a
    poll interval of 2000 ms. Take a progress callback that only
    observes, a room that never leaves Waiting, timeout = 10000 ms and
    pollInterval = 2000 ms. When no call takes negative time and no
    timer fires early, the waiter fails with the timeout error, not
    before 10000 ms have passed, having read the room at least once and
    at most five times; at most four times when, in addition, every
    read takes 500 ms or more. When timers are exact and every read
    takes less than 500 ms, it reads the room exactly five times and
    fails between 10000 ms and 12500 ms after the start; when reads are
    instantaneous, exactly 10000 ms after the start. *)
Theorem waiter_timeout_budget formatUnits ch this roomId onProgress w fuel :
  benign onProgress ->
  (5 <= fuel)%nat ->
  (waitForCoinFlipResult formatUnits ch this fuel roomId
     WaitForResultOptions.empty w
   = waitForCoinFlipResult_loop formatUnits ch this fuel roomId 120000 2000
       None (clock w) w
   /\ waitForDiceResult formatUnits ch this fuel roomId
        WaitForResultOptions.empty w
      = waitForDiceResult_loop formatUnits ch this fuel roomId 120000 2000
          None (clock w) w)
  /\ (coinflip_stays_waiting ch roomId ->
      forward_clock ch ->
      exists w',
        waitForCoinFlipResult formatUnits ch this fuel roomId
          (budget 10000 2000 onProgress) w
        = Some (Thrown (Error (msg_coinflip_timeout 10000)), w')
        /\ (polls (history w) + 1 <= polls (history w')
            <= polls (history w) + 5)%nat
        /\ 10000 <= clock w' - clock w)
  /\ (coinflip_stays_waiting ch roomId ->
      fake_clock ch ->
      exists w',
        waitForCoinFlipResult formatUnits ch this fuel roomId
          (budget 10000 2000 onProgress) w
        = Some (Thrown (Error (msg_coinflip_timeout 10000)), w')
        /\ polls (history w') = (polls (history w) + 5)%nat
        /\ clock w' = clock w + 10000)
  /\ (dice_stays_waiting ch roomId ->
      forward_clock ch ->
      exists w',
        waitForDiceResult formatUnits ch this fuel roomId
          (budget 10000 2000 onProgress) w
        = Some (Thrown (Error (msg_dice_timeout 10000)), w')
        /\ (polls (history w) + 1 <= polls (history w')
            <= polls (history w) + 5)%nat
        /\ 10000 <= clock w' - clock w)
  /\ (dice_stays_waiting ch roomId ->
      fake_clock ch ->
      exists w',
        waitForDiceResult formatUnits ch this fuel roomId
          (budget 10000 2000 onProgress) w
        = Some (Thrown (Error (msg_dice_timeout 10000)), w')
        /\ polls (history w') = (polls (history w) + 5)%nat
        /\ clock w' = clock w + 10000)
  /\ (coinflip_stays_waiting ch roomId ->
      prompt_clock ch 500 ->
      exists w',
        waitForCoinFlipResult formatUnits ch this fuel roomId
          (budget 10000 2000 onProgress) w
        = Some (Thrown (Error (msg_coinflip_timeout 10000)), w')
        /\ polls (history w') = (polls (history w) + 5)%nat
        /\ 10000 <= clock w' - clock w < 12500)
  /\ (coinflip_stays_waiting ch roomId ->
      forward_clock ch ->
      reads_take_at_least ch 500 ->
      exists w',
        waitForCoinFlipResult formatUnits ch this fuel roomId
          (budget 10000 2000 onProgress) w
        = Some (Thrown (Error (msg_coinflip_timeout 10000)), w')
        /\ (polls (history w) + 1 <= polls (history w')
            <= polls (history w) + 4)%nat
        /\ 10000 <= clock w' - clock w)
  /\ (dice_stays_waiting ch roomId ->
      prompt_clock ch 500 ->
      exists w',
        waitForDiceResult formatUnits ch this fuel roomId
          (budget 10000 2000 onProgress) w
        = Some (Thrown (Error (msg_dice_timeout 10000)), w')
        /\ polls (history w') = (polls (history w) + 5)%nat
        /\ 10000 <= clock w' - clock w < 12500)
  /\ (dice_stays_waiting ch roomId ->
      forward_clock ch ->
      reads_take_at_least ch 500 ->
      exists w',
        waitForDiceResult formatUnits ch this fuel roomId
          (budget 10000 2000 onProgress) w
        = Some (Thrown (Error (msg_dice_timeout 10000)), w')
        /\ (polls (history w) + 1 <= polls (history w')
            <= polls (history w) + 4)%nat
        /\ 10000 <= clock w' - clock w).
Proof.
  intros Hbenign Hfuel.
  split; [split; reflexivity|].
  split; [|split; [|split; [|split; [|split; [|split; [|split]]]]]].
  - intros Hwaiting Hclock.
    rewrite waitForCoinFlipResult_budget.
    destruct fuel as [|fuel]; [lia|].
    destruct (Hwaiting w) as (room & Hread & Hactive).
    rewrite (coinflip_loop_waiting formatUnits ch this roomId 10000 2000
               onProgress (clock w) fuel w room Hbenign)
      by (trivial; lia).
    pose proof Hclock as [Hdur Htimer].
    pose proof (Hdur (Read_coinFlipGame_getRoom roomId) w) as Hd.
    pose proof (Htimer 2000 (after ch (Read_coinFlipGame_getRoom roomId) w))
      as Ht.
    destruct (coinflip_loop_times_out formatUnits ch this roomId 10000 2000
                onProgress (clock w) Hbenign Hwaiting 4 Hclock fuel
                (after ch (SetTimeout 2000)
                   (after ch (Read_coinFlipGame_getRoom roomId) w)))
      as (w' & Hrun & Hpolls & Hmono & Hdone).
    + lia.
    + cbn [after clock]. lia.
    + exists w'. split; [exact Hrun|].
      cbn [after clock history polls] in Hpolls, Hmono.
      split; lia.
  - intros Hwaiting Hclock.
    rewrite waitForCoinFlipResult_budget.
    destruct (coinflip_loop_exact_ticks formatUnits ch this roomId 10000 2000
                onProgress (clock w) Hbenign Hwaiting 5 Hclock ltac:(lia)
                fuel w Hfuel ltac:(lia))
      as (w' & Hrun & Hpolls & Htime).
    exists w'. split; [exact Hrun|]. split; [exact Hpolls | lia].
  - intros Hwaiting Hclock.
    pose proof (waiting_dice_has_no_winner ch roomId Hwaiting) as Hno_winner.
    rewrite waitForDiceResult_budget.
    destruct fuel as [|fuel]; [lia|].
    destruct (Hno_winner w) as (room & Hread & Hguard).
    rewrite (dice_loop_no_winner formatUnits ch this roomId 10000 2000
               onProgress (clock w) fuel w room Hbenign)
      by (trivial; lia).
    pose proof Hclock as [Hdur Htimer].
    pose proof (Hdur (Read_diceGame_getRoom roomId) w) as Hd.
    pose proof (Htimer 2000 (after ch (Read_diceGame_getRoom roomId) w))
      as Ht.
    destruct (dice_loop_times_out formatUnits ch this roomId 10000 2000
                onProgress (clock w) Hbenign Hno_winner 4 Hclock fuel
                (after ch (SetTimeout 2000)
                   (after ch (Read_diceGame_getRoom roomId) w)))
      as (w' & Hrun & Hpolls & Hmono & Hdone).
    + lia.
    + cbn [after clock]. lia.
    + exists w'. split; [exact Hrun|].
      cbn [after clock history polls] in Hpolls, Hmono.
      split; lia.
  - intros Hwaiting Hclock.
    pose proof (waiting_dice_has_no_winner ch roomId Hwaiting) as Hno_winner.
    rewrite waitForDiceResult_budget.
    destruct (dice_loop_exact_ticks formatUnits ch this roomId 10000 2000
                onProgress (clock w) Hbenign Hno_winner 5 Hclock ltac:(lia)
                fuel w Hfuel ltac:(lia))
      as (w' & Hrun & Hpolls & Htime).
    exists w'. split; [exact Hrun|]. split; [exact Hpolls | lia].
  - intros Hwaiting Hclock.
    rewrite waitForCoinFlipResult_budget.
    destruct (coinflip_loop_prompt_ticks formatUnits ch this roomId 10000
                2000 onProgress (clock w) Hbenign Hwaiting 5 500 Hclock
                ltac:(lia) fuel w 0 Hfuel ltac:(lia) ltac:(lia) ltac:(lia))
      as (w' & Hrun & Hpolls & Htime).
    exists w'. split; [exact Hrun|]. split; [exact Hpolls | lia].
  - intros Hwaiting Hclock [Hslow _].
    rewrite waitForCoinFlipResult_budget.
    destruct fuel as [|fuel]; [lia|].
    destruct (Hwaiting w) as (room & Hread & Hactive).
    rewrite (coinflip_loop_waiting formatUnits ch this roomId 10000 2000
               onProgress (clock w) fuel w room Hbenign)
      by (trivial; lia).
    pose proof Hclock as [Hdur Htimer].
    pose proof (Hslow roomId w) as Hd.
    pose proof (Htimer 2000 (after ch (Read_coinFlipGame_getRoom roomId) w))
      as Ht.
    destruct (coinflip_loop_long_ticks formatUnits ch this roomId 10000 2000
                onProgress (clock w) Hbenign Hwaiting 3 2500
                (fun v =>
                   Z.add_le_mono _ _ _ _ (Hslow roomId v)
                     (Htimer 2000
                        (after ch (Read_coinFlipGame_getRoom roomId) v)))
                fuel
                (after ch (SetTimeout 2000)
                   (after ch (Read_coinFlipGame_getRoom roomId) w)))
      as (w' & Hrun & Hpolls & Hdone).
    + lia.
    + cbn [after clock]. lia.
    + exists w'. split; [exact Hrun|].
      cbn [after clock history polls] in Hpolls.
      split; lia.
  - intros Hwaiting Hclock.
    pose proof (waiting_dice_has_no_winner ch roomId Hwaiting) as Hno_winner.
    rewrite waitForDiceResult_budget.
    destruct (dice_loop_prompt_ticks formatUnits ch this roomId 10000
                2000 onProgress (clock w) Hbenign Hno_winner 5 500 Hclock
                ltac:(lia) fuel w 0 Hfuel ltac:(lia) ltac:(lia) ltac:(lia))
      as (w' & Hrun & Hpolls & Htime).
    exists w'. split; [exact Hrun|]. split; [exact Hpolls | lia].
  - intros Hwaiting Hclock [_ Hslow].
    pose proof (waiting_dice_has_no_winner ch roomId Hwaiting) as Hno_winner.
    rewrite waitForDiceResult_budget.
    destruct fuel as [|fuel]; [lia|].
    destruct (Hno_winner w) as (room & Hread & Hguard).
    rewrite (dice_loop_no_winner formatUnits ch this roomId 10000 2000
               onProgress (clock w) fuel w room Hbenign)
      by (trivial; lia).
    pose proof Hclock as [Hdur Htimer].
    pose proof (Hslow roomId w) as Hd.
    pose proof (Htimer 2000 (after ch (Read_diceGame_getRoom roomId) w))
      as Ht.
    destruct (dice_loop_long_ticks formatUnits ch this roomId 10000 2000
                onProgress (clock w) Hbenign Hno_winner 3 2500
                (fun v =>
                   Z.add_le_mono _ _ _ _ (Hslow roomId v)
                     (Htimer 2000
                        (after ch (Read_diceGame_getRoom roomId) v)))
                fuel
                (after ch (SetTimeout 2000)
                   (after ch (Read_diceGame_getRoom roomId) w)))
      as (w' & Hrun & Hpolls & Hdone).
    + lia.
    + cbn [after clock]. lia.
    + exists w'. split; [exact Hrun|].
      cbn [after clock history polls] in Hpolls.
      split; lia.
Qed.

Lemma fixture_forward_clock : forward_clock (Fixture.waiting 0).
Proof.
  split.
  - intros c w. destruct c; cbn; lia.
  - intros ms w. cbn. lia.
Qed.

Lemma fixture_forward_clock_with_latency latency :
  0 <= latency -> forward_clock (Fixture.waiting latency).
Proof.
  intros Hlatency. split.
  - intros c w. destruct c; cbn; lia.
  - intros ms w. cbn. lia.
Qed.

Lemma fixture_prompt_clock : prompt_clock (Fixture.waiting 499) 500.
Proof.
  split; [|split].
  - intros roomId w. cbn. lia.
  - intros roomId w. cbn. lia.
  - intros delay w Hdelay. cbn. lia.
Qed.

Lemma fixture_slow_reads : reads_take_at_least (Fixture.waiting 1000) 500.
Proof. split; intros roomId w; cbn; lia. Qed.

Lemma fixture_fake_clock : fake_clock (Fixture.waiting 0).
Proof.
  split; [|split].
  - intros roomId w. reflexivity.
  - intros roomId w. reflexivity.
  - intros ms w Hms. cbn. lia.
Qed.

Lemma fixture_coinflip_waits roomId latency :
  coinflip_stays_waiting (Fixture.waiting latency) roomId.
Proof.
  intros w. exists (Fixture.openCoinFlipRoom true). split; reflexivity.
Qed.

Lemma fixture_dice_waits roomId latency :
  dice_stays_waiting (Fixture.waiting latency) roomId.
Proof.
  intros w. exists Fixture.waitingDice. split; reflexivity.
Qed.

Lemma waiter_timeout_budget_witness :
  (exists w',
     waitForCoinFlipResult Fixture.formatUnits (Fixture.waiting 0)
       Fixture.reader 5 7 Fixture.ten_seconds Fixture.genesis
     = Some (Thrown (Error (msg_coinflip_timeout 10000)), w')
     /\ polls (history w') = (polls (history Fixture.genesis) + 5)%nat
     /\ clock w' = clock Fixture.genesis + 10000)
  /\ (exists w',
        waitForDiceResult Fixture.formatUnits (Fixture.waiting 0)
          Fixture.reader 5 7 Fixture.ten_seconds Fixture.genesis
        = Some (Thrown (Error (msg_dice_timeout 10000)), w')
        /\ (polls (history Fixture.genesis) + 1 <= polls (history w')
            <= polls (history Fixture.genesis) + 5)%nat
        /\ 10000 <= clock w' - clock Fixture.genesis)
  /\ (exists w',
        waitForCoinFlipResult Fixture.formatUnits (Fixture.waiting 499)
          Fixture.reader 5 7 Fixture.ten_seconds Fixture.genesis
        = Some (Thrown (Error (msg_coinflip_timeout 10000)), w')
        /\ polls (history w') = (polls (history Fixture.genesis) + 5)%nat
        /\ 10000 <= clock w' - clock Fixture.genesis < 12500)
  /\ (exists w',
        waitForDiceResult Fixture.formatUnits (Fixture.waiting 1000)
          Fixture.reader 5 7 Fixture.ten_seconds Fixture.genesis
        = Some (Thrown (Error (msg_dice_timeout 10000)), w')
        /\ (polls (history Fixture.genesis) + 1 <= polls (history w')
            <= polls (history Fixture.genesis) + 4)%nat
        /\ 10000 <= clock w' - clock Fixture.genesis).
Proof.
  pose proof (waiter_timeout_budget Fixture.formatUnits (Fixture.waiting 0)
                Fixture.reader 7 None Fixture.genesis 5 benign_none
                (le_n 5))
    as (_ & _ & Hcoin & Hdice & _).
  pose proof (waiter_timeout_budget Fixture.formatUnits (Fixture.waiting 499)
                Fixture.reader 7 None Fixture.genesis 5 benign_none
                (le_n 5))
    as (_ & _ & _ & _ & _ & Hprompt & _).
  pose proof (waiter_timeout_budget Fixture.formatUnits (Fixture.waiting 1000)
                Fixture.reader 7 None Fixture.genesis 5 benign_none
                (le_n 5))
    as (_ & _ & _ & _ & _ & _ & _ & _ & Hslow).
  split; [|split; [|split]].
  - apply Hcoin; [apply fixture_coinflip_waits | apply fixture_fake_clock].
  - apply Hdice; [apply fixture_dice_waits | apply fixture_forward_clock].
  - apply Hprompt; [apply fixture_coinflip_waits | apply fixture_prompt_clock].
  - apply Hslow;
      [apply fixture_dice_waits
      |apply fixture_forward_clock_with_latency; lia
      |apply fixture_slow_reads].
Defined.

Example timeout_message_coinflip :
  msg_coinflip_timeout 10000
  = "Timeout waiting for game result after 10 seconds".
Proof. reflexivity. Qed.

Example timeout_message_dice :
  msg_dice_timeout 10000 = "Timeout waiting for dice result after 10 seconds".
Proof. reflexivity. Qed.

(** C7. Whatever the gas readings, with base maxFeePerGas X and priority
    fee Y (X < Y included), [estimateVrfCost] returns
    maxFeePerGas = floor(max(X, Y) * 140 / 100) in exact integer
    arithmetic, which is at least the returned maxPriorityFeePerGas = Y,
    and asks the wrapper's price function for the callback gas limit
    read from the ledger, one word and this buffered value. This holds
    on the primary path (an absent field reads as 0 or 1500000000) and
    on the fallback path (X the flat gas price, Y = 1500000000). Fees
    are unsigned. *)
Theorem vrf_max_fee_is_buffered ch w callbackGasLimit :
  let w1 := after ch Read_peerBetCore_vrfCallbackGasLimit w in
  let w2 := after ch EstimateFeesPerGas w1 in
  let w3 := after ch GetGasPrice w2 in
  peerBetCore_vrfCallbackGasLimit ch w = Returned callbackGasLimit ->
  (forall feeData cost,
     let X := match FeeData.maxFeePerGas feeData with
              | Some f => f | None => 0 end in
     let Y := match FeeData.maxPriorityFeePerGas feeData with
              | Some p => p | None => 1500000000 end in
     let buffered := (Z.max X Y * 140) / 100 in
     estimateFeesPerGas ch w1 = Returned feeData ->
     0 <= Y ->
     vrfWrapper_estimateRequestPriceNative ch callbackGasLimit 1 buffered w2
     = Returned cost ->
     exists estimate w',
       estimateVrfCost ch w = (Returned estimate, w')
       /\ VrfCostEstimate.maxFeePerGas estimate = buffered
       /\ VrfCostEstimate.maxPriorityFeePerGas estimate = Y
       /\ Y <= VrfCostEstimate.maxFeePerGas estimate
       /\ VrfCostEstimate.cost estimate = cost
       /\ history w'
          = (Read_vrfWrapper_estimateRequestPriceNative callbackGasLimit 1
               buffered
             :: EstimateFeesPerGas
             :: Read_peerBetCore_vrfCallbackGasLimit
             :: history w)%list)
  /\ (forall e0 gasPrice cost,
        let Y := 1500000000 in
        let buffered := (Z.max gasPrice Y * 140) / 100 in
        estimateFeesPerGas ch w1 = Thrown e0 ->
        getGasPrice ch w2 = Returned gasPrice ->
        vrfWrapper_estimateRequestPriceNative ch callbackGasLimit 1 buffered
          w3
        = Returned cost ->
        exists estimate w',
          estimateVrfCost ch w = (Returned estimate, w')
          /\ VrfCostEstimate.maxFeePerGas estimate = buffered
          /\ VrfCostEstimate.maxPriorityFeePerGas estimate = Y
          /\ Y <= VrfCostEstimate.maxFeePerGas estimate
          /\ VrfCostEstimate.cost estimate = cost
          /\ history w'
             = (Read_vrfWrapper_estimateRequestPriceNative callbackGasLimit 1
                  buffered
                :: GetGasPrice
                :: EstimateFeesPerGas
                :: Read_peerBetCore_vrfCallbackGasLimit
                :: history w)%list).
Proof.
  intros w1 w2 w3 Hlimit. split.
  - intros feeData cost X Y buffered Hfees HY Hprice.
    pose proof (estimate_primary ch w callbackGasLimit Hlimit _ Hfees) as Hrun.
    cbv zeta in Hrun. fold X Y in Hrun.
    assert (Hsafe : Z.quot ((if X >? Y then X else Y) * 140) 100 = buffered).
    { unfold buffered.
      replace (if X >? Y then X else Y) with (Z.max X Y)
        by (destruct (Z.gtb_spec X Y); lia).
      apply bigint_div_floor; lia. }
    rewrite Hsafe in Hrun. fold w1 w2 in Hrun. rewrite Hprice in Hrun.
    eexists. eexists. split; [exact Hrun|].
    cbn [VrfCostEstimate.maxFeePerGas VrfCostEstimate.maxPriorityFeePerGas
         VrfCostEstimate.cost].
    repeat split.
    unfold buffered.
    assert (Z.max X Y <= Z.max X Y * 140 / 100)
      by (apply Z.div_le_lower_bound; lia).
    lia.
  - intros e0 gasPrice cost Y buffered Hfees Hgas Hprice.
    pose proof (estimate_fallback ch w callbackGasLimit Hlimit e0 Hfees)
      as Hrun.
    cbv zeta in Hrun. fold w1 w2 w3 in Hrun. rewrite Hgas in Hrun.
    assert (Hsafe :
              Z.quot ((if (if gasPrice >? 1500000000 then gasPrice
                           else 1500000000) >? 1500000000
                       then if gasPrice >? 1500000000 then gasPrice
                            else 1500000000
                       else 1500000000) * 140) 100 = buffered).
    { unfold buffered, Y.
      replace (if (if gasPrice >? 1500000000 then gasPrice else 1500000000)
                  >? 1500000000
               then if gasPrice >? 1500000000 then gasPrice else 1500000000
               else 1500000000)
        with (Z.max gasPrice 1500000000)
        by (destruct (Z.gtb_spec gasPrice 1500000000); cbv iota;
            [destruct (Z.gtb_spec gasPrice 1500000000)
            |destruct (Z.gtb_spec 1500000000 1500000000)]; lia).
      apply bigint_div_floor; lia. }
    rewrite Hsafe in Hrun. rewrite Hprice in Hrun.
    eexists. eexists. split; [exact Hrun|].
    cbn [VrfCostEstimate.maxFeePerGas VrfCostEstimate.maxPriorityFeePerGas
         VrfCostEstimate.cost].
    repeat split.
    unfold buffered, Y.
    assert (Z.max gasPrice 1500000000 <= Z.max gasPrice 1500000000 * 140 / 100)
      by (apply Z.div_le_lower_bound; lia).
    lia.
Qed.

Lemma vrf_max_fee_is_buffered_witness :
  (0 <= 20
   /\ exists estimate w',
        estimateVrfCost Fixture.settled Fixture.genesis
        = (Returned estimate, w')
        /\ VrfCostEstimate.maxFeePerGas estimate = (Z.max 10 20 * 140) / 100
        /\ VrfCostEstimate.maxPriorityFeePerGas estimate = 20
        /\ 20 <= VrfCostEstimate.maxFeePerGas estimate
        /\ VrfCostEstimate.cost estimate = 5600000
        /\ history w'
           = (Read_vrfWrapper_estimateRequestPriceNative 200000 1
                ((Z.max 10 20 * 140) / 100)
              :: EstimateFeesPerGas
              :: Read_peerBetCore_vrfCallbackGasLimit
              :: history Fixture.genesis)%list)
  /\ (exists estimate w',
        estimateVrfCost (Fixture.legacy (Returned 5)) Fixture.genesis
        = (Returned estimate, w')
        /\ VrfCostEstimate.maxFeePerGas estimate
           = (Z.max 5 1500000000 * 140) / 100
        /\ VrfCostEstimate.maxPriorityFeePerGas estimate = 1500000000
        /\ 1500000000 <= VrfCostEstimate.maxFeePerGas estimate
        /\ VrfCostEstimate.cost estimate = 420000000000000
        /\ history w'
           = (Read_vrfWrapper_estimateRequestPriceNative 200000 1
                ((Z.max 5 1500000000 * 140) / 100)
              :: GetGasPrice
              :: EstimateFeesPerGas
              :: Read_peerBetCore_vrfCallbackGasLimit
              :: history Fixture.genesis)%list).
Proof.
  split; [split; [lia|]|].
  - apply (proj1 (vrf_max_fee_is_buffered Fixture.settled Fixture.genesis
                    200000 eq_refl)
             {| FeeData.maxFeePerGas := Some 10;
                FeeData.maxPriorityFeePerGas := Some 20 |} 5600000);
      [reflexivity | simpl; lia | reflexivity].
  - apply (proj2 (vrf_max_fee_is_buffered (Fixture.legacy (Returned 5))
                    Fixture.genesis 200000 eq_refl)
             Fixture.rpc_down 5 420000000000000); reflexivity.
Defined.





(* ================================================================= *)
(** ** Further properties of the outcome derivation *)

Lemma same_address_refl (a : address) : same_address a a = true.
Proof. apply same_address_eq. reflexivity. Qed.

Lemma same_address_sym (a b : address) : same_address a b = same_address b a.
Proof. unfold same_address, JS.strict_eq. apply String.eqb_sym. Qed.

Lemma same_address_trans (a b c : address) :
  same_address a b = true -> same_address b c = true ->
  same_address a c = true.
Proof.
  intros Hab Hbc. rewrite (same_address_congr a b c Hab). exact Hbc.
Qed.

(** X1. In a settled CoinFlip room between two different players, one
    of whom is the winner, the net changes the derivation reports to the
    two players add up to minus the fee: what the loser loses is what
    the winner gains plus what the house keeps. *)
Theorem coinflip_net_changes_add_up_to_fee formatUnits ch this roomId w room :
  coinFlipGame_getRoom ch roomId w = Returned room ->
  CoinFlipRoom.isActive room = false ->
  JS.strict_eq (CoinFlipRoom.winner room) ZERO_ADDRESS = false ->
  participant room (CoinFlipRoom.winner room) = true ->
  same_address (CoinFlipRoom.playerA room) (CoinFlipRoom.playerB room)
  = false ->
  JS.truthy (Some (CoinFlipRoom.playerA room)) = true ->
  JS.truthy (Some (CoinFlipRoom.playerB room)) = true ->
  exists rA rB w',
    getCoinFlipGameResult formatUnits ch this roomId
      (Some (CoinFlipRoom.playerA room)) w = (Returned rA, w')
    /\ getCoinFlipGameResult formatUnits ch this roomId
         (Some (CoinFlipRoom.playerB room)) w = (Returned rB, w')
    /\ CoinFlipGameResult.fee rB = CoinFlipGameResult.fee rA
    /\ CoinFlipGameResult.netChange rA + CoinFlipGameResult.netChange rB
       = - CoinFlipGameResult.fee rA.
Proof.
  intros Hread Hin Hw Hplays Hdistinct HtA HtB.
  derive_coinflip Hread Hin Hw.
  do 3 eexists. split; [reflexivity|]. split; [reflexivity|].
  cbn [CoinFlipGameResult.fee CoinFlipGameResult.netChange
       JS.nullish player_is].
  rewrite HtA, HtB.
  rewrite !same_address_refl, Hdistinct.
  rewrite (same_address_sym (CoinFlipRoom.playerB room)
             (CoinFlipRoom.playerA room)), Hdistinct.
  rewrite (same_address_sym (CoinFlipRoom.playerA room)
             (CoinFlipRoom.winner room)).
  rewrite (same_address_sym (CoinFlipRoom.playerB room)
             (CoinFlipRoom.winner room)).
  unfold participant in Hplays.
  destruct (same_address (CoinFlipRoom.winner room) (CoinFlipRoom.playerA room))
    eqn:HA;
    destruct (same_address (CoinFlipRoom.winner room)
                (CoinFlipRoom.playerB room)) eqn:HB;
    cbn [orb andb] in *; try discriminate.
  - rewrite same_address_sym in HA.
    rewrite (same_address_trans _ _ _ HA HB) in Hdistinct. discriminate.
  - split; [reflexivity | lia].
  - split; [reflexivity | lia].
Qed.

Lemma coinflip_net_changes_add_up_to_fee_witness :
  exists rA rB w',
    getCoinFlipGameResult Fixture.formatUnits Fixture.settled Fixture.reader
      7 (Some Fixture.alice) Fixture.genesis = (Returned rA, w')
    /\ getCoinFlipGameResult Fixture.formatUnits Fixture.settled
         Fixture.reader 7 (Some Fixture.bob) Fixture.genesis
       = (Returned rB, w')
    /\ CoinFlipGameResult.fee rB = CoinFlipGameResult.fee rA
    /\ CoinFlipGameResult.netChange rA + CoinFlipGameResult.netChange rB
       = - CoinFlipGameResult.fee rA.
Proof.
  apply (coinflip_net_changes_add_up_to_fee Fixture.formatUnits
           Fixture.settled Fixture.reader 7 Fixture.genesis
           Fixture.settledCoinFlip); reflexivity.
Defined.

(** X2. With an unsigned bet and a house edge of at most 10000 basis
    points, the amounts of a CoinFlip result stay within the pot:
    0 <= fee <= 2 * betAmount, 0 <= payout <= 2 * betAmount, and
    whoever observes, -betAmount <= netChange <= betAmount. *)
Theorem coinflip_amounts_within_pot formatUnits ch this roomId playerAddress
    w room :
  coinFlipGame_getRoom ch roomId w = Returned room ->
  CoinFlipRoom.isActive room = false ->
  JS.strict_eq (CoinFlipRoom.winner room) ZERO_ADDRESS = false ->
  0 <= CoinFlipRoom.betAmount room ->
  0 <= CoinFlipRoom.houseEdgeBps room <= 10000 ->
  exists r w',
    getCoinFlipGameResult formatUnits ch this roomId playerAddress w
    = (Returned r, w')
    /\ 0 <= CoinFlipGameResult.fee r <= 2 * CoinFlipRoom.betAmount room
    /\ 0 <= CoinFlipGameResult.payout r <= 2 * CoinFlipRoom.betAmount room
    /\ - CoinFlipRoom.betAmount room <= CoinFlipGameResult.netChange r
       <= CoinFlipRoom.betAmount room.
Proof.
  intros Hread Hin Hw Hbet Hbps.
  derive_coinflip Hread Hin Hw.
  eexists. eexists. split; [reflexivity|].
  cbn [CoinFlipGameResult.fee CoinFlipGameResult.payout
       CoinFlipGameResult.netChange].
  rewrite bigint_div_floor by nia.
  set (bet := CoinFlipRoom.betAmount room) in *.
  set (bps := CoinFlipRoom.houseEdgeBps room) in *.
  assert (Hlo : 0 <= bet * 2 * bps / 10000) by (apply Z.div_pos; nia).
  assert (Hhi : bet * 2 * bps / 10000 <= 2 * bet)
    by (apply Z.div_le_upper_bound; nia).
  split; [lia|]. split; [lia|].
  destruct (JS.truthy _); [|lia].
  destruct (_ || _)%bool; [|lia].
  destruct (player_is _ _); lia.
Qed.

Lemma coinflip_amounts_within_pot_witness :
  exists r w',
    getCoinFlipGameResult Fixture.formatUnits Fixture.evenSplit
      Fixture.alice_client 7 None Fixture.genesis = (Returned r, w')
    /\ 0 <= CoinFlipGameResult.fee r <= 2 * 1000000
    /\ 0 <= CoinFlipGameResult.payout r <= 2 * 1000000
    /\ - 1000000 <= CoinFlipGameResult.netChange r <= 1000000.
Proof.
  apply (coinflip_amounts_within_pot Fixture.formatUnits Fixture.evenSplit
           Fixture.alice_client 7 None Fixture.genesis
           Fixture.evenSplitCoinFlip);
    [reflexivity | reflexivity | reflexivity | simpl; lia | simpl; lia].
Defined.

(** X3. A failed read fails the derivation with the read's own error.
    For Dice the player list is read before the room's state is looked
    at, so with an active room a failing player-list read hides the
    "not completed yet" error. *)
Theorem derivation_read_failures formatUnits ch this roomId playerAddress w e :
  (coinFlipGame_getRoom ch roomId w = Thrown e ->
   getCoinFlipGameResult formatUnits ch this roomId playerAddress w
   = (Thrown e, after ch (Read_coinFlipGame_getRoom roomId) w))
  /\ (diceGame_getRoom ch roomId w = Thrown e ->
      getDiceGameResult formatUnits ch this roomId playerAddress w
      = (Thrown e, after ch (Read_diceGame_getRoom roomId) w))
  /\ (forall room,
        diceGame_getRoom ch roomId w = Returned room ->
        diceGame_getRoomPlayers ch roomId
          (after ch (Read_diceGame_getRoom roomId) w) = Thrown e ->
        getDiceGameResult formatUnits ch this roomId playerAddress w
        = (Thrown e,
           after ch (Read_diceGame_getRoomPlayers roomId)
             (after ch (Read_diceGame_getRoom roomId) w))).
Proof.
  split; [|split].
  - intros Hread.
    unfold getCoinFlipGameResult, getCoinFlipRoom, bind, perform.
    rewrite Hread. reflexivity.
  - intros Hread.
    unfold getDiceGameResult, getDiceRoom, bind, perform.
    rewrite Hread. reflexivity.
  - intros room Hroom Hplayers.
    unfold getDiceGameResult, getDiceRoom, getDiceRoomPlayers, bind, perform.
    rewrite Hroom. cbv beta iota. rewrite Hplayers. reflexivity.
Qed.

Lemma derivation_read_failures_witness :
  getCoinFlipGameResult Fixture.formatUnits
    (Outage.coinflip_room Fixture.rpc_down Fixture.settled) Fixture.reader
    7 None Fixture.genesis
  = (Thrown Fixture.rpc_down,
     after (Outage.coinflip_room Fixture.rpc_down Fixture.settled)
       (Read_coinFlipGame_getRoom 7) Fixture.genesis)
  /\ fst (getDiceGameResult Fixture.formatUnits
            (Outage.dice_room Fixture.rpc_down Fixture.settled)
            Fixture.reader 9 None Fixture.genesis)
     = Thrown Fixture.rpc_down
  /\ fst (getDiceGameResult Fixture.formatUnits
            (Outage.dice_players Fixture.rpc_down (Fixture.waiting 0))
            Fixture.reader 9 None Fixture.genesis)
     = Thrown Fixture.rpc_down.
Proof.
  split; [|split].
  - apply (proj1 (derivation_read_failures Fixture.formatUnits
                    (Outage.coinflip_room Fixture.rpc_down Fixture.settled)
                    Fixture.reader 7 None Fixture.genesis Fixture.rpc_down)).
    reflexivity.
  - rewrite (proj1 (proj2 (derivation_read_failures Fixture.formatUnits
                             (Outage.dice_room Fixture.rpc_down
                                Fixture.settled)
                             Fixture.reader 9 None Fixture.genesis
                             Fixture.rpc_down)) eq_refl).
    reflexivity.
  - rewrite (proj2 (proj2 (derivation_read_failures Fixture.formatUnits
                             (Outage.dice_players Fixture.rpc_down
                                (Fixture.waiting 0))
                             Fixture.reader 9 None Fixture.genesis
                             Fixture.rpc_down))
               Fixture.waitingDice eq_refl eq_refl).
    reflexivity.
Defined.

Section DiceObserver.

Variable formatUnits : Z -> Z -> string.
Variable ch : Chain.
Variable this : Client.
Variables (roomId : Z) (w : World).
Variable room : DiceRoom.t.
Variable players : list address.
Variable observer : address.

#[local] Abbreviation w1 := (after ch (Read_diceGame_getRoom roomId) w).
#[local] Abbreviation w2 := (after ch (Read_diceGame_getRoomPlayers roomId) w1).
#[local] Abbreviation w3 :=
  (after ch (Read_diceGame_getPlayerNumber roomId observer) w2).
#[local] Abbreviation run :=
  (getDiceGameResult formatUnits ch this roomId (Some observer) w).

Hypothesis Hroom : diceGame_getRoom ch roomId w = Returned room.
Hypothesis Hplayers : diceGame_getRoomPlayers ch roomId w1 = Returned players.
Hypothesis Hinactive : DiceRoom.isActive room = false.
Hypothesis Hwinner :
  JS.strict_eq (DiceRoom.winner room) ZERO_ADDRESS = false.
Hypothesis Htruthy : JS.truthy (Some observer) = true.

(** Unfolds the derivation for a named observer up to the lookup of the
    observer's number. *)
Ltac derive_dice_for_observer :=
  unfold getDiceGameResult, getDiceRoom, getDiceRoomPlayers, bind, perform;
  rewrite Hroom; cbv beta iota; rewrite Hplayers; cbv beta iota;
  rewrite Hinactive, Hwinner; cbv beta iota zeta delta [orb];
  cbn [JS.nullish player_is]; rewrite Htruthy;
  change (existsb (fun p : address => same_address observer p) players)
    with (in_game players observer).

Lemma dice_outsider_result :
  in_game players observer = false ->
  exists r,
    run = (Returned r, w2)
    /\ DiceGameResult.myNumber r = 0
    /\ DiceGameResult.netChange r = 0
    /\ DiceGameResult.didIWin r = same_address observer (DiceRoom.winner room).
Proof.
  intros Hout. derive_dice_for_observer. rewrite Hout.
  unfold ret. eexists. split; [reflexivity|]. repeat split.
Qed.

Lemma dice_player_result n :
  in_game players observer = true ->
  diceGame_getPlayerNumber ch roomId observer w2 = Returned n ->
  exists r,
    run = (Returned r, w3)
    /\ DiceGameResult.myNumber r = n
    /\ DiceGameResult.didIWin r = same_address observer (DiceRoom.winner room)
    /\ DiceGameResult.betAmount r = DiceRoom.betAmount room
    /\ DiceGameResult.netChange r
       = if same_address observer (DiceRoom.winner room)
         then DiceGameResult.payout r - DiceRoom.betAmount room
         else - DiceRoom.betAmount room.
Proof.
  intros Hin Hnumber. derive_dice_for_observer. rewrite Hin.
  unfold getPlayerDiceNumber. cbn [JS.nullish]. rewrite Htruthy.
  unfold perform. rewrite Hnumber. unfold ret.
  eexists. split; [reflexivity|]. repeat split.
Qed.

Lemma dice_player_number_failure e :
  in_game players observer = true ->
  diceGame_getPlayerNumber ch roomId observer w2 = Thrown e ->
  run = (Thrown e, w3).
Proof.
  intros Hin Hnumber. derive_dice_for_observer. rewrite Hin.
  unfold getPlayerDiceNumber. cbn [JS.nullish]. rewrite Htruthy.
  unfold perform. rewrite Hnumber. reflexivity.
Qed.

End DiceObserver.

(** X4. [getDiceGameResult] asks the ledger for the observer's number
    only when the observer is in the room's player list (compared case
    insensitively). For an outsider the result has myNumber = 0 and only
    the room and its players were read; for a player myNumber is what
    the ledger answers for the observer's address, and when that read
    fails the whole derivation fails with its error. *)
Theorem dice_number_lookup formatUnits ch this roomId w room players
    observer :
  let w1 := after ch (Read_diceGame_getRoom roomId) w in
  let w2 := after ch (Read_diceGame_getRoomPlayers roomId) w1 in
  let w3 := after ch (Read_diceGame_getPlayerNumber roomId observer) w2 in
  diceGame_getRoom ch roomId w = Returned room ->
  diceGame_getRoomPlayers ch roomId w1 = Returned players ->
  DiceRoom.isActive room = false ->
  JS.strict_eq (DiceRoom.winner room) ZERO_ADDRESS = false ->
  JS.truthy (Some observer) = true ->
  (in_game players observer = false ->
   exists r,
     getDiceGameResult formatUnits ch this roomId (Some observer) w
     = (Returned r, w2)
     /\ DiceGameResult.myNumber r = 0)
  /\ (forall n,
        in_game players observer = true ->
        diceGame_getPlayerNumber ch roomId observer w2 = Returned n ->
        exists r,
          getDiceGameResult formatUnits ch this roomId (Some observer) w
          = (Returned r, w3)
          /\ DiceGameResult.myNumber r = n)
  /\ (forall e,
        in_game players observer = true ->
        diceGame_getPlayerNumber ch roomId observer w2 = Thrown e ->
        getDiceGameResult formatUnits ch this roomId (Some observer) w
        = (Thrown e, w3)).
Proof.
  intros w1 w2 w3 Hroom Hplayers Hin Hw Htruthy.
  split; [|split].
  - intros Hout.
    destruct (dice_outsider_result formatUnits ch this roomId w room players
                observer Hroom Hplayers Hin Hw Htruthy Hout)
      as (r & Hrun & Hnumber & _).
    exists r. split; assumption.
  - intros n Hplays Hread.
    destruct (dice_player_result formatUnits ch this roomId w room players
                observer Hroom Hplayers Hin Hw Htruthy n Hplays Hread)
      as (r & Hrun & Hnumber & _).
    exists r. split; assumption.
  - intros e Hplays Hread.
    exact (dice_player_number_failure formatUnits ch this roomId w room
             players observer Hroom Hplayers Hin Hw Htruthy e Hplays Hread).
Qed.

Lemma dice_number_lookup_witness :
  (exists r,
     getDiceGameResult Fixture.formatUnits
       (Outage.dice_player_number Fixture.rpc_down Fixture.settled)
       Fixture.reader 9 (Some ZERO_ADDRESS) Fixture.genesis
     = (Returned r,
        after (Outage.dice_player_number Fixture.rpc_down Fixture.settled)
          (Read_diceGame_getRoomPlayers 9)
          (after (Outage.dice_player_number Fixture.rpc_down Fixture.settled)
             (Read_diceGame_getRoom 9) Fixture.genesis))
     /\ DiceGameResult.myNumber r = 0)
  /\ (exists r,
        getDiceGameResult Fixture.formatUnits Fixture.settled Fixture.reader
          9 (Some Fixture.alice_lower) Fixture.genesis
        = (Returned r,
           after Fixture.settled
             (Read_diceGame_getPlayerNumber 9 Fixture.alice_lower)
             (after Fixture.settled (Read_diceGame_getRoomPlayers 9)
                (after Fixture.settled (Read_diceGame_getRoom 9)
                   Fixture.genesis)))
        /\ DiceGameResult.myNumber r = 3)
  /\ fst (getDiceGameResult Fixture.formatUnits
            (Outage.dice_player_number Fixture.rpc_down Fixture.settled)
            Fixture.reader 9 (Some Fixture.alice_lower) Fixture.genesis)
     = Thrown Fixture.rpc_down.
Proof.
  split; [|split].
  - apply (proj1 (dice_number_lookup Fixture.formatUnits
                    (Outage.dice_player_number Fixture.rpc_down
                       Fixture.settled)
                    Fixture.reader 9 Fixture.genesis Fixture.settledDice
                    [Fixture.alice; Fixture.bob; Fixture.carol] ZERO_ADDRESS
                    eq_refl eq_refl eq_refl eq_refl eq_refl)).
    reflexivity.
  - apply (proj1 (proj2 (dice_number_lookup Fixture.formatUnits
                           Fixture.settled Fixture.reader 9 Fixture.genesis
                           Fixture.settledDice
                           [Fixture.alice; Fixture.bob; Fixture.carol]
                           Fixture.alice_lower
                           eq_refl eq_refl eq_refl eq_refl eq_refl)) 3);
      reflexivity.
  - rewrite (proj2 (proj2 (dice_number_lookup Fixture.formatUnits
                             (Outage.dice_player_number Fixture.rpc_down
                                Fixture.settled)
                             Fixture.reader 9 Fixture.genesis
                             Fixture.settledDice
                             [Fixture.alice; Fixture.bob; Fixture.carol]
                             Fixture.alice_lower
                             eq_refl eq_refl eq_refl eq_refl eq_refl))
               Fixture.rpc_down eq_refl eq_refl).
    reflexivity.
Defined.

(** X5. For a settled Dice room and a named observer: an observer in the
    player list gets netChange = payout - betAmount when the observer is
    the winner and netChange = -betAmount otherwise; an observer outside
    the list gets netChange = 0, even when the room records that address
    as its winner. In every case didIWin tells whether the observer is
    the recorded winner. *)
Theorem dice_role_gives_net_change formatUnits ch this roomId w room players
    observer :
  let w1 := after ch (Read_diceGame_getRoom roomId) w in
  let w2 := after ch (Read_diceGame_getRoomPlayers roomId) w1 in
  diceGame_getRoom ch roomId w = Returned room ->
  diceGame_getRoomPlayers ch roomId w1 = Returned players ->
  (exists n, diceGame_getPlayerNumber ch roomId observer w2 = Returned n) ->
  DiceRoom.isActive room = false ->
  JS.strict_eq (DiceRoom.winner room) ZERO_ADDRESS = false ->
  JS.truthy (Some observer) = true ->
  exists r w',
    getDiceGameResult formatUnits ch this roomId (Some observer) w
    = (Returned r, w')
    /\ DiceGameResult.didIWin r = same_address observer (DiceRoom.winner room)
    /\ (in_game players observer = true ->
        same_address observer (DiceRoom.winner room) = true ->
        DiceGameResult.netChange r
        = DiceGameResult.payout r - DiceRoom.betAmount room)
    /\ (in_game players observer = true ->
        same_address observer (DiceRoom.winner room) = false ->
        DiceGameResult.netChange r = - DiceRoom.betAmount room)
    /\ (in_game players observer = false ->
        DiceGameResult.netChange r = 0).
Proof.
  intros w1 w2 Hroom Hplayers [n Hnumber] Hin Hw Htruthy.
  destruct (in_game players observer) eqn:Hplays.
  - destruct (dice_player_result formatUnits ch this roomId w room players
                observer Hroom Hplayers Hin Hw Htruthy n Hplays Hnumber)
      as (r & Hrun & _ & Hdid & _ & Hnet).
    exists r. eexists. split; [exact Hrun|]. split; [exact Hdid|].
    split; [|split].
    + intros _ Hwon. rewrite Hwon in Hnet. exact Hnet.
    + intros _ Hlost. rewrite Hlost in Hnet. exact Hnet.
    + discriminate.
  - destruct (dice_outsider_result formatUnits ch this roomId w room players
                observer Hroom Hplayers Hin Hw Htruthy Hplays)
      as (r & Hrun & _ & Hnet & Hdid).
    exists r. eexists. split; [exact Hrun|]. split; [exact Hdid|].
    split; [|split]; try discriminate.
    intros _. exact Hnet.
Qed.

Lemma dice_role_gives_net_change_witness :
  exists r w',
    getDiceGameResult Fixture.formatUnits Fixture.settled Fixture.reader 9
      (Some Fixture.bob) Fixture.genesis = (Returned r, w')
    /\ DiceGameResult.didIWin r = true
    /\ DiceGameResult.netChange r = DiceGameResult.payout r - 1000000.
Proof.
  destruct (dice_role_gives_net_change Fixture.formatUnits Fixture.settled
              Fixture.reader 9 Fixture.genesis Fixture.settledDice
              [Fixture.alice; Fixture.bob; Fixture.carol] Fixture.bob
              eq_refl eq_refl (ex_intro _ 3 eq_refl) eq_refl eq_refl eq_refl)
    as (r & w' & Hrun & Hdid & Hwon & _).
  exists r, w'. split; [exact Hrun|]. split; [exact Hdid|].
  apply Hwon; reflexivity.
Defined.

(** X6. With an unsigned bet and player count, the Dice fee is at most a
    twentieth of the pot and misses it by less than one unit, so the
    payout is at least 95% of the pot and never exceeds it. *)
Theorem dice_amounts_within_pot formatUnits ch this roomId playerAddress w
    room players :
  let w1 := after ch (Read_diceGame_getRoom roomId) w in
  let w2 := after ch (Read_diceGame_getRoomPlayers roomId) w1 in
  let pot := DiceRoom.betAmount room * DiceRoom.currentPlayers room in
  diceGame_getRoom ch roomId w = Returned room ->
  diceGame_getRoomPlayers ch roomId w1 = Returned players ->
  (forall p, exists n, diceGame_getPlayerNumber ch roomId p w2 = Returned n) ->
  DiceRoom.isActive room = false ->
  JS.strict_eq (DiceRoom.winner room) ZERO_ADDRESS = false ->
  0 <= DiceRoom.betAmount room ->
  0 <= DiceRoom.currentPlayers room ->
  exists r w',
    getDiceGameResult formatUnits ch this roomId playerAddress w
    = (Returned r, w')
    /\ 0 <= DiceGameResult.fee r
    /\ 20 * DiceGameResult.fee r <= pot < 20 * DiceGameResult.fee r + 20
    /\ 19 * pot <= 20 * DiceGameResult.payout r
    /\ DiceGameResult.payout r <= pot.
Proof.
  intros w1 w2 pot Hroom Hplayers Hnumber Hin Hw Hbet Hcount.
  destruct (dice_fee_payout formatUnits ch this roomId playerAddress w room
              players Hroom Hplayers Hin Hw Hnumber Hbet Hcount)
    as (r & w' & Hrun & Hfee & Hpayout & _).
  exists r, w'. split; [exact Hrun|].
  fold pot in Hfee, Hpayout.
  assert (Hpot : 0 <= pot) by (unfold pot; nia).
  assert (Hdiv : DiceGameResult.fee r = pot / 20).
  { rewrite Hfee. replace 10000 with (500 * 20) by reflexivity.
    rewrite Z.mul_comm. rewrite Z.div_mul_cancel_l by lia. reflexivity. }
  pose proof (Z.mul_div_le pot 20 ltac:(lia)) as Hle.
  pose proof (Z.mul_succ_div_gt pot 20 ltac:(lia)) as Hgt.
  rewrite <- Hdiv in Hle, Hgt.
  assert (0 <= DiceGameResult.fee r)
    by (rewrite Hdiv; apply Z.div_pos; lia).
  lia.
Qed.

Lemma dice_amounts_within_pot_witness :
  exists r w',
    getDiceGameResult Fixture.formatUnits Fixture.settled Fixture.reader 9
      None Fixture.genesis = (Returned r, w')
    /\ 0 <= DiceGameResult.fee r
    /\ 20 * DiceGameResult.fee r <= 1000000 * 3
       < 20 * DiceGameResult.fee r + 20
    /\ 19 * (1000000 * 3) <= 20 * DiceGameResult.payout r
    /\ DiceGameResult.payout r <= 1000000 * 3.
Proof.
  apply (dice_amounts_within_pot Fixture.formatUnits Fixture.settled
           Fixture.reader 9 None Fixture.genesis Fixture.settledDice
           [Fixture.alice; Fixture.bob; Fixture.carol]);
    [reflexivity | reflexivity | intros p; exists 3; reflexivity
    | reflexivity | reflexivity | simpl; lia | simpl; lia].
Defined.

(* ================================================================= *)
(** ** Further properties of the waiters *)

Lemma waitForCoinFlipResult_unfold formatUnits ch this fuel roomId options w :
  waitForCoinFlipResult formatUnits ch this fuel roomId options w
  = waitForCoinFlipResult_loop formatUnits ch this fuel roomId
      (effective_timeout options) (effective_pollInterval options)
      (WaitForResultOptions.onProgress options) (clock w) w.
Proof. reflexivity. Qed.

Lemma waitForDiceResult_unfold formatUnits ch this fuel roomId options w :
  waitForDiceResult formatUnits ch this fuel roomId options w
  = waitForDiceResult_loop formatUnits ch this fuel roomId
      (effective_timeout options) (effective_pollInterval options)
      (WaitForResultOptions.onProgress options) (clock w) w.
Proof. reflexivity. Qed.

(** One tick of the CoinFlip loop, by what the read shows. *)
Lemma coinflip_loop_tick formatUnits ch this fuel roomId timeout pollInterval
    onProgress startTime w :
  clock w - startTime < timeout ->
  waitForCoinFlipResult_loop formatUnits ch this (S fuel) roomId timeout
    pollInterval onProgress startTime w
  = let w1 := after ch (Read_coinFlipGame_getRoom roomId) w in
    match coinFlipGame_getRoom ch roomId w with
    | Thrown e => Some (Thrown e, w1)
    | Returned room =>
        if (negb (CoinFlipRoom.isActive room)
            && negb (JS.strict_eq (CoinFlipRoom.winner room) ZERO_ADDRESS))%bool
        then Some (getCoinFlipGameResult formatUnits ch this roomId None w1)
        else if (negb (CoinFlipRoom.isActive room)
                 && JS.strict_eq (CoinFlipRoom.winner room) ZERO_ADDRESS
                 && JS.strict_eq (CoinFlipRoom.playerB room) ZERO_ADDRESS)%bool
        then Some (Thrown (Error msg_coinflip_room_cancelled), w1)
        else
          match report onProgress
                  (if JS.strict_eq (CoinFlipRoom.playerB room) ZERO_ADDRESS
                   then "Waiting for opponent to join..."
                   else "Opponent joined! Waiting for VRF result...") w1
          with
          | (Thrown e, w2) => Some (Thrown e, w2)
          | (Returned _, w2) =>
              waitForCoinFlipResult_loop formatUnits ch this fuel roomId
                timeout pollInterval onProgress startTime
                (after ch (SetTimeout pollInterval) w2)
          end
    end.
Proof.
  intros Hlive. apply Z.ltb_lt in Hlive.
  cbn [waitForCoinFlipResult_loop].
  unfold bindL at 1. unfold lift at 1. unfold Date_now at 1.
  rewrite Hlive.
  unfold bindL at 1. unfold lift at 1. unfold getCoinFlipRoom, perform at 1.
  cbv zeta.
  destruct (coinFlipGame_getRoom ch roomId w) as [room|e]; [|reflexivity].
  destruct (negb (CoinFlipRoom.isActive room)
            && negb (JS.strict_eq (CoinFlipRoom.winner room) ZERO_ADDRESS))%bool;
    [reflexivity|].
  destruct (negb (CoinFlipRoom.isActive room)
            && JS.strict_eq (CoinFlipRoom.winner room) ZERO_ADDRESS
            && JS.strict_eq (CoinFlipRoom.playerB room) ZERO_ADDRESS)%bool;
    [reflexivity|].
  unfold bindL at 1. unfold lift at 1.
  destruct (report onProgress _ _) as [[u|e] w2]; [|reflexivity].
  unfold bindL at 1. unfold lift at 1. unfold sleep, perform.
  reflexivity.
Qed.

(** One tick of the Dice loop, by what the read shows. *)
Lemma dice_loop_tick formatUnits ch this fuel roomId timeout pollInterval
    onProgress startTime w :
  clock w - startTime < timeout ->
  waitForDiceResult_loop formatUnits ch this (S fuel) roomId timeout
    pollInterval onProgress startTime w
  = let w1 := after ch (Read_diceGame_getRoom roomId) w in
    match diceGame_getRoom ch roomId w with
    | Thrown e => Some (Thrown e, w1)
    | Returned room =>
        if (negb (DiceRoom.isActive room)
            && negb (JS.strict_eq (DiceRoom.winner room) ZERO_ADDRESS))%bool
        then Some (getDiceGameResult formatUnits ch this roomId None w1)
        else
          match report onProgress
                  (if negb (DiceRoom.hasStarted room)
                   then "Waiting for players ("
                        ++ JS.show (DiceRoom.currentPlayers room) ++ "/"
                        ++ JS.show (DiceRoom.maxPlayers room) ++ ")..."
                   else "Game started! Waiting for VRF result...") w1
          with
          | (Thrown e, w2) => Some (Thrown e, w2)
          | (Returned _, w2) =>
              waitForDiceResult_loop formatUnits ch this fuel roomId
                timeout pollInterval onProgress startTime
                (after ch (SetTimeout pollInterval) w2)
          end
    end.
Proof.
  intros Hlive. apply Z.ltb_lt in Hlive.
  cbn [waitForDiceResult_loop].
  unfold bindL at 1. unfold lift at 1. unfold Date_now at 1.
  rewrite Hlive.
  unfold bindL at 1. unfold lift at 1. unfold getDiceRoom, perform at 1.
  cbv zeta.
  destruct (diceGame_getRoom ch roomId w) as [room|e]; [|reflexivity].
  destruct (negb (DiceRoom.isActive room)
            && negb (JS.strict_eq (DiceRoom.winner room) ZERO_ADDRESS))%bool;
    [reflexivity|].
  unfold bindL at 1. unfold lift at 1.
  destruct (report onProgress _ _) as [[u|e] w2]; [|reflexivity].
  unfold bindL at 1. unfold lift at 1. unfold sleep, perform.
  reflexivity.
Qed.

(** X7. A waiter whose first read shows a settled room returns at once
    what the derivation returns for the connected wallet: it reads the
    room a second time (inside the derivation), does not sleep and does
    not call the progress callback. *)
Theorem waiter_returns_derivation_when_settled formatUnits ch this fuel roomId
    options w :
  0 < effective_timeout options ->
  (forall room,
     coinFlipGame_getRoom ch roomId w = Returned room ->
     CoinFlipRoom.isActive room = false ->
     JS.strict_eq (CoinFlipRoom.winner room) ZERO_ADDRESS = false ->
     waitForCoinFlipResult formatUnits ch this (S fuel) roomId options w
     = Some (getCoinFlipGameResult formatUnits ch this roomId None
               (after ch (Read_coinFlipGame_getRoom roomId) w)))
  /\ (forall room,
        diceGame_getRoom ch roomId w = Returned room ->
        DiceRoom.isActive room = false ->
        JS.strict_eq (DiceRoom.winner room) ZERO_ADDRESS = false ->
        waitForDiceResult formatUnits ch this (S fuel) roomId options w
        = Some (getDiceGameResult formatUnits ch this roomId None
                  (after ch (Read_diceGame_getRoom roomId) w))).
Proof.
  intros Hbudget. split.
  - intros room Hread Hin Hw.
    rewrite waitForCoinFlipResult_unfold.
    rewrite coinflip_loop_tick by lia.
    cbv zeta. rewrite Hread, Hin, Hw. reflexivity.
  - intros room Hread Hin Hw.
    rewrite waitForDiceResult_unfold.
    rewrite dice_loop_tick by lia.
    cbv zeta. rewrite Hread, Hin, Hw. reflexivity.
Qed.

Lemma waiter_returns_derivation_when_settled_witness :
  waitForCoinFlipResult Fixture.formatUnits Fixture.settled
    Fixture.alice_client 1 7 WaitForResultOptions.empty Fixture.genesis
  = Some (getCoinFlipGameResult Fixture.formatUnits Fixture.settled
            Fixture.alice_client 7 None
            (after Fixture.settled (Read_coinFlipGame_getRoom 7)
               Fixture.genesis))
  /\ waitForDiceResult Fixture.formatUnits Fixture.settled
       Fixture.alice_client 1 9 WaitForResultOptions.empty Fixture.genesis
     = Some (getDiceGameResult Fixture.formatUnits Fixture.settled
               Fixture.alice_client 9 None
               (after Fixture.settled (Read_diceGame_getRoom 9)
                  Fixture.genesis)).
Proof.
  assert (Hbudget : 0 < effective_timeout WaitForResultOptions.empty)
    by (vm_compute; reflexivity).
  split.
  - apply (proj1 (waiter_returns_derivation_when_settled Fixture.formatUnits
                    Fixture.settled Fixture.alice_client 0 7
                    WaitForResultOptions.empty Fixture.genesis Hbudget)
             Fixture.settledCoinFlip); reflexivity.
  - apply (proj2 (waiter_returns_derivation_when_settled Fixture.formatUnits
                    Fixture.settled Fixture.alice_client 0 9
                    WaitForResultOptions.empty Fixture.genesis Hbudget)
             Fixture.settledDice); reflexivity.
Defined.

Lemma coinflip_result_has_winner formatUnits ch this roomId playerAddress
    v r w' :
  getCoinFlipGameResult formatUnits ch this roomId playerAddress v
  = (Returned r, w') ->
  JS.strict_eq (CoinFlipGameResult.winner r) ZERO_ADDRESS = false.
Proof.
  unfold getCoinFlipGameResult, bind, ret, throw.
  destruct (getCoinFlipRoom ch roomId v) as [[room|e] v1]; [|discriminate].
  destruct (CoinFlipRoom.isActive room); [discriminate|].
  destruct (JS.strict_eq (CoinFlipRoom.winner room) ZERO_ADDRESS) eqn:Hw;
    [discriminate|].
  intros H. injection H as Hr _. subst r. exact Hw.
Qed.

Lemma dice_result_has_winner formatUnits ch this roomId playerAddress
    v r w' :
  getDiceGameResult formatUnits ch this roomId playerAddress v
  = (Returned r, w') ->
  JS.strict_eq (DiceGameResult.winner r) ZERO_ADDRESS = false.
Proof.
  unfold getDiceGameResult, bind, ret, throw.
  destruct (getDiceRoom ch roomId v) as [[room|e] va]; [|discriminate].
  destruct (getDiceRoomPlayers ch roomId va) as [[players|e] vb];
    [|discriminate].
  destruct (DiceRoom.isActive room); [discriminate|].
  destruct (JS.strict_eq (DiceRoom.winner room) ZERO_ADDRESS) eqn:Hw;
    [discriminate|].
  cbn [orb].
  match goal with
  | |- context [ match ?m vb with _ => _ end ] =>
      destruct (m vb) as [[n|e] vc]; [|discriminate]
  end.
  intros H. injection H as Hr _. subst r. exact Hw.
Qed.

Lemma coinflip_loop_result_is_a_derivation formatUnits ch this roomId timeout
    pollInterval onProgress startTime r w' :
  forall fuel w,
    waitForCoinFlipResult_loop formatUnits ch this fuel roomId timeout
      pollInterval onProgress startTime w = Some (Returned r, w') ->
    exists v,
      getCoinFlipGameResult formatUnits ch this roomId None v
      = (Returned r, w').
Proof.
  induction fuel as [|fuel IH]; intros w Hrun.
  - cbn [waitForCoinFlipResult_loop] in Hrun.
    unfold bindL, lift, Date_now, out_of_fuel, throw in Hrun.
    destruct (clock w - startTime <? timeout); discriminate.
  - destruct (Z_lt_le_dec (clock w - startTime) timeout) as [Hlive|Hexp].
    + rewrite coinflip_loop_tick in Hrun by exact Hlive.
      cbv zeta in Hrun.
      destruct (coinFlipGame_getRoom ch roomId w) as [room|e];
        [|discriminate].
      destruct (negb (CoinFlipRoom.isActive room) && _)%bool.
      * injection Hrun as Hrun. eexists. exact Hrun.
      * destruct (negb (CoinFlipRoom.isActive room) && _ && _)%bool;
          [discriminate|].
        destruct (report onProgress _ _) as [[u|e] w2]; [|discriminate].
        exact (IH _ Hrun).
    + rewrite coinflip_loop_expired in Hrun by exact Hexp. discriminate.
Qed.

Lemma dice_loop_result_is_a_derivation formatUnits ch this roomId timeout
    pollInterval onProgress startTime r w' :
  forall fuel w,
    waitForDiceResult_loop formatUnits ch this fuel roomId timeout
      pollInterval onProgress startTime w = Some (Returned r, w') ->
    exists v,
      getDiceGameResult formatUnits ch this roomId None v = (Returned r, w').
Proof.
  induction fuel as [|fuel IH]; intros w Hrun.
  - cbn [waitForDiceResult_loop] in Hrun.
    unfold bindL, lift, Date_now, out_of_fuel, throw in Hrun.
    destruct (clock w - startTime <? timeout); discriminate.
  - destruct (Z_lt_le_dec (clock w - startTime) timeout) as [Hlive|Hexp].
    + rewrite dice_loop_tick in Hrun by exact Hlive.
      cbv zeta in Hrun.
      destruct (diceGame_getRoom ch roomId w) as [room|e]; [|discriminate].
      destruct (negb (DiceRoom.isActive room) && _)%bool.
      * injection Hrun as Hrun. eexists. exact Hrun.
      * destruct (report onProgress _ _) as [[u|e] w2]; [|discriminate].
        exact (IH _ Hrun).
    + rewrite dice_loop_expired in Hrun by exact Hexp. discriminate.
Qed.

(** X8. Whatever the chain answers and whatever the options are, a
    result that a waiter returns is one that the derivation returned for
    the connected wallet in some world of the session; in particular
    its winner is never the zero address. A waiter never makes up a
    result for a room it saw unsettled or cancelled. *)
Theorem waiter_result_is_a_derivation formatUnits ch this fuel roomId options
    w :
  (forall r w',
     waitForCoinFlipResult formatUnits ch this fuel roomId options w
     = Some (Returned r, w') ->
     (exists v,
         getCoinFlipGameResult formatUnits ch this roomId None v
         = (Returned r, w'))
     /\ JS.strict_eq (CoinFlipGameResult.winner r) ZERO_ADDRESS = false)
  /\ (forall r w',
        waitForDiceResult formatUnits ch this fuel roomId options w
        = Some (Returned r, w') ->
        (exists v,
            getDiceGameResult formatUnits ch this roomId None v
            = (Returned r, w'))
        /\ JS.strict_eq (DiceGameResult.winner r) ZERO_ADDRESS = false).
Proof.
  split.
  - intros r w' Hrun. rewrite waitForCoinFlipResult_unfold in Hrun.
    destruct (coinflip_loop_result_is_a_derivation _ _ _ _ _ _ _ _ _ _ _ _
                Hrun) as [v Hv].
    split; [exists v; exact Hv|].
    exact (coinflip_result_has_winner _ _ _ _ _ _ _ _ Hv).
  - intros r w' Hrun. rewrite waitForDiceResult_unfold in Hrun.
    destruct (dice_loop_result_is_a_derivation _ _ _ _ _ _ _ _ _ _ _ _
                Hrun) as [v Hv].
    split; [exists v; exact Hv|].
    exact (dice_result_has_winner _ _ _ _ _ _ _ _ Hv).
Qed.

Lemma waiter_result_is_a_derivation_witness :
  exists r w',
    waitForCoinFlipResult Fixture.formatUnits Fixture.settled
      Fixture.alice_client 1 7 WaitForResultOptions.empty Fixture.genesis
    = Some (Returned r, w')
    /\ JS.strict_eq (CoinFlipGameResult.winner r) ZERO_ADDRESS = false.
Proof.
  assert (Hrun : exists r w',
             waitForCoinFlipResult Fixture.formatUnits Fixture.settled
               Fixture.alice_client 1 7 WaitForResultOptions.empty
               Fixture.genesis = Some (Returned r, w'))
    by (eexists; eexists; vm_compute; reflexivity).
  destruct Hrun as (r & w' & Hrun).
  exists r, w'. split; [exact Hrun|].
  exact (proj2 (proj1 (waiter_result_is_a_derivation Fixture.formatUnits
                         Fixture.settled Fixture.alice_client 1 7
                         WaitForResultOptions.empty Fixture.genesis)
                  r w' Hrun)).
Defined.

(** X9. A waiter does not retry a failed read: when the room read of a
    tick fails, the session ends with the read's error on that tick,
    without sleeping. *)
Theorem waiter_read_failure_propagates formatUnits ch this fuel roomId
    options w e :
  0 < effective_timeout options ->
  (coinFlipGame_getRoom ch roomId w = Thrown e ->
   waitForCoinFlipResult formatUnits ch this (S fuel) roomId options w
   = Some (Thrown e, after ch (Read_coinFlipGame_getRoom roomId) w))
  /\ (diceGame_getRoom ch roomId w = Thrown e ->
      waitForDiceResult formatUnits ch this (S fuel) roomId options w
      = Some (Thrown e, after ch (Read_diceGame_getRoom roomId) w)).
Proof.
  intros Hbudget. split; intros Hread.
  - rewrite waitForCoinFlipResult_unfold, coinflip_loop_tick by lia.
    cbv zeta. rewrite Hread. reflexivity.
  - rewrite waitForDiceResult_unfold, dice_loop_tick by lia.
    cbv zeta. rewrite Hread. reflexivity.
Qed.

Lemma waiter_read_failure_propagates_witness :
  waitForCoinFlipResult Fixture.formatUnits
    (Outage.coinflip_room Fixture.rpc_down Fixture.settled) Fixture.reader
    5 7 Fixture.ten_seconds Fixture.genesis
  = Some (Thrown Fixture.rpc_down,
          after (Outage.coinflip_room Fixture.rpc_down Fixture.settled)
            (Read_coinFlipGame_getRoom 7) Fixture.genesis)
  /\ waitForDiceResult Fixture.formatUnits
       (Outage.dice_room Fixture.rpc_down Fixture.settled) Fixture.reader
       5 9 Fixture.ten_seconds Fixture.genesis
     = Some (Thrown Fixture.rpc_down,
             after (Outage.dice_room Fixture.rpc_down Fixture.settled)
               (Read_diceGame_getRoom 9) Fixture.genesis).
Proof.
  assert (Hbudget : 0 < effective_timeout Fixture.ten_seconds)
    by (vm_compute; reflexivity).
  split.
  - apply (proj1 (waiter_read_failure_propagates Fixture.formatUnits
                    (Outage.coinflip_room Fixture.rpc_down Fixture.settled)
                    Fixture.reader 4 7 Fixture.ten_seconds Fixture.genesis
                    Fixture.rpc_down Hbudget)).
    reflexivity.
  - apply (proj2 (waiter_read_failure_propagates Fixture.formatUnits
                    (Outage.dice_room Fixture.rpc_down Fixture.settled)
                    Fixture.reader 4 9 Fixture.ten_seconds Fixture.genesis
                    Fixture.rpc_down Hbudget)).
    reflexivity.
Defined.

(** X10. With a timeout of zero or less a waiter fails with its timeout
    error before anything else happens: no read, no callback, no sleep,
    and the room is never looked at even if it is already settled. *)
Theorem waiter_without_budget formatUnits ch this fuel roomId options w :
  effective_timeout options <= 0 ->
  waitForCoinFlipResult formatUnits ch this fuel roomId options w
  = Some (Thrown (Error (msg_coinflip_timeout (effective_timeout options))),
          w)
  /\ waitForDiceResult formatUnits ch this fuel roomId options w
     = Some (Thrown (Error (msg_dice_timeout (effective_timeout options))),
             w).
Proof.
  intros Hbudget. split.
  - rewrite waitForCoinFlipResult_unfold.
    apply coinflip_loop_expired. lia.
  - rewrite waitForDiceResult_unfold.
    apply dice_loop_expired. lia.
Qed.

Lemma waiter_without_budget_witness :
  waitForCoinFlipResult Fixture.formatUnits Fixture.settled Fixture.reader
    0 7 (budget 0 2000 None) Fixture.genesis
  = Some (Thrown (Error "Timeout waiting for game result after 0 seconds"),
          Fixture.genesis)
  /\ waitForDiceResult Fixture.formatUnits Fixture.settled Fixture.reader
       0 7 (budget 0 2000 None) Fixture.genesis
     = Some (Thrown (Error "Timeout waiting for dice result after 0 seconds"),
             Fixture.genesis).
Proof.
  apply (waiter_without_budget Fixture.formatUnits Fixture.settled
           Fixture.reader 0 7 (budget 0 2000 None) Fixture.genesis).
  vm_compute. discriminate.
Defined.

(** X11. The progress callback is not isolated from the session: when
    it throws while the room is still active, the waiter fails with the
    callback's error on that tick, before it sleeps. *)
Theorem waiter_callback_error_aborts formatUnits ch this fuel roomId options
    callback w e w2 :
  0 < effective_timeout options ->
  WaitForResultOptions.onProgress options = Some callback ->
  (forall room,
     coinFlipGame_getRoom ch roomId w = Returned room ->
     CoinFlipRoom.isActive room = true ->
     callback
       (if JS.strict_eq (CoinFlipRoom.playerB room) ZERO_ADDRESS
        then "Waiting for opponent to join..."
        else "Opponent joined! Waiting for VRF result...")
       (after ch (Read_coinFlipGame_getRoom roomId) w)
     = (Thrown e, w2) ->
     waitForCoinFlipResult formatUnits ch this (S fuel) roomId options w
     = Some (Thrown e, w2))
  /\ (forall room,
        diceGame_getRoom ch roomId w = Returned room ->
        DiceRoom.isActive room = true ->
        callback
          (if negb (DiceRoom.hasStarted room)
           then "Waiting for players ("
                ++ JS.show (DiceRoom.currentPlayers room) ++ "/"
                ++ JS.show (DiceRoom.maxPlayers room) ++ ")..."
           else "Game started! Waiting for VRF result...")
          (after ch (Read_diceGame_getRoom roomId) w)
        = (Thrown e, w2) ->
        waitForDiceResult formatUnits ch this (S fuel) roomId options w
        = Some (Thrown e, w2)).
Proof.
  intros Hbudget Hcallback. split.
  - intros room Hread Hactive Hthrows.
    rewrite waitForCoinFlipResult_unfold, coinflip_loop_tick by lia.
    cbv zeta. rewrite Hread, Hactive, Hcallback. cbn [negb andb report].
    rewrite Hthrows. reflexivity.
  - intros room Hread Hactive Hthrows.
    rewrite waitForDiceResult_unfold, dice_loop_tick by lia.
    cbv zeta. rewrite Hread, Hactive, Hcallback. cbn [negb andb report].
    rewrite Hthrows. reflexivity.
Qed.

Lemma waiter_callback_error_aborts_witness :
  waitForCoinFlipResult Fixture.formatUnits (Fixture.waiting 0)
    Fixture.reader 5 7
    (budget 10000 2000 (Outage.failing_callback Outage.callback_failed))
    Fixture.genesis
  = Some (Thrown Outage.callback_failed,
          after (Fixture.waiting 0) (Read_coinFlipGame_getRoom 7)
            Fixture.genesis)
  /\ waitForDiceResult Fixture.formatUnits (Fixture.waiting 0)
       Fixture.reader 5 7
       (budget 10000 2000 (Outage.failing_callback Outage.callback_failed))
       Fixture.genesis
     = Some (Thrown Outage.callback_failed,
             after (Fixture.waiting 0) (Read_diceGame_getRoom 7)
               Fixture.genesis).
Proof.
  assert (Hbudget :
            0 < effective_timeout
                  (budget 10000 2000
                     (Outage.failing_callback Outage.callback_failed)))
    by (vm_compute; reflexivity).
  split.
  - apply (proj1 (waiter_callback_error_aborts Fixture.formatUnits
                    (Fixture.waiting 0) Fixture.reader 4 7
                    (budget 10000 2000
                       (Outage.failing_callback Outage.callback_failed))
                    (fun _ => throw Outage.callback_failed) Fixture.genesis
                    Outage.callback_failed
                    (after (Fixture.waiting 0) (Read_coinFlipGame_getRoom 7)
                       Fixture.genesis)
                    Hbudget eq_refl)
             (Fixture.openCoinFlipRoom true)); reflexivity.
  - apply (proj2 (waiter_callback_error_aborts Fixture.formatUnits
                    (Fixture.waiting 0) Fixture.reader 4 7
                    (budget 10000 2000
                       (Outage.failing_callback Outage.callback_failed))
                    (fun _ => throw Outage.callback_failed) Fixture.genesis
                    Outage.callback_failed
                    (after (Fixture.waiting 0) (Read_diceGame_getRoom 7)
                       Fixture.genesis)
                    Hbudget eq_refl)
             Fixture.waitingDice); reflexivity.
Defined.

Lemma coinflip_unresolved_times_out formatUnits ch this roomId timeout
    pollInterval onProgress startTime (n : nat) :
  benign onProgress ->
  coinflip_stays_unresolved ch roomId ->
  forward_clock ch ->
  forall fuel w,
    (n <= fuel)%nat ->
    timeout - (clock w - startTime) <= pollInterval * Z.of_nat n ->
    exists w',
      waitForCoinFlipResult_loop formatUnits ch this fuel roomId timeout
        pollInterval onProgress startTime w
      = Some (Thrown (Error (msg_coinflip_timeout timeout)), w')
      /\ clock w <= clock w'
      /\ timeout <= clock w' - startTime.
Proof.
  intros Hbenign Hunresolved [Hdur Htimer].
  induction n as [|n IH]; intros fuel w Hfuel Hleft.
  - exists w. rewrite coinflip_loop_expired by lia. repeat split; lia.
  - destruct (Z_lt_le_dec (clock w - startTime) timeout) as [Hlive|Hexp].
    + destruct fuel as [|fuel]; [lia|].
      rewrite coinflip_loop_tick by exact Hlive. cbv zeta.
      destruct (Hunresolved w) as (room & Hread & Hstate).
      rewrite Hread.
      assert (Hopen :
                (negb (CoinFlipRoom.isActive room)
                 && negb (JS.strict_eq (CoinFlipRoom.winner room)
                            ZERO_ADDRESS))%bool = false
                /\ (negb (CoinFlipRoom.isActive room)
                    && JS.strict_eq (CoinFlipRoom.winner room) ZERO_ADDRESS
                    && JS.strict_eq (CoinFlipRoom.playerB room) ZERO_ADDRESS)%bool
                   = false).
      { destruct Hstate as [Hactive | [Hzero Hjoined]].
        - rewrite Hactive. split; reflexivity.
        - rewrite Hzero, Hjoined.
          destruct (CoinFlipRoom.isActive room); split; reflexivity. }
      destruct Hopen as [Hnot_settled Hnot_cancelled].
      rewrite Hnot_settled, Hnot_cancelled, Hbenign.
      pose proof (Hdur (Read_coinFlipGame_getRoom roomId) w) as Hd.
      pose proof (Htimer pollInterval
                    (after ch (Read_coinFlipGame_getRoom roomId) w)) as Ht.
      destruct (IH fuel
                  (after ch (SetTimeout pollInterval)
                     (after ch (Read_coinFlipGame_getRoom roomId) w)))
        as (w' & Hrun & Hclock & Hdone).
      * lia.
      * cbn [after clock]. lia.
      * exists w'. split; [exact Hrun|].
        cbn [after clock] in Hclock. split; lia.
    + exists w. rewrite coinflip_loop_expired by lia. repeat split; lia.
Qed.

(** X12. The CoinFlip waiter reports a cancellation only for a room
    nobody joined. A room that stays closed with the zero address as
    winner although an opponent joined is polled like an active room,
    and the session ends with the timeout error once the budget is
    spent, provided time moves forward and timers do not fire early. *)
Theorem coinflip_waiter_polls_closed_room_with_opponent formatUnits ch this
    roomId options (n : nat) fuel w :
  benign (WaitForResultOptions.onProgress options) ->
  coinflip_stays_unresolved ch roomId ->
  forward_clock ch ->
  (n <= fuel)%nat ->
  effective_timeout options <= effective_pollInterval options * Z.of_nat n ->
  exists w',
    waitForCoinFlipResult formatUnits ch this fuel roomId options w
    = Some (Thrown (Error (msg_coinflip_timeout (effective_timeout options))),
            w')
    /\ effective_timeout options <= clock w' - clock w.
Proof.
  intros Hbenign Hunresolved Hclock Hfuel Hbudget.
  rewrite waitForCoinFlipResult_unfold.
  destruct (coinflip_unresolved_times_out formatUnits ch this roomId
              (effective_timeout options) (effective_pollInterval options)
              (WaitForResultOptions.onProgress options) (clock w) n
              Hbenign Hunresolved Hclock fuel w Hfuel)
    as (w' & Hrun & _ & Hdone); [lia|].
  exists w'. split; assumption.
Qed.

Lemma closed_with_opponent_unresolved roomId :
  coinflip_stays_unresolved Outage.closedWithOpponent roomId.
Proof.
  intros w. eexists. split; [reflexivity|]. right. split; reflexivity.
Qed.

Lemma closed_with_opponent_clock : forward_clock Outage.closedWithOpponent.
Proof.
  split.
  - intros c w. destruct c; cbn; lia.
  - intros ms w. cbn. lia.
Qed.

Lemma coinflip_waiter_polls_closed_room_with_opponent_witness :
  exists w',
    waitForCoinFlipResult Fixture.formatUnits Outage.closedWithOpponent
      Fixture.reader 5 7 Fixture.ten_seconds Fixture.genesis
    = Some (Thrown (Error (msg_coinflip_timeout
                             (effective_timeout Fixture.ten_seconds))), w')
    /\ effective_timeout Fixture.ten_seconds <= clock w' - clock Fixture.genesis.
Proof.
  apply (coinflip_waiter_polls_closed_room_with_opponent Fixture.formatUnits
           Outage.closedWithOpponent Fixture.reader 7 Fixture.ten_seconds 5 5
           Fixture.genesis benign_none (closed_with_opponent_unresolved 7)
           closed_with_opponent_clock (le_n 5)).
  vm_compute. discriminate.
Defined.

Lemma coinflip_derivation_world formatUnits ch this roomId playerAddress v :
  snd (getCoinFlipGameResult formatUnits ch this roomId playerAddress v)
  = after ch (Read_coinFlipGame_getRoom roomId) v.
Proof.
  unfold getCoinFlipGameResult, getCoinFlipRoom, bind, perform, ret, throw.
  destruct (coinFlipGame_getRoom ch roomId v) as [room|e]; [|reflexivity].
  destruct (CoinFlipRoom.isActive room); [reflexivity|].
  destruct (JS.strict_eq (CoinFlipRoom.winner room) ZERO_ADDRESS);
    reflexivity.
Qed.

Lemma getPlayerDiceNumber_polls ch this roomId player v :
  polls (history (snd (getPlayerDiceNumber ch this roomId player v)))
  = polls (history v).
Proof.
  unfold getPlayerDiceNumber, throw, perform.
  destruct (JS.nullish player (account this)) as [target|]; [|reflexivity].
  destruct (JS.truthy (Some target)); reflexivity.
Qed.

Lemma dice_derivation_polls formatUnits ch this roomId playerAddress v :
  polls (history
           (snd (getDiceGameResult formatUnits ch this roomId playerAddress
                   v)))
  = S (polls (history v)).
Proof.
  unfold getDiceGameResult, getDiceRoom, getDiceRoomPlayers, bind, perform.
  destruct (diceGame_getRoom ch roomId v) as [room|e]; [|reflexivity].
  destruct (diceGame_getRoomPlayers ch roomId _) as [players|e];
    [|reflexivity].
  destruct (DiceRoom.isActive room || _)%bool; [reflexivity|].
  set (player := JS.nullish playerAddress (account this)).
  destruct (JS.truthy player) eqn:Htruthy;
    [destruct (existsb _ players) eqn:Hin|]; try reflexivity.
  pose proof (getPlayerDiceNumber_polls ch this roomId player
                (after ch (Read_diceGame_getRoomPlayers roomId)
                   (after ch (Read_diceGame_getRoom roomId) v))) as Hpolls.
  destruct (getPlayerDiceNumber ch this roomId player _) as [[n|e] v3];
    cbn [snd] in *; unfold ret; cbn [snd]; rewrite Hpolls; reflexivity.
Qed.

Section Termination.

Variable formatUnits : Z -> Z -> string.
Variable ch : Chain.
Variable this : Client.
Variable roomId : Z.
Variables timeout pollInterval : Z.
Variable onProgress : option (string -> M unit).
Variable startTime : Z.

Hypothesis Hbenign : benign onProgress.
Hypothesis Hclock : forward_clock ch.

Lemma coinflip_loop_terminates (n : nat) :
  forall fuel w,
    (n <= fuel)%nat ->
    timeout - (clock w - startTime) <= pollInterval * Z.of_nat n ->
    exists outcome w',
      waitForCoinFlipResult_loop formatUnits ch this fuel roomId timeout
        pollInterval onProgress startTime w = Some (outcome, w')
      /\ (polls (history w') <= polls (history w) + S n)%nat.
Proof.
  destruct Hclock as [Hdur Htimer].
  induction n as [|n IH]; intros fuel w Hfuel Hleft.
  - eexists. exists w. rewrite coinflip_loop_expired by lia.
    split; [reflexivity | lia].
  - destruct (Z_lt_le_dec (clock w - startTime) timeout) as [Hlive|Hexp].
    + destruct fuel as [|fuel]; [lia|].
      rewrite coinflip_loop_tick by exact Hlive. cbv zeta.
      destruct (coinFlipGame_getRoom ch roomId w) as [room|e].
      * destruct (negb (CoinFlipRoom.isActive room) && negb _)%bool.
        { pose proof (coinflip_derivation_world formatUnits ch this roomId
                        None (after ch (Read_coinFlipGame_getRoom roomId) w))
            as Hworld.
          destruct (getCoinFlipGameResult formatUnits ch this roomId None _)
            as [outcome w'].
          cbn [snd] in Hworld. subst w'.
          exists outcome. eexists. split; [reflexivity|].
          cbn [after history polls]. lia. }
        destruct (negb (CoinFlipRoom.isActive room) && _ && _)%bool.
        { eexists. eexists. split; [reflexivity|].
          cbn [after history polls]. lia. }
        rewrite Hbenign.
        pose proof (Hdur (Read_coinFlipGame_getRoom roomId) w) as Hd.
        pose proof (Htimer pollInterval
                      (after ch (Read_coinFlipGame_getRoom roomId) w)) as Ht.
        destruct (IH fuel
                    (after ch (SetTimeout pollInterval)
                       (after ch (Read_coinFlipGame_getRoom roomId) w)))
          as (outcome & w' & Hrun & Hpolls).
        { lia. }
        { cbn [after clock]. lia. }
        exists outcome, w'. split; [exact Hrun|].
        cbn [after history polls] in Hpolls. lia.
      * eexists. eexists. split; [reflexivity|].
        cbn [after history polls]. lia.
    + eexists. exists w. rewrite coinflip_loop_expired by lia.
      split; [reflexivity | lia].
Qed.

Lemma dice_loop_terminates (n : nat) :
  forall fuel w,
    (n <= fuel)%nat ->
    timeout - (clock w - startTime) <= pollInterval * Z.of_nat n ->
    exists outcome w',
      waitForDiceResult_loop formatUnits ch this fuel roomId timeout
        pollInterval onProgress startTime w = Some (outcome, w')
      /\ (polls (history w') <= polls (history w) + S n)%nat.
Proof.
  destruct Hclock as [Hdur Htimer].
  induction n as [|n IH]; intros fuel w Hfuel Hleft.
  - eexists. exists w. rewrite dice_loop_expired by lia.
    split; [reflexivity | lia].
  - destruct (Z_lt_le_dec (clock w - startTime) timeout) as [Hlive|Hexp].
    + destruct fuel as [|fuel]; [lia|].
      rewrite dice_loop_tick by exact Hlive. cbv zeta.
      destruct (diceGame_getRoom ch roomId w) as [room|e].
      * destruct (negb (DiceRoom.isActive room) && negb _)%bool.
        { pose proof (dice_derivation_polls formatUnits ch this roomId
                        None (after ch (Read_diceGame_getRoom roomId) w))
            as Hworld.
          destruct (getDiceGameResult formatUnits ch this roomId None _)
            as [outcome w'].
          cbn [snd] in Hworld.
          exists outcome, w'. split; [reflexivity|].
          rewrite Hworld. cbn [after history polls]. lia. }
        rewrite Hbenign.
        pose proof (Hdur (Read_diceGame_getRoom roomId) w) as Hd.
        pose proof (Htimer pollInterval
                      (after ch (Read_diceGame_getRoom roomId) w)) as Ht.
        destruct (IH fuel
                    (after ch (SetTimeout pollInterval)
                       (after ch (Read_diceGame_getRoom roomId) w)))
          as (outcome & w' & Hrun & Hpolls).
        { lia. }
        { cbn [after clock]. lia. }
        exists outcome, w'. split; [exact Hrun|].
        cbn [after history polls] in Hpolls. lia.
      * eexists. eexists. split; [reflexivity|].
        cbn [after history polls]. lia.
    + eexists. exists w. rewrite dice_loop_expired by lia.
      split; [reflexivity | lia].
Qed.

End Termination.

(** X13. A waiter always terminates when time moves forward, timers do
    not fire early and the progress callback only observes: whatever
    the chain answers (rooms settling, closing, or reads failing), a
    session whose timeout fits in [n] poll intervals ends, with a result
    or an error, after at most [n] polling reads and the one read of the
    derivation. *)
Theorem waiter_terminates formatUnits ch this roomId options (n : nat) fuel w :
  benign (WaitForResultOptions.onProgress options) ->
  forward_clock ch ->
  (n <= fuel)%nat ->
  effective_timeout options <= effective_pollInterval options * Z.of_nat n ->
  (exists outcome w',
      waitForCoinFlipResult formatUnits ch this fuel roomId options w
      = Some (outcome, w')
      /\ (polls (history w') <= polls (history w) + S n)%nat)
  /\ (exists outcome w',
         waitForDiceResult formatUnits ch this fuel roomId options w
         = Some (outcome, w')
         /\ (polls (history w') <= polls (history w) + S n)%nat).
Proof.
  intros Hbenign Hclock Hfuel Hbudget. split.
  - rewrite waitForCoinFlipResult_unfold.
    apply (coinflip_loop_terminates formatUnits ch this roomId
             (effective_timeout options) (effective_pollInterval options)
             (WaitForResultOptions.onProgress options) (clock w)
             Hbenign Hclock n fuel w Hfuel).
    lia.
  - rewrite waitForDiceResult_unfold.
    apply (dice_loop_terminates formatUnits ch this roomId
             (effective_timeout options) (effective_pollInterval options)
             (WaitForResultOptions.onProgress options) (clock w)
             Hbenign Hclock n fuel w Hfuel).
    lia.
Qed.

Lemma settled_chain_clock : forward_clock Fixture.settled.
Proof.
  split.
  - intros c w. destruct c; cbn; lia.
  - intros ms w. cbn. lia.
Qed.

Lemma waiter_terminates_witness :
  (exists outcome w',
      waitForCoinFlipResult Fixture.formatUnits Fixture.settled
        Fixture.reader 60 7 WaitForResultOptions.empty Fixture.genesis
      = Some (outcome, w')
      /\ (polls (history w') <= polls (history Fixture.genesis) + 61)%nat)
  /\ (exists outcome w',
         waitForDiceResult Fixture.formatUnits Fixture.settled
           Fixture.reader 60 7 WaitForResultOptions.empty Fixture.genesis
         = Some (outcome, w')
         /\ (polls (history w') <= polls (history Fixture.genesis) + 61)%nat).
Proof.
  apply (waiter_terminates Fixture.formatUnits Fixture.settled Fixture.reader
           7 WaitForResultOptions.empty 60 60 Fixture.genesis benign_none
           settled_chain_clock (le_n 60)).
  vm_compute. discriminate.
Defined.

(* ================================================================= *)
(** ** Further properties of the estimator and of the paid writes *)

Lemma buffer_at_least (m : Z) : 0 <= m -> m <= Z.quot (m * 140) 100.
Proof.
  intros Hm. rewrite bigint_div_floor by lia.
  apply Z.div_le_lower_bound; lia.
Qed.

Lemma max_by_comparison (x y : Z) : (if x >? y then x else y) = Z.max x y.
Proof. destruct (Z.gtb_spec x y); lia. Qed.

(** X14. Every estimate that [estimateVrfCost] returns with an unsigned
    priority fee has maxFeePerGas >= maxPriorityFeePerGas. When the flat
    gas-price query was used, the priority fee is 1500000000 and the max
    fee is at least 2100000000, however low the gas price is. Three
    calls are made on the primary path and four on the fallback path. *)
Theorem estimate_fee_order ch w estimate w' :
  estimateVrfCost ch w = (Returned estimate, w') ->
  (0 <= VrfCostEstimate.maxPriorityFeePerGas estimate ->
   VrfCostEstimate.maxPriorityFeePerGas estimate
   <= VrfCostEstimate.maxFeePerGas estimate)
  /\ (gas_price_queries (history w') <> gas_price_queries (history w) ->
      VrfCostEstimate.maxPriorityFeePerGas estimate = 1500000000
      /\ 2100000000 <= VrfCostEstimate.maxFeePerGas estimate
      /\ length (history w') = (4 + length (history w))%nat)
  /\ (gas_price_queries (history w') = gas_price_queries (history w) ->
      length (history w') = (3 + length (history w))%nat).
Proof.
  intros Hrun.
  destruct (peerBetCore_vrfCallbackGasLimit ch w) as [limit|e] eqn:Hlimit.
  - destruct (estimateFeesPerGas ch
                (after ch Read_peerBetCore_vrfCallbackGasLimit w))
      as [feeData|e] eqn:Hfees.
    + rewrite (estimate_primary ch w limit Hlimit feeData Hfees) in Hrun.
      cbv zeta in Hrun.
      destruct (vrfWrapper_estimateRequestPriceNative ch limit 1 _ _)
        as [cost|e]; [|discriminate].
      injection Hrun as Hest Hw'. subst estimate w'.
      cbn [VrfCostEstimate.maxFeePerGas VrfCostEstimate.maxPriorityFeePerGas].
      split; [|split].
      * intros Hpriority. rewrite max_by_comparison.
        etransitivity; [|apply buffer_at_least; lia]. lia.
      * intros Hquery. exfalso. apply Hquery. reflexivity.
      * intros _. reflexivity.
    + rewrite (estimate_fallback ch w limit Hlimit e Hfees) in Hrun.
      destruct (getGasPrice ch _) as [gasPrice|e']; [|discriminate].
      cbv zeta in Hrun.
      destruct (vrfWrapper_estimateRequestPriceNative ch limit 1 _ _)
        as [cost|e']; [|discriminate].
      injection Hrun as Hest Hw'. subst estimate w'.
      cbn [VrfCostEstimate.maxFeePerGas VrfCostEstimate.maxPriorityFeePerGas].
      rewrite !max_by_comparison.
      assert (Hfloor :
                2100000000
                <= Z.quot (Z.max (Z.max gasPrice 1500000000) 1500000000 * 140)
                     100).
      { rewrite bigint_div_floor by lia.
        apply Z.div_le_lower_bound; lia. }
      split; [|split].
      * intros _. lia.
      * intros _. split; [reflexivity|]. split; [exact Hfloor | reflexivity].
      * intros Hquery. cbn in Hquery. lia.
  - rewrite (estimate_without_gas_limit ch w e Hlimit) in Hrun. discriminate.
Qed.

Lemma estimate_fee_order_witness :
  exists estimate w',
    estimateVrfCost (Fixture.legacy (Returned 5)) Fixture.genesis
    = (Returned estimate, w')
    /\ VrfCostEstimate.maxPriorityFeePerGas estimate
       <= VrfCostEstimate.maxFeePerGas estimate
    /\ 2100000000 <= VrfCostEstimate.maxFeePerGas estimate
    /\ length (history w') = (4 + length (history Fixture.genesis))%nat.
Proof.
  assert (Hrun : exists estimate w',
             estimateVrfCost (Fixture.legacy (Returned 5)) Fixture.genesis
             = (Returned estimate, w'))
    by (eexists; eexists; vm_compute; reflexivity).
  destruct Hrun as (estimate & w' & Hrun).
  destruct (estimate_fee_order (Fixture.legacy (Returned 5)) Fixture.genesis
              estimate w' Hrun) as (Horder & Hfallback & _).
  exists estimate, w'. split; [exact Hrun|].
  injection Hrun as Hest Hw'. subst estimate w'.
  split; [apply Horder; vm_compute; discriminate|].
  apply Hfallback. vm_compute. discriminate.
Defined.

Lemma estimate_keeps_writes ch w r w' :
  estimateVrfCost ch w = (r, w') ->
  filter is_write (history w') = filter is_write (history w).
Proof.
  intros Hrun.
  destruct (peerBetCore_vrfCallbackGasLimit ch w) as [limit|e] eqn:Hlimit.
  - destruct (estimateFeesPerGas ch
                (after ch Read_peerBetCore_vrfCallbackGasLimit w))
      as [feeData|e] eqn:Hfees.
    + rewrite (estimate_primary ch w limit Hlimit feeData Hfees) in Hrun.
      injection Hrun as _ Hw'. subst w'. reflexivity.
    + rewrite (estimate_fallback ch w limit Hlimit e Hfees) in Hrun.
      destruct (getGasPrice ch _) as [gasPrice|e'];
        injection Hrun as _ Hw'; subst w'; reflexivity.
  - rewrite (estimate_without_gas_limit ch w e Hlimit) in Hrun.
    injection Hrun as _ Hw'. subst w'. reflexivity.
Qed.

(** What follows a successful estimate in a paid write. *)
Lemma paid_write_after_estimate ch (request : WriteRequest.t) w1 :
  exists outcome w',
    (let! hash :=
       perform ch (WriteContract request) (writeContract ch request) in
     let! receipt :=
       perform ch (WaitForTransactionReceipt hash)
         (waitForTransactionReceipt ch hash) in
     ret {| TransactionResult.hash := hash;
            TransactionResult.receipt := receipt |}) w1
    = (outcome, w')
    /\ filter is_write (history w')
       = WriteContract request :: filter is_write (history w1).
Proof.
  unfold bind, perform, ret.
  destruct (writeContract ch request w1) as [hash|e].
  - destruct (waitForTransactionReceipt ch hash _) as [receipt|e];
      eexists; eexists; split; reflexivity.
  - eexists. eexists. split; reflexivity.
Qed.

(** X15. Once the wallet is configured and the estimate has been
    obtained, a paid write ([joinCoinFlipRoom], [startDiceGame], and
    [joinDiceRoom] by the player who fills the room) submits exactly one
    transaction, and that transaction carries the estimate: its value is
    the estimated cost, its fee caps are the estimate's, its gas limit
    is 1200000 and its only argument is the room id. *)
Theorem paid_writes_carry_the_estimate ch this signer w estimate w1 :
  account this = Some signer ->
  estimateVrfCost ch w = (Returned estimate, w1) ->
  (forall options,
     exists outcome w',
       joinCoinFlipRoom ch this options w = (outcome, w')
       /\ filter is_write (history w')
          = WriteContract
              (paid_request coinFlipGame "joinRoom"
                 (JoinRoomOptions.roomId options) estimate)
            :: filter is_write (history w))
  /\ (forall roomId,
        exists outcome w',
          startDiceGame ch this roomId w = (outcome, w')
          /\ filter is_write (history w')
             = WriteContract (paid_request diceGame "startGame" roomId estimate)
               :: filter is_write (history w))
  /\ (forall options,
        JoinDiceRoomOptions.currentPlayers options + 1
        = JoinDiceRoomOptions.maxPlayers options ->
        exists outcome w',
          joinDiceRoom ch this options w = (outcome, w')
          /\ filter is_write (history w')
             = WriteContract
                 (paid_request diceGame "joinRoom"
                    (JoinDiceRoomOptions.roomId options) estimate)
               :: filter is_write (history w)).
Proof.
  intros Hwallet Hestimate.
  pose proof (estimate_keeps_writes ch w _ w1 Hestimate) as Hkept.
  split; [|split].
  - intros options.
    destruct (paid_write_after_estimate ch
                (paid_request coinFlipGame "joinRoom"
                   (JoinRoomOptions.roomId options) estimate) w1)
      as (outcome & w' & Hrun & Hwrites).
    exists outcome, w'. rewrite <- Hkept. split; [|exact Hwrites].
    unfold joinCoinFlipRoom, requireWallet. rewrite Hwallet.
    unfold bind at 1. unfold ret at 1.
    unfold bind at 1. rewrite Hestimate. exact Hrun.
  - intros roomId.
    destruct (paid_write_after_estimate ch
                (paid_request diceGame "startGame" roomId estimate) w1)
      as (outcome & w' & Hrun & Hwrites).
    exists outcome, w'. rewrite <- Hkept. split; [|exact Hwrites].
    unfold startDiceGame, requireWallet. rewrite Hwallet.
    unfold bind at 1. unfold ret at 1.
    unfold bind at 1. rewrite Hestimate. exact Hrun.
  - intros options Hlast.
    destruct (paid_write_after_estimate ch
                (paid_request diceGame "joinRoom"
                   (JoinDiceRoomOptions.roomId options) estimate) w1)
      as (outcome & w' & Hrun & Hwrites).
    exists outcome, w'. rewrite <- Hkept. split; [|exact Hwrites].
    apply Z.eqb_eq in Hlast.
    unfold joinDiceRoom, requireWallet. rewrite Hwallet, Hlast.
    unfold bind at 1. unfold ret at 1.
    revert Hrun. unfold bind, perform, ret. rewrite Hestimate.
    cbv beta iota zeta. intros Hrun. exact Hrun.
Qed.

Lemma paid_writes_carry_the_estimate_witness :
  exists estimate outcome w',
    fst (estimateVrfCost Fixture.settled Fixture.genesis) = Returned estimate
    /\ joinCoinFlipRoom Fixture.settled Fixture.alice_client
         (JoinRoomOptions.mk 7) Fixture.genesis = (outcome, w')
    /\ filter is_write (history w')
       = WriteContract (paid_request coinFlipGame "joinRoom" 7 estimate)
         :: filter is_write (history Fixture.genesis)
    /\ VrfCostEstimate.cost estimate = 5600000.
Proof.
  assert (Hestimate : exists estimate w1,
             estimateVrfCost Fixture.settled Fixture.genesis
             = (Returned estimate, w1))
    by (eexists; eexists; vm_compute; reflexivity).
  destruct Hestimate as (estimate & w1 & Hestimate).
  destruct (proj1 (paid_writes_carry_the_estimate Fixture.settled
                     Fixture.alice_client Fixture.alice Fixture.genesis
                     estimate w1 eq_refl Hestimate) (JoinRoomOptions.mk 7))
    as (outcome & w' & Hrun & Hwrites).
  exists estimate, outcome, w'.
  split; [rewrite Hestimate; reflexivity|].
  split; [exact Hrun|]. split; [exact Hwrites|].
  injection Hestimate as Hest _. subst estimate. reflexivity.
Defined.

(** X16. The wallet is checked before anything else: without a private
    key, [joinCoinFlipRoom], [joinDiceRoom] and [startDiceGame] fail
    with "Wallet not configured" and make no call at all, not even the
    reads of the cost estimate. *)
Theorem paid_writes_need_a_wallet ch this w :
  account this = None ->
  (forall options,
     joinCoinFlipRoom ch this options w
     = (Thrown (Error msg_wallet_not_configured), w))
  /\ (forall options,
        joinDiceRoom ch this options w
        = (Thrown (Error msg_wallet_not_configured), w))
  /\ (forall roomId,
        startDiceGame ch this roomId w
        = (Thrown (Error msg_wallet_not_configured), w)).
Proof.
  intros Hnone. split; [|split]; intros;
    unfold joinCoinFlipRoom, joinDiceRoom, startDiceGame, requireWallet;
    rewrite Hnone; reflexivity.
Qed.

Lemma paid_writes_need_a_wallet_witness :
  joinCoinFlipRoom Fixture.settled Fixture.reader (JoinRoomOptions.mk 1)
    Fixture.genesis
  = (Thrown (Error "Wallet not configured. Provide privateKey in options."),
     Fixture.genesis)
  /\ joinDiceRoom Fixture.settled Fixture.reader
       (JoinDiceRoomOptions.mk 1 1 4) Fixture.genesis
     = (Thrown (Error "Wallet not configured. Provide privateKey in options."),
        Fixture.genesis)
  /\ startDiceGame Fixture.settled Fixture.reader 1 Fixture.genesis
     = (Thrown (Error "Wallet not configured. Provide privateKey in options."),
        Fixture.genesis).
Proof.
  destruct (paid_writes_need_a_wallet Fixture.settled Fixture.reader
              Fixture.genesis eq_refl) as (Hjoin & Hdice & Hstart).
  split; [apply Hjoin | split; [apply Hdice | apply Hstart]].
Defined.

Lemma submission_writes ch (request : WriteRequest.t) v outcome w' :
  (let! hash :=
     perform ch (WriteContract request) (writeContract ch request) in
   let! receipt :=
     perform ch (WaitForTransactionReceipt hash)
       (waitForTransactionReceipt ch hash) in
   ret {| TransactionResult.hash := hash;
          TransactionResult.receipt := receipt |}) v
  = (outcome, w') ->
  writes (history w') = S (writes (history v)).
Proof.
  unfold bind, perform, ret.
  destruct (writeContract ch request v) as [hash|e].
  - destruct (waitForTransactionReceipt ch hash _) as [receipt|e];
      intros H; injection H as _ Hw'; subst w'; reflexivity.
  - intros H. injection H as _ Hw'. subst w'. reflexivity.
Qed.

Lemma joinCoinFlipRoom_writes ch this options w outcome w' :
  joinCoinFlipRoom ch this options w = (outcome, w') ->
  (writes (history w') <= S (writes (history w)))%nat
  /\ ((exists result, outcome = Returned result) ->
      writes (history w') = S (writes (history w))).
Proof.
  unfold joinCoinFlipRoom, requireWallet.
  destruct (account this) as [signer|].
  - unfold bind at 1. unfold ret at 1. unfold bind at 1.
    destruct (estimateVrfCost ch w) as [[estimate|e] w1] eqn:Hestimate.
    + intros Hrun. apply submission_writes in Hrun.
      rewrite (estimate_submits_nothing ch w _ w1 Hestimate) in Hrun.
      split; [lia | intros _; exact Hrun].
    + intros H. injection H as Ho Hw'. subst outcome w'.
      rewrite (estimate_submits_nothing ch w _ w1 Hestimate).
      split; [lia | intros [result Hr]; discriminate].
  - unfold bind, throw. intros H. injection H as Ho Hw'. subst outcome w'.
    split; [lia | intros [result Hr]; discriminate].
Qed.

Lemma startDiceGame_writes ch this roomId w outcome w' :
  startDiceGame ch this roomId w = (outcome, w') ->
  (writes (history w') <= S (writes (history w)))%nat
  /\ ((exists result, outcome = Returned result) ->
      writes (history w') = S (writes (history w))).
Proof.
  unfold startDiceGame, requireWallet.
  destruct (account this) as [signer|].
  - unfold bind at 1. unfold ret at 1. unfold bind at 1.
    destruct (estimateVrfCost ch w) as [[estimate|e] w1] eqn:Hestimate.
    + intros Hrun. apply submission_writes in Hrun.
      rewrite (estimate_submits_nothing ch w _ w1 Hestimate) in Hrun.
      split; [lia | intros _; exact Hrun].
    + intros H. injection H as Ho Hw'. subst outcome w'.
      rewrite (estimate_submits_nothing ch w _ w1 Hestimate).
      split; [lia | intros [result Hr]; discriminate].
  - unfold bind, throw. intros H. injection H as Ho Hw'. subst outcome w'.
    split; [lia | intros [result Hr]; discriminate].
Qed.

Lemma joinDiceRoom_writes ch this options w outcome w' :
  joinDiceRoom ch this options w = (outcome, w') ->
  (writes (history w') <= S (writes (history w)))%nat
  /\ ((exists result, outcome = Returned result) ->
      writes (history w') = S (writes (history w))).
Proof.
  unfold joinDiceRoom, requireWallet.
  destruct (account this) as [signer|].
  - unfold bind at 1. unfold ret at 1.
    destruct (JoinDiceRoomOptions.currentPlayers options + 1
              =? JoinDiceRoomOptions.maxPlayers options).
    + unfold bind, perform, ret.
      destruct (estimateVrfCost ch w) as [[estimate|e] w1] eqn:Hestimate.
      * pose proof (estimate_submits_nothing ch w _ w1 Hestimate) as Hkept.
        cbv beta iota zeta.
        destruct (writeContract ch _ w1) as [hash|e].
        { destruct (waitForTransactionReceipt ch hash _) as [receipt|e];
            intros H; injection H as Ho Hw'; subst outcome w';
            unfold writes in *; cbn [after history filter is_write length];
            rewrite Hkept;
            (split; [lia | intros [result Hr]; try discriminate; reflexivity]). }
        intros H. injection H as Ho Hw'. subst outcome w'.
        unfold writes in *. cbn [after history filter is_write length].
        rewrite Hkept.
        split; [lia | intros [result Hr]; discriminate].
      * intros H. injection H as Ho Hw'. subst outcome w'.
        rewrite (estimate_submits_nothing ch w _ w1 Hestimate).
        split; [lia | intros [result Hr]; discriminate].
    + unfold bind, perform, ret. cbv beta iota zeta.
      destruct (writeContract ch _ w) as [hash|e].
      * destruct (waitForTransactionReceipt ch hash _) as [receipt|e];
          intros H; injection H as Ho Hw'; subst outcome w';
          unfold writes; cbn [after history filter is_write length];
          (split; [lia | intros [result Hr]; try discriminate; reflexivity]).
      * intros H. injection H as Ho Hw'. subst outcome w'.
        unfold writes. cbn [after history filter is_write length].
        split; [lia | intros [result Hr]; discriminate].
  - unfold bind, throw. intros H. injection H as Ho Hw'. subst outcome w'.
    split; [lia | intros [result Hr]; discriminate].
Qed.

(** X17. Whatever the chain answers, one call of [joinCoinFlipRoom],
    [joinDiceRoom] or [startDiceGame] submits at most one transaction,
    and a call that returns a result has submitted exactly one: nothing
    is resubmitted when the receipt cannot be obtained, and no result is
    returned without a submission. *)
Theorem paid_writes_submit_at_most_once ch this w outcome w' :
  (forall options,
     joinCoinFlipRoom ch this options w = (outcome, w') ->
     (writes (history w') <= S (writes (history w)))%nat
     /\ ((exists result, outcome = Returned result) ->
         writes (history w') = S (writes (history w))))
  /\ (forall options,
        joinDiceRoom ch this options w = (outcome, w') ->
        (writes (history w') <= S (writes (history w)))%nat
        /\ ((exists result, outcome = Returned result) ->
            writes (history w') = S (writes (history w))))
  /\ (forall roomId,
        startDiceGame ch this roomId w = (outcome, w') ->
        (writes (history w') <= S (writes (history w)))%nat
        /\ ((exists result, outcome = Returned result) ->
            writes (history w') = S (writes (history w)))).
Proof.
  split; [|split].
  - intros options. apply joinCoinFlipRoom_writes.
  - intros options. apply joinDiceRoom_writes.
  - intros roomId. apply startDiceGame_writes.
Qed.

Lemma paid_writes_submit_at_most_once_witness :
  (exists result w',
      joinCoinFlipRoom Fixture.settled Fixture.alice_client
        (JoinRoomOptions.mk 7) Fixture.genesis = (Returned result, w')
      /\ writes (history w') = S (writes (history Fixture.genesis)))
  /\ (exists w',
         startDiceGame
           (Outage.wallet_write Fixture.rpc_down Fixture.settled)
           Fixture.alice_client 9 Fixture.genesis
         = (Thrown Fixture.rpc_down, w')
         /\ (writes (history w') <= S (writes (history Fixture.genesis)))%nat).
Proof.
  split.
  - assert (Hrun : exists result w',
               joinCoinFlipRoom Fixture.settled Fixture.alice_client
                 (JoinRoomOptions.mk 7) Fixture.genesis
               = (Returned result, w'))
      by (eexists; eexists; vm_compute; reflexivity).
    destruct Hrun as (result & w' & Hrun).
    exists result, w'. split; [exact Hrun|].
    apply (proj1 (paid_writes_submit_at_most_once Fixture.settled
                    Fixture.alice_client Fixture.genesis (Returned result) w')
             (JoinRoomOptions.mk 7) Hrun).
    exists result. reflexivity.
  - assert (Hrun : exists w',
               startDiceGame
                 (Outage.wallet_write Fixture.rpc_down Fixture.settled)
                 Fixture.alice_client 9 Fixture.genesis
               = (Thrown Fixture.rpc_down, w'))
      by (eexists; vm_compute; reflexivity).
    destruct Hrun as (w' & Hrun).
    exists w'. split; [exact Hrun|].
    apply (proj2 (proj2 (paid_writes_submit_at_most_once
                           (Outage.wallet_write Fixture.rpc_down
                              Fixture.settled)
                           Fixture.alice_client Fixture.genesis
                           (Thrown Fixture.rpc_down) w'))
             9 Hrun).
Defined.

(** X18. Whether [joinDiceRoom] pays for randomness depends only on the
    counts the caller passes, never on the ledger: when
    currentPlayers + 1 differs from maxPlayers, the first call made is
    the write itself, with no value and no fee caps attached and a gas
    limit of 300000; the receipt is awaited only if the write was
    accepted. *)
Theorem joinDiceRoom_without_payment ch this signer options w :
  account this = Some signer ->
  JoinDiceRoomOptions.currentPlayers options + 1
  <> JoinDiceRoomOptions.maxPlayers options ->
  let request := plain_join_request (JoinDiceRoomOptions.roomId options) in
  let w1 := after ch (WriteContract request) w in
  joinDiceRoom ch this options w
  = match writeContract ch request w with
    | Thrown e => (Thrown e, w1)
    | Returned hash =>
        (match waitForTransactionReceipt ch hash w1 with
         | Returned receipt =>
             Returned {| TransactionResult.hash := hash;
                         TransactionResult.receipt := receipt |}
         | Thrown e => Thrown e
         end,
         after ch (WaitForTransactionReceipt hash) w1)
    end.
Proof.
  intros Hwallet Hnot_last request w1.
  apply Z.eqb_neq in Hnot_last.
  unfold joinDiceRoom, requireWallet. rewrite Hwallet, Hnot_last.
  subst request w1. unfold plain_join_request, bind, perform, ret.
  cbv beta iota zeta.
  destruct (writeContract ch _ w) as [hash|e]; [|reflexivity].
  destruct (waitForTransactionReceipt ch hash _); reflexivity.
Qed.

Lemma joinDiceRoom_without_payment_witness :
  1 + 1 <> 4
  /\ joinDiceRoom Fixture.settled Fixture.alice_client
       (JoinDiceRoomOptions.mk 9 1 4) Fixture.genesis
     = (Returned
          {| TransactionResult.hash := "0xfeed";
             TransactionResult.receipt :=
               {| TransactionReceipt.transactionHash := "0xfeed";
                  TransactionReceipt.blockNumber := 1 |} |},
        after Fixture.settled (WaitForTransactionReceipt "0xfeed")
          (after Fixture.settled (WriteContract (plain_join_request 9))
             Fixture.genesis)).
Proof.
  split; [lia|].
  apply (joinDiceRoom_without_payment Fixture.settled Fixture.alice_client
           Fixture.alice (JoinDiceRoomOptions.mk 9 1 4) Fixture.genesis
           eq_refl).
  simpl. lia.
Defined.

(** X19. Between two ticks the waiter only sleeps. After a tick that
    saw the room active (with a callback that only observes), a room
    found settled at the next tick is returned through the derivation if
    the budget still holds after the sleep; if the budget ran out during
    the sleep, the waiter fails with the timeout error without reading
    the room again, settled or not. *)
Theorem waiter_next_tick formatUnits ch this fuel roomId options w :
  let timeout := effective_timeout options in
  let pollInterval := effective_pollInterval options in
  let coinflip_asleep :=
    after ch (SetTimeout pollInterval)
      (after ch (Read_coinFlipGame_getRoom roomId) w) in
  let dice_asleep :=
    after ch (SetTimeout pollInterval)
      (after ch (Read_diceGame_getRoom roomId) w) in
  0 < timeout ->
  benign (WaitForResultOptions.onProgress options) ->
  (forall room0,
     coinFlipGame_getRoom ch roomId w = Returned room0 ->
     CoinFlipRoom.isActive room0 = true ->
     (forall room1,
        clock coinflip_asleep - clock w < timeout ->
        coinFlipGame_getRoom ch roomId coinflip_asleep = Returned room1 ->
        CoinFlipRoom.isActive room1 = false ->
        JS.strict_eq (CoinFlipRoom.winner room1) ZERO_ADDRESS = false ->
        waitForCoinFlipResult formatUnits ch this (S (S fuel)) roomId options w
        = Some (getCoinFlipGameResult formatUnits ch this roomId None
                  (after ch (Read_coinFlipGame_getRoom roomId)
                     coinflip_asleep)))
     /\ (timeout <= clock coinflip_asleep - clock w ->
         waitForCoinFlipResult formatUnits ch this (S fuel) roomId options w
         = Some (Thrown (Error (msg_coinflip_timeout timeout)),
                 coinflip_asleep)))
  /\ (forall room0,
        diceGame_getRoom ch roomId w = Returned room0 ->
        DiceRoom.isActive room0 = true ->
        (forall room1,
           clock dice_asleep - clock w < timeout ->
           diceGame_getRoom ch roomId dice_asleep = Returned room1 ->
           DiceRoom.isActive room1 = false ->
           JS.strict_eq (DiceRoom.winner room1) ZERO_ADDRESS = false ->
           waitForDiceResult formatUnits ch this (S (S fuel)) roomId options w
           = Some (getDiceGameResult formatUnits ch this roomId None
                     (after ch (Read_diceGame_getRoom roomId) dice_asleep)))
        /\ (timeout <= clock dice_asleep - clock w ->
            waitForDiceResult formatUnits ch this (S fuel) roomId options w
            = Some (Thrown (Error (msg_dice_timeout timeout)), dice_asleep))).
Proof.
  intros timeout pollInterval coinflip_asleep dice_asleep Hbudget Hbenign.
  split.
  - intros room0 Hread0 Hactive0.
    assert (Hfirst : forall fuel',
               waitForCoinFlipResult formatUnits ch this (S fuel') roomId
                 options w
               = waitForCoinFlipResult_loop formatUnits ch this fuel' roomId
                   timeout pollInterval
                   (WaitForResultOptions.onProgress options) (clock w)
                   coinflip_asleep).
    { intros fuel'. rewrite waitForCoinFlipResult_unfold.
      apply (coinflip_loop_waiting formatUnits ch this roomId timeout
               pollInterval (WaitForResultOptions.onProgress options)
               (clock w) fuel' w room0 Hbenign); trivial.
      fold timeout. lia. }
    split.
    + intros room1 Hlive Hread1 Hin1 Hw1.
      rewrite Hfirst. rewrite coinflip_loop_tick by exact Hlive.
      cbv zeta. rewrite Hread1, Hin1, Hw1. reflexivity.
    + intros Hspent. rewrite Hfirst.
      apply coinflip_loop_expired. exact Hspent.
  - intros room0 Hread0 Hactive0.
    assert (Hfirst : forall fuel',
               waitForDiceResult formatUnits ch this (S fuel') roomId
                 options w
               = waitForDiceResult_loop formatUnits ch this fuel' roomId
                   timeout pollInterval
                   (WaitForResultOptions.onProgress options) (clock w)
                   dice_asleep).
    { intros fuel'. rewrite waitForDiceResult_unfold.
      apply (dice_loop_no_winner formatUnits ch this roomId timeout
               pollInterval (WaitForResultOptions.onProgress options)
               (clock w) fuel' w room0 Hbenign); trivial.
      - fold timeout. lia.
      - rewrite Hactive0. reflexivity. }
    split.
    + intros room1 Hlive Hread1 Hin1 Hw1.
      rewrite Hfirst. rewrite dice_loop_tick by exact Hlive.
      cbv zeta. rewrite Hread1, Hin1, Hw1. reflexivity.
    + intros Hspent. rewrite Hfirst.
      apply dice_loop_expired. exact Hspent.
Qed.

Lemma waiter_next_tick_witness :
  waitForCoinFlipResult Fixture.formatUnits Outage.settlingSoon
    Fixture.alice_client 2 7 Fixture.ten_seconds Fixture.genesis
  = Some (getCoinFlipGameResult Fixture.formatUnits Outage.settlingSoon
            Fixture.alice_client 7 None
            (after Outage.settlingSoon (Read_coinFlipGame_getRoom 7)
               (after Outage.settlingSoon (SetTimeout 2000)
                  (after Outage.settlingSoon (Read_coinFlipGame_getRoom 7)
                     Fixture.genesis))))
  /\ waitForCoinFlipResult Fixture.formatUnits Outage.settlingSoon
       Fixture.alice_client 1 7 (budget 1000 2000 None) Fixture.genesis
     = Some (Thrown (Error (msg_coinflip_timeout 1000)),
             after Outage.settlingSoon (SetTimeout 2000)
               (after Outage.settlingSoon (Read_coinFlipGame_getRoom 7)
                  Fixture.genesis)).
Proof.
  split.
  - apply (proj1 (proj1 (waiter_next_tick Fixture.formatUnits
                           Outage.settlingSoon Fixture.alice_client 0 7
                           Fixture.ten_seconds Fixture.genesis
                           ltac:(vm_compute; reflexivity) benign_none)
                    (Fixture.openCoinFlipRoom true) eq_refl eq_refl)
             Fixture.settledCoinFlip);
      [vm_compute; reflexivity | reflexivity | reflexivity | reflexivity].
  - apply (proj2 (proj1 (waiter_next_tick Fixture.formatUnits
                           Outage.settlingSoon Fixture.alice_client 0 7
                           (budget 1000 2000 None) Fixture.genesis
                           ltac:(vm_compute; reflexivity) benign_none)
                    (Fixture.openCoinFlipRoom true) eq_refl eq_refl)).
    vm_compute. discriminate.
Defined.
